(** * Repack Manager: the download worker of [repack.py] and [richer_gui.py]

    A shallow embedding of the queue walk of the two GUI variants
    ([DownloaderGUI.download_worker], [stop_downloads], [pause_downloads],
    [calculate_checksum], [load_urls] / [process_loaded_urls]) and the
    properties of it that the specification states.

    The collaborators imported from [cli] (and selenium, [os], [time],
    [hashlib]) are not part of the two files; they are the fields of the
    class [Env] below and every theorem holds for all of them. *)

From Stdlib Require Import QArith.
From stdpp Require Import base list sets strings numbers pretty gmap.


(** ** Task record ([class DownloadStatus], [class DownloadItem]) *)

Inductive DownloadStatus := PENDING | DOWNLOADING | COMPLETED | FAILED | SKIPPED.

#[global] Instance DownloadStatus_eq_dec : EqDecision DownloadStatus.
Proof. solve_decision. Defined.

(** [size] is a Python float ([getsize / (1024 * 1024)]) and the two time
    stamps are [time.time()] floats; both are finite and are kept here as
    the rationals they denote. *)
Record DownloadItem := mkDownloadItem {
  url : string;
  filename : string;
  status : DownloadStatus;
  progress : Z;
  size : Q;
  checksum : option string;
  error : option string;
  start_time : option Q;
  end_time : option Q
}.

Definition with_status (v : DownloadStatus) (it : DownloadItem) : DownloadItem :=
  mkDownloadItem (url it) (filename it) v (progress it) (size it)
                 (checksum it) (error it) (start_time it) (end_time it).
Definition with_size (v : Q) (it : DownloadItem) : DownloadItem :=
  mkDownloadItem (url it) (filename it) (status it) (progress it) v
                 (checksum it) (error it) (start_time it) (end_time it).
Definition with_checksum (v : option string) (it : DownloadItem) : DownloadItem :=
  mkDownloadItem (url it) (filename it) (status it) (progress it) (size it)
                 v (error it) (start_time it) (end_time it).
Definition with_error (v : option string) (it : DownloadItem) : DownloadItem :=
  mkDownloadItem (url it) (filename it) (status it) (progress it) (size it)
                 (checksum it) v (start_time it) (end_time it).
Definition with_start_time (v : option Q) (it : DownloadItem) : DownloadItem :=
  mkDownloadItem (url it) (filename it) (status it) (progress it) (size it)
                 (checksum it) (error it) v (end_time it).
Definition with_end_time (v : option Q) (it : DownloadItem) : DownloadItem :=
  mkDownloadItem (url it) (filename it) (status it) (progress it) (size it)
                 (checksum it) (error it) (start_time it) v.

(** ** Messages on [gui_queue] *)

Inductive Level := Info | Success | Warning | Error.

Inductive Msg :=
| MsgLog (text : string) (level : Level)
| MsgStatus (text : string)
| MsgProgress (pct : Z)
| MsgUpdateQueue
| MsgUpdateStats
| MsgDownloadComplete.

#[global] Instance Level_eq_dec : EqDecision Level.
Proof. solve_decision. Defined.
#[global] Instance Msg_eq_dec : EqDecision Msg.
Proof. solve_decision. Defined.

(** A raised Python exception, kept as the text [f"{e}"] prints. *)
Definition Exception := string.

(** The Tk variables the worker reads. *)
Record Settings := mkSettings {
  clean_cr_var : bool;
  headless_var : bool;
  checksum_var : bool;
  session_refresh_var : Z
}.

(** ** Python string helpers *)

(** [s.endswith(suf)] *)
Definition endswith (s suf : string) : bool :=
  let n := String.length s in
  let m := String.length suf in
  if (m <=? n)%nat then String.eqb (String.substring (n - m) m s) suf else false.

(** [s.endswith((a, b, ...))] *)
Definition endswith_any (s : string) (sufs : list string) : bool :=
  existsb (endswith s) sufs.

(** Truth value of a [str | None]. *)
Definition truthy (o : option string) : bool :=
  match o with
  | Some s => negb (String.eqb s "")
  | None => false
  end.

(** [getsize(path) / (1024 * 1024)] *)
Definition megabytes (bytes : N) : Q := Qmake (Z.of_N bytes) 1048576.

(** The successive results of [f.read(n)] on a file holding [bs]. *)
Fixpoint read_chunks (fuel n : nat) (bs : list Byte.byte) : list (list Byte.byte) :=
  match fuel, bs with
  | _, [] => []
  | O, _ => []
  | S fuel', _ => take n bs :: read_chunks fuel' n (drop n bs)
  end.

(** ** The collaborators *)

Inductive Call {Driver : Type} :=
| CallSetup (r : Exception + Driver)
| CallQuit (d : Driver) (r : option Exception)
| CallClick (d : Driver) (u : string) (r : Exception + bool).
Arguments Call : clear implicits.

Class Env (World Driver : Type) := {
  (* cli *)
  setup_driver : World → (Exception + Driver) * World;
  click_download_button : Driver → string → World → (Exception + bool) * World;
  check_file_exists : string → World → option string;
  get_filename_from_url : string → option string;
  (* selenium: driver.quit() *)
  driver_quit : Driver → World → option Exception * World;
  (* os.path.getsize under download_dir; None when the path does not exist *)
  getsize : string → World → option N;
  (* open(path, 'rb') and its content *)
  read_file : string → World → Exception + list Byte.byte;
  (* hashlib.sha256 of the bytes fed to update(), as hexdigest() *)
  sha256_hexdigest : list Byte.byte → string;
  time_time : World → Q;
  time_sleep : Z → World → World;
  (* download_dir.mkdir(parents=True, exist_ok=True) *)
  mkdir : World → option Exception * World;
  (* the loop over os.listdir(download_dir) that removes the files with the
     listed suffixes: it raises when os.listdir does, and passes over what
     os.remove raises *)
  remove_temp_files : list string → World → option Exception * World;
  (* int((a / b) * 100) in floating point *)
  percent : nat → nat → Z;
  (* f"{x:.1f}" *)
  format_1f : Q → string
}.

(** ** Worker state and its monad *)

(** A statement either returns a value or raises. *)
Inductive Outcome (A : Type) :=
| Returns (a : A)
| Raises (e : Exception).
Arguments Returns {A} a.
Arguments Raises {A} e.

Section Gui.
Context {World Driver : Type} `{!Env World Driver}.

(** [self] of [DownloaderGUI] as far as the worker uses it, the outside
    world, the worker's local [downloads_since_refresh], and a ghost log of
    the calls made on the browser session. *)
Record DownloaderGUI := mkGUI {
  world : World;
  download_items : list DownloadItem;
  is_downloading : bool;
  driver : option Driver;
  gui_queue : list Msg;
  log_text : list (string * Level);
  downloads_since_refresh : Z;
  calls : list (Call Driver)
}.

Definition M (A : Type) : Type := DownloaderGUI → Outcome A * DownloaderGUI.

#[export] Instance M_ret : MRet M := λ A a g, (Returns a, g).
#[export] Instance M_bind : MBind M := λ A B f m g,
  match m g with
  | (Returns a, g') => f a g'
  | (Raises e, g') => (Raises e, g')
  end.

Definition raise {A} (e : Exception) : M A := λ g, (Raises e, g).
Definition gets {A} (f : DownloaderGUI → A) : M A := λ g, (Returns (f g), g).
Definition modify (f : DownloaderGUI → DownloaderGUI) : M unit := λ g, (Returns (), f g).

(** [try: body except Exception as e: handler(e)] *)
Definition try_except {A} (body : M A) (handler : Exception → M A) : M A := λ g,
  match body g with
  | (Returns a, g') => (Returns a, g')
  | (Raises e, g') => handler e g'
  end.

(** [try: body finally: final] *)
Definition try_finally {A} (body : M A) (final : M unit) : M A := λ g,
  match body g with
  | (r, g') =>
      match final g' with
      | (Returns _, g'') => (r, g'')
      | (Raises e, g'') => (Raises e, g'')
      end
  end.

Definition set_world (w : World) (g : DownloaderGUI) : DownloaderGUI :=
  mkGUI w (download_items g) (is_downloading g) (driver g) (gui_queue g)
        (log_text g) (downloads_since_refresh g) (calls g).
Definition set_download_items (l : list DownloadItem) (g : DownloaderGUI) : DownloaderGUI :=
  mkGUI (world g) l (is_downloading g) (driver g) (gui_queue g)
        (log_text g) (downloads_since_refresh g) (calls g).
Definition set_is_downloading (b : bool) (g : DownloaderGUI) : DownloaderGUI :=
  mkGUI (world g) (download_items g) b (driver g) (gui_queue g)
        (log_text g) (downloads_since_refresh g) (calls g).
Definition set_driver (d : option Driver) (g : DownloaderGUI) : DownloaderGUI :=
  mkGUI (world g) (download_items g) (is_downloading g) d (gui_queue g)
        (log_text g) (downloads_since_refresh g) (calls g).
Definition set_gui_queue (q : list Msg) (g : DownloaderGUI) : DownloaderGUI :=
  mkGUI (world g) (download_items g) (is_downloading g) (driver g) q
        (log_text g) (downloads_since_refresh g) (calls g).
Definition set_log_text (t : list (string * Level)) (g : DownloaderGUI) : DownloaderGUI :=
  mkGUI (world g) (download_items g) (is_downloading g) (driver g) (gui_queue g)
        t (downloads_since_refresh g) (calls g).
Definition set_downloads_since_refresh (n : Z) (g : DownloaderGUI) : DownloaderGUI :=
  mkGUI (world g) (download_items g) (is_downloading g) (driver g) (gui_queue g)
        (log_text g) n (calls g).
Definition set_calls (c : list (Call Driver)) (g : DownloaderGUI) : DownloaderGUI :=
  mkGUI (world g) (download_items g) (is_downloading g) (driver g) (gui_queue g)
        (log_text g) (downloads_since_refresh g) c.

(** [self.gui_queue.put(m)] *)
Definition put (m : Msg) : M unit :=
  modify (λ g, set_gui_queue (gui_queue g ++ [m]) g).

(** [self.log(text, level)]: a line written to the log widget directly. *)
Definition log (text : string) (level : Level) : M unit :=
  modify (λ g, set_log_text (log_text g ++ [(text, level)]) g).

(** [item = self.download_items[idx]] *)
Definition item_at (idx : nat) : M DownloadItem := λ g,
  match download_items g !! idx with
  | Some it => (Returns it, g)
  | None => (Raises "IndexError", g)
  end.

(** [item.field = v] for the item object at position [idx]. *)
Definition update_item (idx : nat) (f : DownloadItem → DownloadItem) : M unit :=
  modify (λ g, set_download_items (alter f idx (download_items g)) g).

Definition call_setup_driver : M Driver := λ g,
  let '(r, w) := setup_driver (world g) in
  let g' := set_calls (calls g ++ [CallSetup r]) (set_world w g) in
  match r with
  | inr d => (Returns d, g')
  | inl e => (Raises e, g')
  end.

(** [self.driver.quit()] *)
Definition call_driver_quit : M unit := λ g,
  match driver g with
  | None => (Raises "AttributeError: 'NoneType' object has no attribute 'quit'", g)
  | Some d =>
      let '(r, w) := driver_quit d (world g) in
      let g' := set_calls (calls g ++ [CallQuit d r]) (set_world w g) in
      match r with
      | None => (Returns (), g')
      | Some e => (Raises e, g')
      end
  end.

(** [click_download_button(self.driver, u, download_dir)] *)
Definition call_click_download_button (u : string) : M bool := λ g,
  match driver g with
  | None => (Raises "AttributeError: 'NoneType' object has no attribute 'get'", g)
  | Some d =>
      let '(r, w) := click_download_button d u (world g) in
      let g' := set_calls (calls g ++ [CallClick d u r]) (set_world w g) in
      match r with
      | inr b => (Returns b, g')
      | inl e => (Raises e, g')
      end
  end.

Definition sleep (secs : Z) : M unit :=
  modify (λ g, set_world (time_sleep secs (world g)) g).

(** [download_dir.mkdir(parents=True, exist_ok=True)] *)
Definition call_mkdir : M unit := λ g,
  let '(r, w) := mkdir (world g) in
  match r with
  | None => (Returns (), set_world w g)
  | Some e => (Raises e, set_world w g)
  end.

(** [for file in os.listdir(download_dir): ...], removing the files with
    the suffixes [sufs]. *)
Definition call_remove_temp_files (sufs : list string) : M unit := λ g,
  let '(r, w) := remove_temp_files sufs (world g) in
  match r with
  | None => (Returns (), set_world w g)
  | Some e => (Raises e, set_world w g)
  end.

(** [calculate_checksum], the same text in both files. *)
Definition calculate_checksum (file_path : string) : M (option string) :=
  r ← gets (λ g, read_file file_path (world g));
  match r with
  | inr content =>
      let chunks := read_chunks (length content) 4096 content in
      mret (Some (sha256_hexdigest (concat chunks)))
  | inl e =>
      log ("Checksum error: " +:+ e) Error;;
      mret None
  end.

(** [DownloadItem(url)] *)
Definition new_DownloadItem (u : string) : DownloadItem :=
  let name :=
    match get_filename_from_url u with
    | Some f => if String.eqb f "" then String.substring 0 50 u else f
    | None => String.substring 0 50 u
    end in
  mkDownloadItem u name PENDING 0 0 None None None None.

(** [list(dict.fromkeys(urls))]: the keys of an insertion-ordered dict. *)
Definition dict_fromkeys (urls : list string) : list string :=
  fold_left (λ keys u, if bool_decide (u ∈ keys) then keys else keys ++ [u]) urls [].

End Gui.

Arguments DownloaderGUI : clear implicits.
Arguments M : clear implicits.

(** [if o: yes(o) else: no] for [o : str | None]. *)
Definition if_truthy {A : Type} (o : option string) (yes : string → A) (no : A) : A :=
  match o with
  | Some s => if String.eqb s "" then no else yes s
  | None => no
  end.

(** How one turn of the [for] loop ends. *)
Inductive LoopCtl := Continue | Break.

(** What the GUI thread did since the worker last read [is_downloading]:
    nothing, the Pause button or the Stop button. *)
Inductive UserAction := Pause | Stop.

(** ** [repack.py] *)

Module Repack.
Section Worker.
Context {World Driver : Type} `{!Env World Driver}.
Variable cfg : Settings.
Local Abbreviation M := (M World Driver).

Definition partial_suffixes : list string := [".crdownload"; ".part"; ".tmp"].

Definition pause_downloads : M unit :=
  modify (set_is_downloading false);;
  log "Downloads paused" Warning.

Definition stop_downloads : M unit :=
  modify (set_is_downloading false);;
  d ← gets driver;
  (if d is Some _ then try_except call_driver_quit (λ _, mret ()) else mret ());;
  log "Downloads stopped" Error.

Definition user (a : option UserAction) : M unit :=
  match a with
  | None => mret ()
  | Some Pause => pause_downloads
  | Some Stop => stop_downloads
  end.

(** Lines 556-562: the branch taken when the file exists. *)
Definition skip_existing (idx : nat) (item : DownloadItem) (existing : string) : M LoopCtl :=
  update_item idx (with_status SKIPPED);;
  sz ← gets (λ g, getsize existing (world g));
  (if sz is Some bytes then update_item idx (with_size (megabytes bytes)) else mret ());;
  put (MsgLog ("Skipped (exists): " +:+ filename item) Warning);;
  put MsgUpdateQueue;;
  mret Continue.

(** Lines 570-576: [# Session refresh]. *)
Definition session_refresh : M unit :=
  n ← gets downloads_since_refresh;
  if (session_refresh_var cfg <=? n)%Z then
    put (MsgLog "Refreshing browser session..." Info);;
    call_driver_quit;;
    sleep 1;;
    d ← call_setup_driver;
    modify (set_driver (Some d));;
    modify (set_downloads_since_refresh 0)
  else mret ().

(** Lines 585-595: [# Get file info]. *)
Definition get_file_info (idx : nat) (item : DownloadItem) : M unit :=
  downloaded ← gets (λ g, check_file_exists (url item) (world g));
  if_truthy downloaded
    (λ name,
       sz ← gets (λ g, getsize name (world g));
       if sz is Some bytes then
         update_item idx (with_size (megabytes bytes));;
         if checksum_var cfg then
           put (MsgLog ("Verifying checksum for " +:+ name) Info);;
           c ← calculate_checksum name;
           update_item idx (with_checksum c)
         else mret ()
       else mret ())
    (mret ()).

(** Lines 578-607: [# Download], from the call of [click_download_button]
    to the end of the turn. *)
Definition download_and_record (idx : nat) (item : DownloadItem) : M LoopCtl :=
  result ← call_click_download_button (url item);
  (if (result : bool) then
     update_item idx (with_status COMPLETED);;
     modify (λ g, set_downloads_since_refresh (downloads_since_refresh g + 1) g);;
     get_file_info idx item;;
     now ← item_at idx;
     put (MsgLog ("✅ Completed: " +:+ filename item +:+ " ("
                    +:+ format_1f (size now) +:+ "MB)") Success)
   else
     update_item idx (with_status FAILED);;
     update_item idx (with_error (Some "Download failed"));;
     put (MsgLog ("❌ Failed: " +:+ filename item) Error));;
  t ← gets (λ g, time_time (world g));
  update_item idx (with_end_time (Some t));;
  put MsgUpdateQueue;;
  put MsgUpdateStats;;
  sleep 2;;
  mret Continue.

(** Lines 564-607: the body once the file is known not to exist. *)
Definition attempt_download (idx : nat) (item : DownloadItem) : M LoopCtl :=
  update_item idx (with_status DOWNLOADING);;
  t ← gets (λ g, time_time (world g));
  update_item idx (with_start_time (Some t));;
  put MsgUpdateQueue;;
  put (MsgLog ("Downloading: " +:+ filename item) Info);;
  session_refresh;;
  download_and_record idx item.

(** Lines 553-607: the body from the answer [existing] of the first
    [check_file_exists] on. *)
Definition process_item (idx : nat) (item : DownloadItem) (existing : option string)
  : M LoopCtl :=
  if_truthy existing
    (λ name,
       if negb (endswith_any name partial_suffixes)
       then skip_existing idx item name
       else attempt_download idx item)
    (attempt_download idx item).

(** Lines 547-607: one turn of [for idx, item in enumerate(...)]. *)
Definition loop_body (idx : nat) : M LoopCtl :=
  running ← gets is_downloading;
  if negb running then mret Break else
  item ← item_at idx;
  total ← gets (λ g, length (download_items g));
  put (MsgStatus ("Processing " +:+ pretty (idx + 1)%nat +:+ "/" +:+ pretty total
                    +:+ ": " +:+ filename item));;
  put (MsgProgress (percent idx total));;
  existing ← gets (λ g, check_file_exists (url item) (world g));
  process_item idx item existing.

(** The loop over the [n] items from position [idx] on; [sched i] is what
    the GUI thread did before the worker tests the flag in turn [i]. *)
Fixpoint for_loop (sched : nat → option UserAction) (n idx : nat) : M unit :=
  match n with
  | O => mret ()
  | S n' =>
      user (sched idx);;
      c ← loop_body idx;
      match c with
      | Break => mret ()
      | Continue => for_loop sched n' (S idx)
      end
  end.

(** Lines 536-608: the [try] block. *)
Definition try_block (sched : nat → option UserAction) : M unit :=
  d ← call_setup_driver;
  modify (set_driver (Some d));;
  modify (set_downloads_since_refresh 0);;
  total ← gets (λ g, length (download_items g));
  for_loop sched total 0.

(** Lines 611-614: the [finally] block. *)
Definition finally_block : M unit :=
  d ← gets driver;
  (if d is Some _ then call_driver_quit else mret ());;
  put MsgDownloadComplete.

(** Lines 536, 609-614: [try: body except Exception as e: ... finally: ...]
    around a piece [body] of the worker. *)
Definition try_frame (body : M unit) : M unit :=
  try_finally
    (try_except body (λ e, put (MsgLog ("Error: " +:+ e) Error)))
    finally_block.

(** Lines 523-534: what comes before the [try], outside of it. *)
Definition prepare_download_dir : M unit :=
  call_mkdir;;
  if clean_cr_var cfg then
    put (MsgLog "Cleaning temporary files..." Info);;
    call_remove_temp_files [".crdownload"; ".part"; ".tmp"]
  else mret ().

Definition download_worker (sched : nat → option UserAction) : M unit :=
  prepare_download_dir;;
  try_frame (try_block sched).

(** Lines 422-436 of [load_urls]; [urls] is the list gathered from the text
    file and the scraped page.  An empty list only shows the warning box. *)
Definition load_urls (urls : list string) : M unit :=
  if bool_decide (urls = []) then mret () else
  let urls := dict_fromkeys urls in
  modify (set_download_items (new_DownloadItem <$> urls));;
  n ← gets (λ g, length (download_items g));
  log ("Loaded " +:+ pretty n +:+ " unique URLs") Success.

End Worker.
End Repack.

(** ** [richer_gui.py] *)

Module RicherGui.
Section Worker.
Context {World Driver : Type} `{!Env World Driver}.
Variable cfg : Settings.
Local Abbreviation M := (M World Driver).

Definition partial_suffixes : list string := [".crdownload"; ".part"].

Definition pause_downloads : M unit :=
  modify (set_is_downloading false);;
  log "Pausing after current download..." Warning.

Definition stop_downloads : M unit :=
  modify (set_is_downloading false);;
  log "Stopping all operations..." Error;;
  d ← gets driver;
  if d is Some _ then try_except call_driver_quit (λ _, mret ()) else mret ().

Definition user (a : option UserAction) : M unit :=
  match a with
  | None => mret ()
  | Some Pause => pause_downloads
  | Some Stop => stop_downloads
  end.

(** Lines 617-624: the branch taken when the file exists. *)
Definition skip_existing (idx : nat) (item : DownloadItem) (existing : string) : M LoopCtl :=
  update_item idx (with_status SKIPPED);;
  sz ← gets (λ g, getsize existing (world g));
  (if sz is Some bytes then update_item idx (with_size (megabytes bytes)) else mret ());;
  put (MsgLog ("Skipped (exists): " +:+ filename item) Warning);;
  put MsgUpdateQueue;;
  total ← gets (λ g, length (download_items g));
  put (MsgProgress (percent idx total));;
  mret Continue.

(** Lines 626-632: [# Refresh session logic]. *)
Definition session_refresh : M unit :=
  n ← gets downloads_since_refresh;
  if (session_refresh_var cfg <=? n)%Z then
    put (MsgLog "Refreshing browser session..." Info);;
    call_driver_quit;;
    sleep 1;;
    d ← call_setup_driver;
    modify (set_driver (Some d));;
    modify (set_downloads_since_refresh 0)
  else mret ().

(** Lines 646-655: the file info after a successful download; here
    [getsize] is called without asking whether the path exists. *)
Definition get_file_info (idx : nat) (item : DownloadItem) : M unit :=
  downloaded ← gets (λ g, check_file_exists (url item) (world g));
  if_truthy downloaded
    (λ name,
       sz ← gets (λ g, getsize name (world g));
       (if sz is Some bytes then update_item idx (with_size (megabytes bytes))
        else raise "FileNotFoundError");;
       (if checksum_var cfg then
          put (MsgLog ("Verifying: " +:+ name) Info);;
          c ← calculate_checksum name;
          update_item idx (with_checksum c)
        else mret ());;
       put (MsgLog ("Success: " +:+ filename item) Success))
    (mret ()).

(** Lines 640-663: from the call of [click_download_button] to the end of
    the turn. *)
Definition download_and_record (idx : nat) (item : DownloadItem) : M LoopCtl :=
  result ← call_click_download_button (url item);
  (if (result : bool) then
     update_item idx (with_status COMPLETED);;
     modify (λ g, set_downloads_since_refresh (downloads_since_refresh g + 1) g);;
     get_file_info idx item
   else
     update_item idx (with_status FAILED);;
     put (MsgLog ("Failed: " +:+ filename item) Error));;
  t ← gets (λ g, time_time (world g));
  update_item idx (with_end_time (Some t));;
  put MsgUpdateQueue;;
  put MsgUpdateStats;;
  total ← gets (λ g, length (download_items g));
  put (MsgProgress (percent (idx + 1) total));;
  mret Continue.

(** Lines 626-663: the body once the file is known not to exist. *)
Definition attempt_download (idx : nat) (item : DownloadItem) : M LoopCtl :=
  session_refresh;;
  update_item idx (with_status DOWNLOADING);;
  t ← gets (λ g, time_time (world g));
  update_item idx (with_start_time (Some t));;
  put (MsgStatus ("Downloading: " +:+ filename item));;
  put MsgUpdateQueue;;
  download_and_record idx item.

(** Lines 614-663: the body from the answer [existing] of the first
    [check_file_exists] on. *)
Definition process_item (idx : nat) (item : DownloadItem) (existing : option string)
  : M LoopCtl :=
  if_truthy existing
    (λ name,
       if negb (endswith_any name partial_suffixes)
       then skip_existing idx item name
       else attempt_download idx item)
    (attempt_download idx item).

(** Lines 611-663: one turn of [for idx, item in enumerate(...)]. *)
Definition loop_body (idx : nat) : M LoopCtl :=
  running ← gets is_downloading;
  if negb running then mret Break else
  item ← item_at idx;
  existing ← gets (λ g, check_file_exists (url item) (world g));
  process_item idx item existing.

Fixpoint for_loop (sched : nat → option UserAction) (n idx : nat) : M unit :=
  match n with
  | O => mret ()
  | S n' =>
      user (sched idx);;
      c ← loop_body idx;
      match c with
      | Break => mret ()
      | Continue => for_loop sched n' (S idx)
      end
  end.

(** Lines 601-664: the [try] block. *)
Definition try_block (sched : nat → option UserAction) : M unit :=
  d ← call_setup_driver;
  modify (set_driver (Some d));;
  modify (set_downloads_since_refresh 0);;
  total ← gets (λ g, length (download_items g));
  for_loop sched total 0.

(** Lines 667-670: the [finally] block. *)
Definition finally_block : M unit :=
  d ← gets driver;
  (if d is Some _ then call_driver_quit else mret ());;
  put MsgDownloadComplete.

(** Lines 601, 665-670: [try: body except Exception as e: ... finally: ...]
    around a piece [body] of the worker. *)
Definition try_frame (body : M unit) : M unit :=
  try_finally
    (try_except body (λ e, put (MsgLog ("Critical Error: " +:+ e) Error)))
    finally_block.

(** Lines 590-599: what comes before the [try], outside of it. *)
Definition prepare_download_dir : M unit :=
  call_mkdir;;
  if clean_cr_var cfg then
    put (MsgLog "Cleaning temp files..." Info);;
    call_remove_temp_files [".crdownload"; ".part"; ".tmp"]
  else mret ().

Definition download_worker (sched : nat → option UserAction) : M unit :=
  prepare_download_dir;;
  try_frame (try_block sched).

Definition process_loaded_urls (urls : list string) : M unit :=
  let urls := dict_fromkeys urls in
  modify (set_download_items (new_DownloadItem <$> urls));;
  n ← gets (λ g, length (download_items g));
  log ("Queue populated with " +:+ pretty n +:+ " items") Success.

End Worker.
End RicherGui.

(** ** The two variants side by side *)

Inductive Variant := repack_py | richer_gui_py.

Section Variants.
Context {World Driver : Type} `{!Env World Driver}.
Local Abbreviation M := (M World Driver).

Definition partial_suffixes (v : Variant) : list string :=
  match v with
  | repack_py => Repack.partial_suffixes
  | richer_gui_py => RicherGui.partial_suffixes
  end.

Definition process_item (v : Variant) (cfg : Settings)
  : nat → DownloadItem → option string → M LoopCtl :=
  match v with
  | repack_py => Repack.process_item cfg
  | richer_gui_py => RicherGui.process_item cfg
  end.

Definition loop_body (v : Variant) (cfg : Settings) : nat → M LoopCtl :=
  match v with
  | repack_py => Repack.loop_body cfg
  | richer_gui_py => RicherGui.loop_body cfg
  end.

Definition for_loop (v : Variant) (cfg : Settings)
  : (nat → option UserAction) → nat → nat → M unit :=
  match v with
  | repack_py => Repack.for_loop cfg
  | richer_gui_py => RicherGui.for_loop cfg
  end.

Definition download_and_record (v : Variant) (cfg : Settings)
  : nat → DownloadItem → M LoopCtl :=
  match v with
  | repack_py => Repack.download_and_record cfg
  | richer_gui_py => RicherGui.download_and_record cfg
  end.

Definition prepare_download_dir (v : Variant) (cfg : Settings) : M unit :=
  match v with
  | repack_py => Repack.prepare_download_dir cfg
  | richer_gui_py => RicherGui.prepare_download_dir cfg
  end.

Definition download_worker (v : Variant) (cfg : Settings)
  : (nat → option UserAction) → M unit :=
  match v with
  | repack_py => Repack.download_worker cfg
  | richer_gui_py => RicherGui.download_worker cfg
  end.

Definition try_frame (v : Variant) : M unit → M unit :=
  match v with
  | repack_py => Repack.try_frame
  | richer_gui_py => RicherGui.try_frame
  end.

Definition stop_downloads (v : Variant) : M unit :=
  match v with
  | repack_py => Repack.stop_downloads
  | richer_gui_py => RicherGui.stop_downloads
  end.

Definition user (v : Variant) : option UserAction → M unit :=
  match v with
  | repack_py => Repack.user
  | richer_gui_py => RicherGui.user
  end.

Definition try_block (v : Variant) (cfg : Settings)
  : (nat → option UserAction) → M unit :=
  match v with
  | repack_py => Repack.try_block cfg
  | richer_gui_py => RicherGui.try_block cfg
  end.

(** The text the [except] block of the worker puts in front of [e]. *)
Definition error_prefix (v : Variant) : string :=
  match v with
  | repack_py => "Error: "
  | richer_gui_py => "Critical Error: "
  end.

(** Loading a batch: [load_urls] from its line 422 on, [process_loaded_urls]. *)
Definition load (v : Variant) : list string → M unit :=
  match v with
  | repack_py => Repack.load_urls
  | richer_gui_py => RicherGui.process_loaded_urls
  end.

(** The calls, messages and log lines added between two states. *)
Definition new_calls (g g' : DownloaderGUI World Driver) : list (Call Driver) :=
  drop (length (calls g)) (calls g').
Definition new_msgs (g g' : DownloaderGUI World Driver) : list Msg :=
  drop (length (gui_queue g)) (gui_queue g').
Definition new_log (g g' : DownloaderGUI World Driver) : list (string * Level) :=
  drop (length (log_text g)) (log_text g').

(** The number of downloads that returned [True] since the session in use
    was acquired, read off the call log. *)
Definition count_call (n : Z) (c : Call Driver) : Z :=
  match c with
  | CallSetup (inr _) => 0
  | CallClick _ _ (inr true) => n + 1
  | _ => n
  end.
Definition completed_since_acquire (cs : list (Call Driver)) : Z :=
  fold_left count_call cs 0%Z.

(** [downloads_since_refresh] agrees with the call log. *)
Definition counter_ok (g : DownloaderGUI World Driver) : Prop :=
  downloads_since_refresh g = completed_since_acquire (calls g).

(** Every task in [Completed] or [Failed] carries an end time stamp. *)
Definition stamped (it : DownloadItem) : Prop :=
  status it = COMPLETED ∨ status it = FAILED → is_Some (end_time it).
Definition terminal_stamped (g : DownloaderGUI World Driver) : Prop :=
  ∀ i it, download_items g !! i = Some it → stamped it.

(** A name reported by [check_file_exists] is the name of a file. *)
Definition oracle_sound : Prop :=
  ∀ u w name, check_file_exists u w = Some name → is_Some (getsize name w).


(** The task at [idx] is not skipped: [check_file_exists] finds nothing,
    or a name with a partial-download suffix. *)
Definition not_skipped (v : Variant) (o : option string) : Prop :=
  if_truthy o (λ name, endswith_any name (partial_suffixes v)) true = true.

(** What one turn of the loop for position [idx] may change: the item at
    [idx] but not its url, the call log by calls for that url, the message
    queue by messages other than [download_complete], the log widget. *)
Definition turn_frame (idx : nat) (g g' : DownloaderGUI World Driver) : Prop :=
  length (download_items g') = length (download_items g) ∧
  (∀ j, j ≠ idx → download_items g' !! j = download_items g !! j) ∧
  url <$> download_items g' !! idx = url <$> download_items g !! idx ∧
  is_downloading g' = is_downloading g ∧
  (∃ cs, calls g' = calls g ++ cs ∧
     ∀ d u res, CallClick d u res ∈ cs → url <$> download_items g !! idx = Some u) ∧
  (∃ ms, gui_queue g' = gui_queue g ++ ms ∧ MsgDownloadComplete ∉ ms) ∧
  (∃ ls, log_text g' = log_text g ++ ls).

(** What the turns from position [idx] on may change. *)
Definition loop_frame (idx : nat) (g g' : DownloaderGUI World Driver) : Prop :=
  length (download_items g') = length (download_items g) ∧
  (∀ j, j < idx → download_items g' !! j = download_items g !! j) ∧
  (∀ j, url <$> download_items g' !! j = url <$> download_items g !! j) ∧
  (∃ cs, calls g' = calls g ++ cs ∧
     ∀ d u res, CallClick d u res ∈ cs →
       ∃ j, idx ≤ j ∧ url <$> download_items g !! j = Some u) ∧
  (∃ ms, gui_queue g' = gui_queue g ++ ms ∧ MsgDownloadComplete ∉ ms).

(** The message the [except] block of the worker puts on the queue. *)
Definition except_msgs {A : Type} (v : Variant) (r : Outcome A) : list Msg :=
  match r with
  | Returns _ => []
  | Raises e => [MsgLog (error_prefix v +:+ e) Error]
  end.

(** ** Weakest preconditions for [M] *)

Definition wp {A : Type} (m : M A) (g : DownloaderGUI World Driver)
    (Q : Outcome A → DownloaderGUI World Driver → Prop) : Prop :=
  Q (m g).1 (m g).2.

End Variants.

(** [l.index(u)], [None] standing for [ValueError]. *)
Fixpoint index_of (u : string) (l : list string) : option nat :=
  match l with
  | [] => None
  | x :: l' => if decide (x = u) then Some O else S <$> index_of u l'
  end.

(** ** A simulated site for concrete runs

    Sessions are numbered; a click on a url starting with [boom] raises, on
    one starting with [bad] returns [False], on [ghost] returns [True] and
    leaves no file, and on any other url returns [True] and leaves a file
    of 2 MiB named after the url.  A file is found for a url when its name
    starts with the url; the file [locked] cannot be opened.  The download
    directory cannot be made when the disk holds a file under its own
    name, written [.]. *)

Module Sim.

Record World := mkWorld {
  disk : list (string * N);
  opened : nat;
  clock : Z
}.

Definition lookup_file (name : string) (w : World) : option N :=
  snd <$> find (λ f, String.eqb (fst f) name) (disk w).

Definition click (d : nat) (u : string) (w : World) : (Exception + bool) * World :=
  if String.prefix "boom" u then (inl "TimeoutException", w)
  else if String.prefix "bad" u then (inr false, w)
  else if String.eqb u "ghost" then (inr true, w)
  else (inr true, mkWorld (disk w ++ [(u, 2097152%N)]) (opened w) (clock w)).

#[export] Instance env : Env World nat := {|
  setup_driver w := (inr (opened w), mkWorld (disk w) (S (opened w)) (clock w));
  click_download_button := click;
  check_file_exists u w := fst <$> find (λ f, String.prefix u (fst f)) (disk w);
  get_filename_from_url u := Some u;
  driver_quit d w := (None, w);
  getsize := lookup_file;
  read_file name w :=
    if String.eqb name "locked" then inl "PermissionError" else inr [];
  sha256_hexdigest bs := pretty (length bs);
  time_time w := inject_Z (clock w);
  time_sleep s w := mkWorld (disk w) (opened w) (clock w + s);
  mkdir w :=
    (if bool_decide (is_Some (lookup_file "." w)) then Some "FileExistsError" else None, w);
  remove_temp_files sufs w :=
    (None,
     mkWorld (filter (λ f, endswith_any (fst f) sufs = false) (disk w)) (opened w) (clock w));
  percent a b := (Z.of_nat a * 100 / Z.of_nat b)%Z;
  format_1f q := pretty (Qnum q / Z.pos (Qden q))%Z
|}.

Definition cfg : Settings := mkSettings false true true 2.

(** The GUI just after Start with a freshly loaded batch. *)
Definition start (files : list (string * N)) (urls : list string)
  : DownloaderGUI World nat :=
  mkGUI (mkWorld files 0 0) (new_DownloadItem <$> urls) true None [] [] 0 [].

(** The same once the worker has acquired its first session. *)
Definition acquired (files : list (string * N)) (urls : list string)
  : DownloaderGUI World nat :=
  mkGUI (mkWorld files 1 0) (new_DownloadItem <$> urls) true (Some 0) [] [] 0
        [CallSetup (inr 0)].

Definition never : nat → option UserAction := λ _, None.

Definition run (v : Variant) (sched : nat → option UserAction)
    (files : list (string * N)) (urls : list string) : DownloaderGUI World nat :=
  snd (download_worker v cfg sched (start files urls)).

Definition statuses (g : DownloaderGUI World nat) : list DownloadStatus :=
  status <$> download_items g.

End Sim.

(** * The GUI thread

    The rest of [class DownloaderGUI]: the functions Tk calls on the GUI
    thread ([load_urls], [start_downloads], [check_queue] and what it
    dispatches to, [clean_crdownload_files], [load_settings],
    [save_settings]) and the scraping thread of [richer_gui.py]. *)

(** ** Values read from [downloader_settings.json] *)

Inductive Json :=
| JString (s : string)
| JBool (b : bool)
| JInt (n : Z)
| JOther.

(** What [json.load] returns: a dict, or a value of another type. *)
Inductive Document :=
| JDict (d : gmap string Json)
| JNotDict.

(** ** The collaborators of the GUI thread *)

Class Desktop (World Driver : Type) := {
  (* os.path.exists *)
  path_exists : string → World → bool;
  (* os.listdir *)
  listdir : string → World → Exception + list string;
  (* os.remove(os.path.join(dir, file)) *)
  os_remove : string → string → World → option Exception * World;
  (* cli *)
  read_urls_from_txt : string → World → Exception + list string;
  scrape_links : Driver → string → World → (Exception + list string) * World;
  (* str.strip *)
  strip : string → string;
  (* open('downloader_settings.json', 'r') and json.load *)
  settings_load : World → Exception + Document;
  (* open('downloader_settings.json', 'w') and json.dump *)
  settings_dump : gmap string Json → World → option Exception * World;
  (* what a Tk variable makes of a value that is not of its own type *)
  tk_string : Json → Exception + string;
  tk_boolean : Json → Exception + bool;
  tk_int : Json → Exception + Z;
  (* f"{(a / b) * 100:.1f}" in floating point *)
  rate_1f : nat → nat → string
}.

(** ** Widgets *)

(** [tk.NORMAL], [tk.DISABLED] *)
Inductive TkState := NORMAL | DISABLED.

Inductive Box :=
| showwarning (title message : string)
| showinfo (title message : string)
| showerror (title message : string).

Inductive Thread :=
| download_thread
| scrape_thread (main_url : string).

(** A line of the queue view: [text], [values], [tags]. *)
Record Row := mkRow {
  row_text : string;
  row_values : string * string * string * string;
  row_tags : string
}.

(** An entry of [gui_queue] as [check_queue] reads it: one of the messages
    of the download worker, or the result of the scraping thread. *)
Inductive Entry :=
| Of (m : Msg)
| MsgScrapeResult (scraped : list string).

#[global] Instance TkState_eq_dec : EqDecision TkState.
Proof. solve_decision. Defined.
#[global] Instance Entry_eq_dec : EqDecision Entry.
Proof. solve_decision. Defined.

Definition nl : string := String (Ascii.ascii_of_nat 10) EmptyString.

(** ** Pure parts of the views *)

(** The string constants of [class DownloadStatus]. *)
Definition status_value (s : DownloadStatus) : string :=
  match s with
  | PENDING => "pending"
  | DOWNLOADING => "downloading"
  | COMPLETED => "completed"
  | FAILED => "failed"
  | SKIPPED => "skipped"
  end.

(** [sum(1 for item in items if item.status == s)] *)
Definition count_status (s : DownloadStatus) (items : list DownloadItem) : nat :=
  sum_list ((λ _, 1) <$> filter (λ item, status item = s) items).

(** [n or 1] *)
Definition or_1 (n : nat) : nat := if n is O then 1 else n.

(** The numbers [update_statistics] shows. *)
Record Statistics := mkStatistics {
  total : nat;
  completed : nat;
  failed : nat;
  skipped : nat;
  pending : nat;
  downloading : nat
}.

Definition statistics (items : list DownloadItem) : Statistics :=
  mkStatistics (length items) (count_status COMPLETED items) (count_status FAILED items)
    (count_status SKIPPED items) (count_status PENDING items)
    (count_status DOWNLOADING items).

(** ** Notions for the properties of the worker *)

(** What the worker never writes: the url, the name and the progress of a
    task. *)
Definition identity (item : DownloadItem) : string * string * Z :=
  (url item, filename item, progress item).

(** A task the worker is done with. *)
Definition settled (item : DownloadItem) : Prop :=
  status item = SKIPPED ∨ status item = COMPLETED ∨ status item = FAILED.

(** The most downloads one session serves. *)
Definition session_bound (cfg : Settings) : Z := Z.max (session_refresh_var cfg) 1.

(** The calls since [base] keep every session within the bound, and the
    worker's counter agrees with them. *)
Definition served_within {World Driver : Type} (cfg : Settings)
    (base : list (Call Driver)) (g : DownloaderGUI World Driver) : Prop :=
  ∃ cs, calls g = base ++ cs ∧
    downloads_since_refresh g = completed_since_acquire cs ∧
    ∀ k, (0 ≤ completed_since_acquire (take k cs) ≤ session_bound cfg)%Z.

(** In the calls since [base], a session is acquired anew only when the
    one before has served the threshold; the worker's counter agrees with
    these calls. *)
Definition recycled_in_time {World Driver : Type} (cfg : Settings)
    (base : list (Call Driver)) (g : DownloaderGUI World Driver) : Prop :=
  ∃ cs, calls g = base ++ cs ∧
    downloads_since_refresh g = completed_since_acquire cs ∧
    ∀ k res, 0 < k → cs !! k = Some (CallSetup res) →
      (session_refresh_var cfg ≤ completed_since_acquire (take k cs))%Z.

(** The names of a listing that [clean_crdownload_files] removes. *)
Definition temporary_files (files : list string) : list string :=
  filter (λ file, endswith_any file [".crdownload"; ".part"; ".tmp"] = true) files.

Section Views.
Context {World Driver : Type} `{!Env World Driver} `{!Desktop World Driver}.

(** The text [update_statistics] writes. *)
Definition stats (v : Variant) (s : Statistics) : string :=
  let rate := rate_1f (completed s) (or_1 (total s)) in
  match v with
  | repack_py =>
      "Total Files: " +:+ pretty (total s) +:+ nl +:+
      "✅ Completed: " +:+ pretty (completed s) +:+ nl +:+
      "⏳ Pending: " +:+ pretty (pending s) +:+ nl +:+
      "⬇️ Downloading: " +:+ pretty (downloading s) +:+ nl +:+
      "⏭️ Skipped: " +:+ pretty (skipped s) +:+ nl +:+
      "❌ Failed: " +:+ pretty (failed s) +:+ nl +:+
      nl +:+
      "Success Rate: " +:+ rate +:+ "%"
  | richer_gui_py =>
      nl +:+
      " TOTAL FILES : " +:+ pretty (total s) +:+ nl +:+
      " ──────────────────────" +:+ nl +:+
      " COMPLETED   : " +:+ pretty (completed s) +:+ nl +:+
      " DOWNLOADING : " +:+ pretty (downloading s) +:+ nl +:+
      " PENDING     : " +:+ pretty (pending s) +:+ nl +:+
      " SKIPPED     : " +:+ pretty (skipped s) +:+ nl +:+
      " FAILED      : " +:+ pretty (failed s) +:+ nl +:+
      " ──────────────────────" +:+ nl +:+
      " SUCCESS RATE: " +:+ rate +:+ "%" +:+ nl +:+
      "        "
  end.

Definition status_icon (v : Variant) (s : DownloadStatus) : string :=
  match v, s with
  | repack_py, PENDING => "⏳"
  | repack_py, DOWNLOADING => "⬇️"
  | repack_py, COMPLETED => "✅"
  | repack_py, FAILED => "❌"
  | repack_py, SKIPPED => "⏭️"
  | richer_gui_py, PENDING => "⏳"
  | richer_gui_py, DOWNLOADING => "⬇"
  | richer_gui_py, COMPLETED => "✔"
  | richer_gui_py, FAILED => "✖"
  | richer_gui_py, SKIPPED => "⏭"
  end.

(** [s.upper()] for the constants of [DownloadStatus]. *)
Definition status_upper (s : DownloadStatus) : string :=
  match s with
  | PENDING => "PENDING"
  | DOWNLOADING => "DOWNLOADING"
  | COMPLETED => "COMPLETED"
  | FAILED => "FAILED"
  | SKIPPED => "SKIPPED"
  end.

Definition size_str (v : Variant) (item : DownloadItem) : string :=
  if (0 <? Qnum (size item))%Z then
    format_1f (size item) +:+ (if v is repack_py then "MB" else " MB")
  else "-".

Definition progress_str (item : DownloadItem) : string :=
  if (0 <? progress item)%Z then pretty (progress item) +:+ "%" else "-".

(** The row [update_queue_display] inserts for [item], numbered [idx]. *)
Definition row (v : Variant) (idx : nat) (item : DownloadItem) : Row :=
  mkRow (pretty idx)
        (filename item,
         status_icon v (status item) +:+ " " +:+
           (if v is repack_py then status_value (status item)
            else status_upper (status item)),
         progress_str item, size_str v item)
        (status_value (status item)).

(** [for idx, item in enumerate(self.download_items, 1)] *)
Definition rows (v : Variant) (items : list DownloadItem) : list Row :=
  imap (λ i item, row v (S i) item) items.

End Views.

(** ** The window and the monad of the GUI thread *)

Section Window.
Context {World Driver : Type} `{!Env World Driver} `{!Desktop World Driver}.

(** [self] with its widgets.  [self] is the part the download worker
    shares; [inbox] is [gui_queue] as the GUI thread reads it; [boxes],
    [threads] and [removals] record the message boxes shown, the threads
    started and the calls of [os.remove]. *)
Record Window := mkWindow {
  self : DownloaderGUI World Driver;
  inbox : list Entry;
  txt_file_var : string;
  url_entry : string;
  output_var : string;
  tk_vars : Settings;
  status_label : string;
  progress_bar : Z;
  queue_tree : list Row;
  stats_text : string;
  start_btn : TkState;
  pause_btn : TkState;
  stop_btn : TkState;
  boxes : list Box;
  threads : list Thread;
  removals : list (string * option Exception)
}.

Definition W (A : Type) : Type := Window → Outcome A * Window.

#[export] Instance W_ret : MRet W := λ A a w, (Returns a, w).
#[export] Instance W_bind : MBind W := λ A B f m w,
  match m w with
  | (Returns a, w') => f a w'
  | (Raises e, w') => (Raises e, w')
  end.

Definition set_self (g : DownloaderGUI World Driver) (w : Window) : Window :=
  mkWindow g (inbox w) (txt_file_var w) (url_entry w) (output_var w) (tk_vars w)
    (status_label w) (progress_bar w) (queue_tree w) (stats_text w)
    (start_btn w) (pause_btn w) (stop_btn w) (boxes w) (threads w) (removals w).
Definition set_inbox (q : list Entry) (w : Window) : Window :=
  mkWindow (self w) q (txt_file_var w) (url_entry w) (output_var w) (tk_vars w)
    (status_label w) (progress_bar w) (queue_tree w) (stats_text w)
    (start_btn w) (pause_btn w) (stop_btn w) (boxes w) (threads w) (removals w).
Definition set_output_var (s : string) (w : Window) : Window :=
  mkWindow (self w) (inbox w) (txt_file_var w) (url_entry w) s (tk_vars w)
    (status_label w) (progress_bar w) (queue_tree w) (stats_text w)
    (start_btn w) (pause_btn w) (stop_btn w) (boxes w) (threads w) (removals w).
Definition set_tk_vars (c : Settings) (w : Window) : Window :=
  mkWindow (self w) (inbox w) (txt_file_var w) (url_entry w) (output_var w) c
    (status_label w) (progress_bar w) (queue_tree w) (stats_text w)
    (start_btn w) (pause_btn w) (stop_btn w) (boxes w) (threads w) (removals w).
Definition set_status_label (s : string) (w : Window) : Window :=
  mkWindow (self w) (inbox w) (txt_file_var w) (url_entry w) (output_var w) (tk_vars w)
    s (progress_bar w) (queue_tree w) (stats_text w)
    (start_btn w) (pause_btn w) (stop_btn w) (boxes w) (threads w) (removals w).
Definition set_progress_bar (p : Z) (w : Window) : Window :=
  mkWindow (self w) (inbox w) (txt_file_var w) (url_entry w) (output_var w) (tk_vars w)
    (status_label w) p (queue_tree w) (stats_text w)
    (start_btn w) (pause_btn w) (stop_btn w) (boxes w) (threads w) (removals w).
Definition set_queue_tree (r : list Row) (w : Window) : Window :=
  mkWindow (self w) (inbox w) (txt_file_var w) (url_entry w) (output_var w) (tk_vars w)
    (status_label w) (progress_bar w) r (stats_text w)
    (start_btn w) (pause_btn w) (stop_btn w) (boxes w) (threads w) (removals w).
Definition set_stats_text (s : string) (w : Window) : Window :=
  mkWindow (self w) (inbox w) (txt_file_var w) (url_entry w) (output_var w) (tk_vars w)
    (status_label w) (progress_bar w) (queue_tree w) s
    (start_btn w) (pause_btn w) (stop_btn w) (boxes w) (threads w) (removals w).
Definition set_start_btn (s : TkState) (w : Window) : Window :=
  mkWindow (self w) (inbox w) (txt_file_var w) (url_entry w) (output_var w) (tk_vars w)
    (status_label w) (progress_bar w) (queue_tree w) (stats_text w)
    s (pause_btn w) (stop_btn w) (boxes w) (threads w) (removals w).
Definition set_pause_btn (s : TkState) (w : Window) : Window :=
  mkWindow (self w) (inbox w) (txt_file_var w) (url_entry w) (output_var w) (tk_vars w)
    (status_label w) (progress_bar w) (queue_tree w) (stats_text w)
    (start_btn w) s (stop_btn w) (boxes w) (threads w) (removals w).
Definition set_stop_btn (s : TkState) (w : Window) : Window :=
  mkWindow (self w) (inbox w) (txt_file_var w) (url_entry w) (output_var w) (tk_vars w)
    (status_label w) (progress_bar w) (queue_tree w) (stats_text w)
    (start_btn w) (pause_btn w) s (boxes w) (threads w) (removals w).
Definition set_boxes (b : list Box) (w : Window) : Window :=
  mkWindow (self w) (inbox w) (txt_file_var w) (url_entry w) (output_var w) (tk_vars w)
    (status_label w) (progress_bar w) (queue_tree w) (stats_text w)
    (start_btn w) (pause_btn w) (stop_btn w) b (threads w) (removals w).
Definition set_threads (t : list Thread) (w : Window) : Window :=
  mkWindow (self w) (inbox w) (txt_file_var w) (url_entry w) (output_var w) (tk_vars w)
    (status_label w) (progress_bar w) (queue_tree w) (stats_text w)
    (start_btn w) (pause_btn w) (stop_btn w) (boxes w) t (removals w).
Definition set_removals (r : list (string * option Exception)) (w : Window) : Window :=
  mkWindow (self w) (inbox w) (txt_file_var w) (url_entry w) (output_var w) (tk_vars w)
    (status_label w) (progress_bar w) (queue_tree w) (stats_text w)
    (start_btn w) (pause_btn w) (stop_btn w) (boxes w) (threads w) r.

End Window.

Arguments Window : clear implicits.
Arguments W : clear implicits.

(** The Tk variables behind [Settings]. *)
Definition with_headless_var (b : bool) (c : Settings) : Settings :=
  mkSettings (clean_cr_var c) b (checksum_var c) (session_refresh_var c).
Definition with_session_refresh_var (n : Z) (c : Settings) : Settings :=
  mkSettings (clean_cr_var c) (headless_var c) (checksum_var c) n.

Module Tk.
Section Tk.
Context {World Driver : Type} `{!Env World Driver} `{!Desktop World Driver}.
Local Abbreviation Window := (Window World Driver).
Local Abbreviation W := (W World Driver).
Local Abbreviation M := (M World Driver).

(** A statement of the worker's monad, run on [self]. *)
Definition on_self {A} (m : M A) : W A := λ w,
  let '(r, g) := m (self w) in (r, set_self g w).

(** [self.log(text, level)] *)
Definition log (text : string) (level : Level) : W unit :=
  on_self (log text level).

(** An assignment to a field of [self] the worker shares. *)
Definition assign (f : DownloaderGUI World Driver → DownloaderGUI World Driver) : W unit :=
  on_self (modify f).

Definition raise {A} (e : Exception) : W A := λ w, (Raises e, w).
Definition gets {A} (f : Window → A) : W A := λ w, (Returns (f w), w).
Definition modify (f : Window → Window) : W unit := λ w, (Returns (), f w).

(** [try: body except Exception as e: handler(e)] *)
Definition try_except {A} (body : W A) (handler : Exception → W A) : W A := λ w,
  match body w with
  | (Returns a, w') => (Returns a, w')
  | (Raises e, w') => handler e w'
  end.

(** [try: body except Exception as e: ...], the exception handed on as a
    value. *)
Definition attempt {A} (body : W A) : W (Exception + A) := λ w,
  match body w with
  | (Returns a, w') => (Returns (inr a), w')
  | (Raises e, w') => (Returns (inl e), w')
  end.

(** An answer of a collaborator that does not change the world. *)
Definition answer {A} (f : World → Exception + A) : W A := λ w,
  match f (world (self w)) with
  | inr a => (Returns a, w)
  | inl e => (Raises e, w)
  end.

(** [self.gui_queue.put(e)] *)
Definition put (e : Entry) : W unit :=
  modify (λ w, set_inbox (inbox w ++ [e]) w).

Definition show (b : Box) : W unit :=
  modify (λ w, set_boxes (boxes w ++ [b]) w).

(** [threading.Thread(target=..., daemon=True).start()] *)
Definition start_thread (t : Thread) : W unit :=
  modify (λ w, set_threads (threads w ++ [t]) w).

(** [driver = setup_driver(...)] for a local [driver]. *)
Definition local_setup_driver : W Driver := on_self call_setup_driver.

(** [driver.quit()] for a local [driver]. *)
Definition local_driver_quit (d : Driver) : W unit :=
  on_self (λ g,
    let '(r, w) := driver_quit d (world g) in
    let g' := set_calls (calls g ++ [CallQuit d r]) (set_world w g) in
    match r with
    | None => (Returns (), g')
    | Some e => (Raises e, g')
    end).

(** [scrape_links(driver, main_url)] *)
Definition call_scrape_links (d : Driver) (main_url : string) : W (list string) :=
  on_self (λ g,
    let '(r, w) := scrape_links d main_url (world g) in
    match r with
    | inr scraped => (Returns scraped, set_world w g)
    | inl e => (Raises e, set_world w g)
    end).

(** [os.remove(os.path.join(output_dir, file))] *)
Definition call_os_remove (output_dir file : string) : W unit := λ w,
  let '(r, wd) := os_remove output_dir file (world (self w)) in
  let w' := set_removals (removals w ++ [(file, r)]) (set_self (set_world wd (self w)) w) in
  match r with
  | None => (Returns (), w')
  | Some e => (Raises e, w')
  end.

(** ** [update_status], [update_statistics], [update_queue_display] *)

Definition update_status (message : string) : W unit :=
  modify (set_status_label message).

Definition update_statistics (v : Variant) : W unit :=
  modify (λ w, set_stats_text (stats v (statistics (download_items (self w)))) w).

Definition update_queue_display (v : Variant) : W unit :=
  modify (λ w, set_queue_tree (rows v (download_items (self w))) w).

(** ** [process_loaded_urls] and the end of [load_urls] *)

(** Lines 425-436 of [repack.py], lines 521-529 of [richer_gui.py]. *)
Definition process_loaded_urls (v : Variant) (urls : list string) : W unit :=
  let urls := dict_fromkeys urls in
  assign (set_download_items (new_DownloadItem <$> urls));;
  update_queue_display v;;
  update_statistics v;;
  n ← gets (λ w, length (download_items (self w)));
  match v with
  | repack_py => log ("Loaded " +:+ pretty n +:+ " unique URLs") Success
  | richer_gui_py => log ("Queue populated with " +:+ pretty n +:+ " items") Success
  end.

(** Lines 399-403 of [repack.py], 481-485 of [richer_gui.py]: the value of
    [urls] after the text file was read. *)
Definition load_from_text_file : W (list string) :=
  txt_file ← gets txt_file_var;
  there ← gets (λ w, path_exists txt_file (world (self w)));
  if negb (String.eqb txt_file "") && there then
    urls ← answer (read_urls_from_txt txt_file);
    log ("Loaded " +:+ pretty (length urls) +:+ " URLs from text file") Success;;
    mret urls
  else mret [].

(** [Path(self.output_var.get() or "./downloads").mkdir(parents=True,
    exist_ok=True)] *)
Definition make_scrape_dir : W unit := on_self call_mkdir.

(** Lines 409-419 of [repack.py]: the [try] statement around the scraping;
    the result is the value of [urls] after it.  [urls.extend(scraped)]
    comes before [driver.quit()]. *)
Definition scrape (main_url : string) (urls : list string) : W (list string) :=
  r ← attempt (make_scrape_dir;;
               d ← local_setup_driver;
               scraped ← call_scrape_links d main_url;
               mret (d, scraped));
  match r with
  | inl e => log ("Error scraping: " +:+ e) Error;; mret urls
  | inr (d, scraped) =>
      let urls := urls ++ scraped in
      r ← attempt (local_driver_quit d;;
                   log ("Scraped " +:+ pretty (length scraped) +:+ " URLs from main page")
                       Success);
      match r with
      | inl e => log ("Error scraping: " +:+ e) Error;; mret urls
      | inr _ => mret urls
      end
  end.

(** Lines 493-509 of [richer_gui.py]. *)
Definition scrape_worker (main_url : string) : W unit :=
  try_except
    (make_scrape_dir;;
     put (Of (MsgStatus "Initializing scraper..."));;
     d ← local_setup_driver;
     put (Of (MsgStatus ("Scraping " +:+ main_url +:+ "...")));;
     scraped ← call_scrape_links d main_url;
     local_driver_quit d;;
     put (MsgScrapeResult scraped))
    (λ e,
       put (Of (MsgLog ("Error scraping: " +:+ e) Error));;
       put (Of (MsgStatus "Scraping failed"))).

Definition load_urls (v : Variant) : W unit :=
  urls ← load_from_text_file;
  main_url ← gets (λ w, strip (url_entry w));
  match v with
  | repack_py =>
      urls ← (if negb (String.eqb main_url "") then
                log "Scraping main page..." Info;;
                scrape main_url urls
              else mret urls);
      if bool_decide (urls = []) then
        show (showwarning "No URLs"
                "No URLs found. Please provide a text file or main page URL.")
      else process_loaded_urls repack_py urls
  | richer_gui_py =>
      if negb (String.eqb main_url "") then
        log "Scraping main page..." Info;;
        start_thread (scrape_thread main_url)
      else if bool_decide (urls = []) && String.eqb main_url "" then
        show (showwarning "No Input" "Please provide a text file or URL.")
      else process_loaded_urls richer_gui_py urls
  end.

(** ** [clean_crdownload_files] ([repack.py]) *)

(** Lines 474-478: the loop over the listing; [removed] is the list built
    so far. *)
Fixpoint remove_listed (output_dir : string) (files removed : list string)
  : W (list string) :=
  match files with
  | [] => mret removed
  | file :: files' =>
      if endswith_any file [".crdownload"; ".part"; ".tmp"] then
        call_os_remove output_dir file;;
        remove_listed output_dir files' (removed ++ [file])
      else remove_listed output_dir files' removed
  end.

Definition clean_crdownload_files : W unit :=
  output_dir ← gets output_var;
  there ← gets (λ w, path_exists output_dir (world (self w)));
  if String.eqb output_dir "" || negb there then
    show (showwarning "No Directory" "Please select an output directory first.")
  else
    try_except
      (files ← answer (listdir output_dir);
       removed ← remove_listed output_dir files [];
       if bool_decide (removed ≠ []) then
         log ("Cleaned " +:+ pretty (length removed) +:+ " temporary files") Success;;
         show (showinfo "Success"
                 ("Removed " +:+ pretty (length removed) +:+ " temporary files:" +:+ nl
                    +:+ String.concat nl (take 5 removed)))
       else show (showinfo "Clean" "No temporary files found."))
      (λ e,
         log ("Error cleaning files: " +:+ e) Error;;
         show (showerror "Error" ("Failed to clean files: " +:+ e))).

(** ** [start_downloads], [pause_downloads], [stop_downloads] *)

Definition start_downloads (v : Variant) : W unit :=
  items ← gets (λ w, download_items (self w));
  if bool_decide (items = []) then
    show (match v with
          | repack_py => showwarning "No URLs" "Please load URLs first."
          | richer_gui_py => showwarning "No Items" "Queue is empty. Load URLs first."
          end)
  else
    output_dir ← gets output_var;
    if String.eqb output_dir "" then
      show (showwarning "No Output" "Please select an output directory.")
    else
      assign (set_is_downloading true);;
      modify (set_start_btn DISABLED);;
      modify (set_pause_btn NORMAL);;
      modify (set_stop_btn NORMAL);;
      (if v is richer_gui_py then log "Starting batch download..." Info else mret ());;
      start_thread download_thread.

Definition pause_downloads (v : Variant) : W unit :=
  assign (set_is_downloading false);;
  modify (set_pause_btn DISABLED);;
  match v with
  | repack_py => log "Downloads paused" Warning
  | richer_gui_py => log "Pausing after current download..." Warning
  end.

(** [if self.driver: try: self.driver.quit() except: pass] *)
Definition quit_quietly : W unit :=
  d ← gets (λ w, driver (self w));
  if d is Some _ then try_except (on_self call_driver_quit) (λ _, mret ()) else mret ().

Definition stop_downloads (v : Variant) : W unit :=
  assign (set_is_downloading false);;
  (if v is richer_gui_py then log "Stopping all operations..." Error else mret ());;
  quit_quietly;;
  modify (set_start_btn NORMAL);;
  modify (set_pause_btn DISABLED);;
  modify (set_stop_btn DISABLED);;
  (if v is repack_py then log "Downloads stopped" Error else mret ()).

(** ** [check_queue] and [on_download_complete] *)

Definition on_download_complete (v : Variant) : W unit :=
  assign (set_is_downloading false);;
  modify (set_start_btn NORMAL);;
  modify (set_pause_btn DISABLED);;
  modify (set_stop_btn DISABLED);;
  modify (set_progress_bar 100);;
  match v with
  | repack_py =>
      update_status "Downloads complete!";;
      log "All downloads finished" Success;;
      s ← gets (λ w, statistics (download_items (self w)));
      show (showinfo "Downloads Complete"
              ("✅ Completed: " +:+ pretty (completed s) +:+ nl +:+
               "⏭️ Skipped: " +:+ pretty (skipped s) +:+ nl +:+
               "❌ Failed: " +:+ pretty (failed s)))
  | richer_gui_py =>
      update_status "Batch operation complete";;
      log "All operations finished" Success
  end.

(** The branch of [check_queue] for one entry; [repack.py] has none for
    [scrape_result]. *)
Definition dispatch (v : Variant) (e : Entry) : W unit :=
  match e with
  | Of (MsgLog text level) => log text level
  | Of (MsgStatus text) => update_status text
  | Of (MsgProgress pct) => modify (set_progress_bar pct)
  | Of MsgUpdateQueue => update_queue_display v
  | Of MsgUpdateStats => update_statistics v
  | Of MsgDownloadComplete => on_download_complete v
  | MsgScrapeResult scraped =>
      match v with
      | repack_py => mret ()
      | richer_gui_py => process_loaded_urls richer_gui_py scraped
      end
  end.

(** [while True: ... self.gui_queue.get_nowait() ...] until [queue.Empty];
    [n] bounds the number of turns. *)
Fixpoint drain (v : Variant) (n : nat) : W unit :=
  match n with
  | O => mret ()
  | S n' =>
      q ← gets inbox;
      match q with
      | [] => mret ()
      | e :: q' =>
          modify (set_inbox q');;
          dispatch v e;;
          drain v n'
      end
  end.

(** No branch puts an entry on the queue, so the entries present at the
    start bound the number of turns. *)
Definition check_queue (v : Variant) : W unit :=
  n ← gets (λ w, length (inbox w));
  drain v n.

(** ** The download thread *)

(** [download_worker] runs on [self]; what it puts on [gui_queue] arrives
    in the queue the GUI thread reads. *)
Definition run_download_thread (v : Variant) (sched : nat → option UserAction) : W unit := λ w,
  let '(r, g) := download_worker v (tk_vars w) sched (self w) in
  (r, set_inbox (inbox w ++ (Of <$> new_msgs (self w) g)) (set_self g w)).

(** ** [load_settings], [save_settings] *)

(** [var.set(value)] for the three kinds of Tk variable. *)
Definition StringVar_set (j : Json) : W string :=
  match j with
  | JString s => mret s
  | _ => answer (λ _, tk_string j)
  end.
Definition BooleanVar_set (j : Json) : W bool :=
  match j with
  | JBool b => mret b
  | _ => answer (λ _, tk_boolean j)
  end.
Definition IntVar_set (j : Json) : W Z :=
  match j with
  | JInt n => mret n
  | _ => answer (λ _, tk_int j)
  end.

Definition settings_file : string := "downloader_settings.json".

Definition load_settings : W unit :=
  try_except
    (there ← gets (λ w, path_exists settings_file (world (self w)));
     if (there : bool) then
       doc ← answer settings_load;
       match doc with
       | JNotDict => raise "AttributeError"
       | JDict settings =>
           s ← StringVar_set (default (JString "") (settings !! "output_dir"));
           modify (set_output_var s);;
           b ← BooleanVar_set (default (JBool true) (settings !! "headless"));
           modify (λ w, set_tk_vars (with_headless_var b (tk_vars w)) w);;
           n ← IntVar_set (default (JInt 10) (settings !! "session_refresh"));
           modify (λ w, set_tk_vars (with_session_refresh_var n (tk_vars w)) w)
       end
     else mret ())
    (λ _, mret ()).

(** The dict [save_settings] dumps. *)
Definition saved_settings (v : Variant) (w : Window) : gmap string Json :=
  match v with
  | repack_py =>
      list_to_map [("output_dir", JString (output_var w));
                   ("headless", JBool (headless_var (tk_vars w)));
                   ("session_refresh", JInt (session_refresh_var (tk_vars w)));
                   ("verify_checksum", JBool (checksum_var (tk_vars w)));
                   ("clean_crdownload", JBool (clean_cr_var (tk_vars w)))]
  | richer_gui_py =>
      list_to_map [("output_dir", JString (output_var w));
                   ("headless", JBool (headless_var (tk_vars w)));
                   ("session_refresh", JInt (session_refresh_var (tk_vars w)))]
  end.

Definition save_settings (v : Variant) : W unit :=
  try_except
    (settings ← gets (saved_settings v);
     on_self (λ g,
       let '(r, w) := settings_dump settings (world g) in
       match r with
       | None => (Returns (), set_world w g)
       | Some e => (Raises e, set_world w g)
       end))
    (λ _, mret ()).

(** [on_closing] of [main]; [ok] is the answer to [askokcancel], and the
    result tells whether [root.destroy()] was reached. *)
Definition on_closing (v : Variant) (ok : bool) : W bool :=
  save_settings v;;
  running ← gets (λ w, is_downloading (self w));
  if (running : bool) then
    if ok then stop_downloads v;; mret true else mret false
  else mret true.

(** The urls [load_urls] takes from the text file: those of
    [read_urls_from_txt] when a file is named and exists, none otherwise. *)
Definition text_file_urls (w : Window) : Exception + list string :=
  if negb (String.eqb (txt_file_var w) "")
     && path_exists (txt_file_var w) (world (self w))
  then read_urls_from_txt (txt_file_var w) (world (self w))
  else inr [].

(** The GUI at rest after a batch, and the GUI while a batch runs. *)
Definition idle (w : Window) : Prop :=
  is_downloading (self w) = false ∧ start_btn w = NORMAL ∧
  pause_btn w = DISABLED ∧ stop_btn w = DISABLED ∧ progress_bar w = 100%Z.
Definition busy (w : Window) : Prop :=
  is_downloading (self w) = true ∧ start_btn w = DISABLED ∧
  pause_btn w = NORMAL ∧ stop_btn w = NORMAL.

(** The weakest precondition for [W]. *)
Definition wpw {A : Type} (m : W A) (w : Window) (Q : Outcome A → Window → Prop) : Prop :=
  Q (m w).1 (m w).2.

End Tk.
End Tk.

(** ** A simulated desktop for concrete runs of the GUI thread

    The output directory holds the names [dir]; [os.remove] fails for the
    names in [locked]; the settings file holds [settings]; the text file
    holds the urls [text_file]; scraping the main page gives [page];
    [driver.quit()] raises when [quit_raises] is set.  Every download returns
    [True] and leaves a file named after the url; every file holds 5000
    bytes. *)

Module Lab.

Record World := mkWorld {
  dir : list string;
  locked : list string;
  settings : option Document;
  text_file : list string;
  page : Exception + list string;
  quit_raises : bool;
  opened : nat
}.

Definition with_dir (l : list string) (w : World) : World :=
  mkWorld l (locked w) (settings w) (text_file w) (page w) (quit_raises w) (opened w).

#[global] Instance env : Env World nat := {|
  setup_driver w :=
    (inr (opened w),
     mkWorld (dir w) (locked w) (settings w) (text_file w) (page w) (quit_raises w)
       (S (opened w)));
  click_download_button d u w := (inr true, with_dir (dir w ++ [u]) w);
  check_file_exists u w := find (String.eqb u) (dir w);
  get_filename_from_url u := Some u;
  driver_quit d w := (if quit_raises w then Some "WebDriverException" else None, w);
  getsize name w := if bool_decide (name ∈ dir w) then Some 5000%N else None;
  read_file name w :=
    if bool_decide (name ∈ dir w) then inr (replicate 5000 Byte.x00)
    else inl "FileNotFoundError";
  sha256_hexdigest bs := pretty (length bs);
  time_time w := 0%Q;
  time_sleep s w := w;
  mkdir w := (None, w);
  remove_temp_files sufs w :=
    (None, with_dir (filter (λ f, endswith_any f sufs = false) (dir w)) w);
  percent a b := (Z.of_nat a * 100 / Z.of_nat b)%Z;
  format_1f q := pretty (Qnum q / Z.pos (Qden q))%Z
|}.

#[global] Instance desktop : Desktop World nat := {|
  path_exists p w :=
    if String.eqb p "downloader_settings.json" then bool_decide (is_Some (settings w))
    else negb (String.eqb p "missing");
  listdir p w := inr (dir w);
  os_remove p file w :=
    if bool_decide (file ∈ locked w) then (Some "PermissionError", w)
    else (None, with_dir (filter (λ f, f ≠ file) (dir w)) w);
  read_urls_from_txt p w := inr (text_file w);
  scrape_links d u w := (page w, w);
  strip s := s;
  settings_load w :=
    match settings w with
    | Some doc => inr doc
    | None => inl "FileNotFoundError"
    end;
  settings_dump j w :=
    (None,
     mkWorld (dir w) (locked w) (Some (JDict j)) (text_file w) (page w) (quit_raises w)
       (opened w));
  tk_string j := inl "TclError";
  tk_boolean j := inl "TclError";
  tk_int j := inl "TclError";
  rate_1f a b := pretty (a * 100 / b)
|}.

Definition with_locked (l : list string) (w : World) : World :=
  mkWorld (dir w) l (settings w) (text_file w) (page w) (quit_raises w) (opened w).
Definition with_settings (d : option Document) (w : World) : World :=
  mkWorld (dir w) (locked w) d (text_file w) (page w) (quit_raises w) (opened w).
Definition with_text_file (l : list string) (w : World) : World :=
  mkWorld (dir w) (locked w) (settings w) l (page w) (quit_raises w) (opened w).
Definition with_page (p : Exception + list string) (w : World) : World :=
  mkWorld (dir w) (locked w) (settings w) (text_file w) p (quit_raises w) (opened w).
Definition with_quit_raises (b : bool) (w : World) : World :=
  mkWorld (dir w) (locked w) (settings w) (text_file w) (page w) b (opened w).

Definition vars : Settings := mkSettings true true true 2.

(** A world with these names in the output directory and nothing else. *)
Definition folder (files : list string) : World :=
  mkWorld files [] None [] (inr []) false 0.

(** The window at rest over a world, with these urls loaded, [urls.txt] as
    the text file, [out] as the output directory and [main_url] in the url
    field. *)
Definition window (wd : World) (urls : list string) (main_url : string)
  : Window World nat :=
  mkWindow (mkGUI wd (new_DownloadItem <$> urls) false None [] [] 0 [])
    [] "urls.txt" main_url "out" vars "Ready" 0 [] "" NORMAL DISABLED DISABLED
    [] [] [].

Definition never : nat → option UserAction := λ _, None.

End Lab.

(** * Reasoning about the worker *)

(** ** Rules of the weakest precondition *)

Section Rules.
Context {World Driver : Type} `{!Env World Driver}.
Local Abbreviation G := (DownloaderGUI World Driver).
Local Abbreviation M := (M World Driver).

Lemma wp_elim {A} (m : M A) (g : G) Q : wp m g Q → ∀ r g', m g = (r, g') → Q r g'.
Proof. unfold wp. intros HQ r g' E. by rewrite E in HQ. Qed.

Lemma wp_intro {A} (m : M A) (g : G) (Q : Outcome A → G → Prop) :
  (∀ r g', m g = (r, g') → Q r g') → wp m g Q.
Proof. unfold wp. intros HQ. apply HQ. by destruct (m g). Qed.

Lemma wp_bind {A B} (m : M A) (f : A → M B) (g : G) Q :
  wp m g (λ r g1, match r with
                  | Returns a => wp (f a) g1 Q
                  | Raises e => Q (Raises e) g1
                  end) →
  wp (m ≫= f) g Q.
Proof. unfold wp, mbind, M_bind. destruct (m g) as [[a|e] g1]; done. Qed.

Lemma wp_ret {A} (a : A) (g : G) Q : Q (Returns a) g → wp (mret a) g Q.
Proof. done. Qed.

Lemma wp_raise {A} e (g : G) (Q : Outcome A → G → Prop) : Q (Raises e) g → wp (raise e) g Q.
Proof. done. Qed.

Lemma wp_gets {A} (f : G → A) (g : G) Q : Q (Returns (f g)) g → wp (gets f) g Q.
Proof. done. Qed.

Lemma wp_modify f (g : G) Q : Q (Returns ()) (f g) → wp (modify f) g Q.
Proof. done. Qed.

Lemma wp_put m (g : G) Q :
  Q (Returns ()) (set_gui_queue (gui_queue g ++ [m]) g) → wp (put m) g Q.
Proof. done. Qed.

Lemma wp_log t l (g : G) Q :
  Q (Returns ()) (set_log_text (log_text g ++ [(t, l)]) g) → wp (log t l) g Q.
Proof. done. Qed.

Lemma wp_update_item idx f (g : G) Q :
  Q (Returns ()) (set_download_items (alter f idx (download_items g)) g) →
  wp (update_item idx f) g Q.
Proof. done. Qed.

Lemma wp_sleep s (g : G) Q :
  Q (Returns ()) (set_world (time_sleep s (world g)) g) → wp (sleep s) g Q.
Proof. done. Qed.

Lemma wp_call_mkdir (g : G) Q :
  (∀ w, mkdir (world g) = (None, w) → Q (Returns ()) (set_world w g)) →
  (∀ e w, mkdir (world g) = (Some e, w) → Q (Raises e) (set_world w g)) →
  wp call_mkdir g Q.
Proof.
  unfold wp, call_mkdir. destruct (mkdir _) as [[e|] w] eqn:?; simpl; auto.
Qed.

Lemma wp_call_remove_temp_files sufs (g : G) Q :
  (∀ w, remove_temp_files sufs (world g) = (None, w) → Q (Returns ()) (set_world w g)) →
  (∀ e w, remove_temp_files sufs (world g) = (Some e, w) → Q (Raises e) (set_world w g)) →
  wp (call_remove_temp_files sufs) g Q.
Proof.
  unfold wp, call_remove_temp_files.
  destruct (remove_temp_files _ _) as [[e|] w] eqn:?; simpl; auto.
Qed.

Lemma wp_item_at idx (g : G) Q :
  (∀ it, download_items g !! idx = Some it → Q (Returns it) g) →
  (download_items g !! idx = None → Q (Raises "IndexError") g) →
  wp (item_at idx) g Q.
Proof. unfold wp, item_at. destruct (_ !! _) eqn:?; simpl; auto. Qed.

Lemma wp_call_setup (g : G) Q :
  (∀ d w, setup_driver (world g) = (inr d, w) →
     Q (Returns d) (set_calls (calls g ++ [CallSetup (inr d)]) (set_world w g))) →
  (∀ e w, setup_driver (world g) = (inl e, w) →
     Q (Raises e) (set_calls (calls g ++ [CallSetup (inl e)]) (set_world w g))) →
  wp call_setup_driver g Q.
Proof.
  unfold wp, call_setup_driver.
  destruct (setup_driver _) as [[e|d] w] eqn:?; simpl; auto.
Qed.

Lemma wp_call_quit (g : G) Q :
  (driver g = None →
     Q (Raises "AttributeError: 'NoneType' object has no attribute 'quit'") g) →
  (∀ d w, driver g = Some d → driver_quit d (world g) = (None, w) →
     Q (Returns ()) (set_calls (calls g ++ [CallQuit d None]) (set_world w g))) →
  (∀ d e w, driver g = Some d → driver_quit d (world g) = (Some e, w) →
     Q (Raises e) (set_calls (calls g ++ [CallQuit d (Some e)]) (set_world w g))) →
  wp call_driver_quit g Q.
Proof.
  unfold wp, call_driver_quit. destruct (driver g) as [d|]; simpl; auto.
  destruct (driver_quit _ _) as [[e|] w] eqn:?; simpl; eauto.
Qed.

Lemma wp_call_click u (g : G) Q :
  (driver g = None →
     Q (Raises "AttributeError: 'NoneType' object has no attribute 'get'") g) →
  (∀ d b w, driver g = Some d → click_download_button d u (world g) = (inr b, w) →
     Q (Returns b) (set_calls (calls g ++ [CallClick d u (inr b)]) (set_world w g))) →
  (∀ d e w, driver g = Some d → click_download_button d u (world g) = (inl e, w) →
     Q (Raises e) (set_calls (calls g ++ [CallClick d u (inl e)]) (set_world w g))) →
  wp (call_click_download_button u) g Q.
Proof.
  unfold wp, call_click_download_button. destruct (driver g) as [d|]; simpl; auto.
  destruct (click_download_button _ _ _) as [[e|b] w] eqn:?; simpl; eauto.
Qed.

Lemma wp_try_except {A} (m : M A) h (g : G) Q :
  wp m g (λ r g1, match r with
                  | Returns a => Q (Returns a) g1
                  | Raises e => wp (h e) g1 Q
                  end) →
  wp (try_except m h) g Q.
Proof. unfold wp, try_except. destruct (m g) as [[a|e] g1]; done. Qed.

Lemma wp_try_finally {A} (m : M A) final (g : G) Q :
  wp m g (λ r g1, wp final g1 (λ rf g2, match rf with
                                         | Returns _ => Q r g2
                                         | Raises e => Q (Raises e) g2
                                         end)) →
  wp (try_finally m final) g Q.
Proof.
  unfold wp, try_finally. destruct (m g) as [r g1]; simpl.
  destruct (final g1) as [[[]|e] g2]; done.
Qed.

Lemma wp_if_truthy {A} (o : option string) (yes : string → M A) (no : M A) (g : G) Q :
  (∀ name, o = Some name → name ≠ "" → wp (yes name) g Q) →
  (truthy o = false → wp no g Q) →
  wp (if_truthy o yes no) g Q.
Proof.
  intros Hyes Hno. unfold if_truthy. destruct o as [name|]; [|by apply Hno].
  destruct (String.eqb name "") eqn:E.
  - apply Hno. simpl. by rewrite E.
  - apply Hyes; [done|]. intros ->. by rewrite String.eqb_refl in E.
Qed.

(** The two ways through [process_item]. *)
Lemma wp_process_item v cfg idx item existing (g : G) Q :
  (∀ name, existing = Some name → name ≠ "" →
     endswith_any name (partial_suffixes v) = false →
     wp (match v with
         | repack_py => Repack.skip_existing idx item name
         | richer_gui_py => RicherGui.skip_existing idx item name
         end) g Q) →
  (not_skipped v existing →
     wp (match v with
         | repack_py => Repack.attempt_download cfg idx item
         | richer_gui_py => RicherGui.attempt_download cfg idx item
         end) g Q) →
  wp (process_item v cfg idx item existing) g Q.
Proof.
  intros Hskip Hatt. unfold not_skipped in Hatt.
  destruct v; unfold process_item, Repack.process_item, RicherGui.process_item,
    partial_suffixes in *;
    (apply wp_if_truthy; [intros name -> Hne|intros Ht]);
    [ destruct (endswith_any name _) eqn:E; simpl
    | apply Hatt; unfold if_truthy; destruct existing as [s|]; [|done];
      simpl in Ht; by destruct (String.eqb s "")
    | destruct (endswith_any name _) eqn:E; simpl
    | apply Hatt; unfold if_truthy; destruct existing as [s|]; [|done];
      simpl in Ht; by destruct (String.eqb s "") ].
  all: first [ by apply Hskip
             | apply Hatt; unfold if_truthy;
               destruct (String.eqb name "") eqn:E'; [done|by rewrite E] ].
Qed.

End Rules.

(** One step of symbolic execution; [wp_norm] puts the state back in the
    form [mkGUI ...]. *)
Ltac wp_norm :=
  cbv beta iota delta [
    set_world set_download_items set_is_downloading set_driver set_gui_queue
    set_log_text set_downloads_since_refresh set_calls
    world download_items is_downloading driver gui_queue log_text
    downloads_since_refresh calls].

Ltac wp_unfold_block :=
  lazymatch goal with
  | |- wp (if_truthy _ _ _) _ _ => apply wp_if_truthy; [intros ? ? ?|intros ?]
  | |- wp (calculate_checksum _) _ _ => unfold calculate_checksum
  | |- wp (Repack.process_item ?cfg ?idx ?it ?ex) _ _ =>
      apply (wp_process_item repack_py cfg idx it ex); [intros ? ? ? ?|intros ?]
  | |- wp (Repack.attempt_download _ _ _) _ _ => unfold Repack.attempt_download
  | |- wp (Repack.download_and_record _ _ _) _ _ => unfold Repack.download_and_record
  | |- wp (Repack.prepare_download_dir _) _ _ => unfold Repack.prepare_download_dir
  | |- wp (Repack.skip_existing _ _ _) _ _ => unfold Repack.skip_existing
  | |- wp (Repack.session_refresh _) _ _ => unfold Repack.session_refresh
  | |- wp (Repack.get_file_info _ _ _) _ _ => unfold Repack.get_file_info
  | |- wp (Repack.loop_body _ _) _ _ => unfold Repack.loop_body
  | |- wp (Repack.user _) _ _ => unfold Repack.user
  | |- wp Repack.pause_downloads _ _ => unfold Repack.pause_downloads
  | |- wp Repack.stop_downloads _ _ => unfold Repack.stop_downloads
  | |- wp Repack.finally_block _ _ => unfold Repack.finally_block
  | |- wp (Repack.try_frame _) _ _ => unfold Repack.try_frame
  | |- wp (RicherGui.process_item ?cfg ?idx ?it ?ex) _ _ =>
      apply (wp_process_item richer_gui_py cfg idx it ex); [intros ? ? ? ?|intros ?]
  | |- wp (RicherGui.attempt_download _ _ _) _ _ => unfold RicherGui.attempt_download
  | |- wp (RicherGui.download_and_record _ _ _) _ _ => unfold RicherGui.download_and_record
  | |- wp (RicherGui.prepare_download_dir _) _ _ => unfold RicherGui.prepare_download_dir
  | |- wp (RicherGui.skip_existing _ _ _) _ _ => unfold RicherGui.skip_existing
  | |- wp (RicherGui.session_refresh _) _ _ => unfold RicherGui.session_refresh
  | |- wp (RicherGui.get_file_info _ _ _) _ _ => unfold RicherGui.get_file_info
  | |- wp (RicherGui.loop_body _ _) _ _ => unfold RicherGui.loop_body
  | |- wp (RicherGui.user _) _ _ => unfold RicherGui.user
  | |- wp RicherGui.pause_downloads _ _ => unfold RicherGui.pause_downloads
  | |- wp RicherGui.stop_downloads _ _ => unfold RicherGui.stop_downloads
  | |- wp RicherGui.finally_block _ _ => unfold RicherGui.finally_block
  | |- wp (RicherGui.try_frame _) _ _ => unfold RicherGui.try_frame
  end.

(** Introduce a hypothesis about a state [mkGUI ...] and read its fields. *)
Ltac intro_norm :=
  let H := fresh "Hx" in
  intros H;
  cbv beta iota delta [
    world download_items is_downloading driver gui_queue log_text
    downloads_since_refresh calls] in H.

(** [H : alter .. !! idx = None] although the list has an item at [idx]. *)
Ltac lookup_absurd H :=
  exfalso; rewrite ?list_lookup_alter_eq in H;
  match goal with
  | H2 : ?l !! ?i = Some _ |- _ => rewrite H2 in H; discriminate H
  end.

Ltac wp_step :=
  lazymatch goal with
  | |- wp (mbind _ _) _ _ => apply wp_bind
  | |- wp (mret _) _ _ => apply wp_ret
  | |- wp (raise _) _ _ => apply wp_raise
  | |- wp (gets _) _ _ => apply wp_gets
  | |- wp (modify _) _ _ => apply wp_modify
  | |- wp (put _) _ _ => apply wp_put
  | |- wp (log _ _) _ _ => apply wp_log
  | |- wp (update_item _ _) _ _ => apply wp_update_item
  | |- wp (sleep _) _ _ => apply wp_sleep
  | |- wp (item_at _) _ _ =>
      apply wp_item_at;
      [ intros ?; intro_norm
      | let H := fresh "Hnone" in
        intros H; cbv beta iota delta [download_items] in H;
        try lookup_absurd H ]
  | |- wp call_setup_driver _ _ => apply wp_call_setup; intros ? ?; intro_norm
  | |- wp call_mkdir _ _ => apply wp_call_mkdir; [intros ?|intros ? ?]; intro_norm
  | |- wp (call_remove_temp_files _) _ _ =>
      apply wp_call_remove_temp_files; [intros ?|intros ? ?]; intro_norm
  | |- wp call_driver_quit _ _ =>
      apply wp_call_quit;
      [ intro_norm
      | intros ? ?; intro_norm; intro_norm
      | intros ? ? ?; intro_norm; intro_norm ]
  | |- wp (call_click_download_button _) _ _ =>
      apply wp_call_click;
      [ intro_norm
      | intros ? ? ?; intro_norm; intro_norm
      | intros ? ? ?; intro_norm; intro_norm ]
  | |- wp (try_except _ _) _ _ => apply wp_try_except
  | |- wp (try_finally _ _) _ _ => apply wp_try_finally
  | |- wp (match ?x with _ => _ end) _ _ => destruct x eqn:?
  | |- _ => wp_unfold_block
  end; wp_norm.

(** Run a goal [m g = (r, g') → ...] through [m], for the state [g] in the
    form [mkGUI ...]. *)
Ltac wp_run := repeat wp_step.

Ltac wp_norm_hyps :=
  cbv beta iota delta [
    set_world set_download_items set_is_downloading set_driver set_gui_queue
    set_log_text set_downloads_since_refresh set_calls
    world download_items is_downloading driver gui_queue log_text
    downloads_since_refresh calls] in *.

(** [l ++ a ++ b = l ++ ?k], also for no [a] and [b]. *)
Ltac solve_app :=
  rewrite <- ?app_assoc; first [reflexivity | symmetry; apply app_nil_r].

(** Put [new_calls], [new_msgs] and [new_log] of two states [mkGUI ...] in
    the form of a list. *)
Ltac simpl_new :=
  unfold new_calls, new_msgs, new_log in *; wp_norm_hyps;
  rewrite <- ?app_assoc, ?drop_app_length, ?drop_all in *; simpl app in *.

(** ** One turn of the loop *)

Ltac solve_frame :=
  unfold turn_frame; wp_norm_hyps;
  split; [by rewrite ?length_alter|];
  split; [by intros; rewrite ?list_lookup_alter_ne|];
  split; [rewrite ?list_lookup_alter_eq;
          by match goal with |- context [?l !! ?i] => destruct (l !! i) end|];
  split; [reflexivity|];
  split; [eexists; split; [solve_app|];
          intros; decompose_list_elem_of; simplify_eq;
          by match goal with H : _ !! _ = Some _ |- _ => rewrite H end|];
  split; [eexists; split; [solve_app|];
          intros ?; decompose_list_elem_of; discriminate|];
  eexists; solve_app.

(** Turn [H : f <$> (g <$> Some it) = Some it'] into [it' := f (g it)]. *)
Ltac item_fields :=
  cbn [status end_time error checksum size url start_time filename progress
       with_status with_size with_checksum with_error with_start_time
       with_end_time] in *.
Ltac inj_item H :=
  cbn [fmap option_fmap option_map] in H; injection H as <-; item_fields.

(** The item at [idx] after the updates of a turn. *)
Ltac solve_lookup :=
  rewrite ?list_lookup_alter_eq;
  match goal with H : ?l !! ?i = Some _ |- context [?l !! ?i] => rewrite H end;
  reflexivity.

Section Turn.
Context {World Driver : Type} `{!Env World Driver}.
Variable cfg : Settings.
Local Abbreviation G := (DownloaderGUI World Driver).

Lemma turn_frame_holds v idx (g : G) r g' :
  loop_body v cfg idx g = (r, g') → turn_frame idx g g'.
Proof.
  revert r g'. destruct g as [w items flag drv q lg ctr cs].
  apply (wp_elim _ _ (λ _ g', turn_frame idx _ g')).
  destruct v; unfold loop_body; wp_run; solve_frame.
Qed.

(** A click that raises ends the turn with that exception; the item is left
    as it was when the click started. *)
Lemma turn_click_raises v idx (g : G) r g' d u e :
  loop_body v cfg idx g = (r, g') →
  CallClick d u (inl e) ∈ new_calls g g' →
  r = Raises e ∧
  ∃ it t, download_items g !! idx = Some it ∧ url it = u ∧
    download_items g' !! idx
      = Some (with_start_time (Some t) (with_status DOWNLOADING it)).
Proof.
  revert r g'. destruct g as [w items flag drv q lg ctr cs].
  set (g := mkGUI w items flag drv q lg ctr cs).
  apply (wp_elim _ g (λ r g',
    CallClick d u (inl e) ∈ new_calls g g' →
    r = Raises e ∧
    ∃ it t, download_items g !! idx = Some it ∧ url it = u ∧
      download_items g' !! idx
        = Some (with_start_time (Some t) (with_status DOWNLOADING it)))).
  subst g.
  destruct v; unfold loop_body; wp_run.
  all: intros Hin; simpl_new; decompose_list_elem_of; simplify_eq.
  all: split; [done|]; eexists _, _; split; [eassumption|]; split; [done|].
  all: solve_lookup.
Qed.


(** The local counter follows the call log. *)
Lemma turn_counter_ok v idx (g : G) r g' :
  loop_body v cfg idx g = (r, g') → counter_ok g → counter_ok g'.
Proof.
  revert r g'. destruct g as [w items flag drv q lg ctr cs].
  set (g := mkGUI w items flag drv q lg ctr cs).
  apply (wp_elim _ g (λ _ g', counter_ok g → counter_ok g')). subst g.
  destruct v; unfold loop_body; wp_run.
  all: unfold counter_ok, completed_since_acquire; wp_norm; intros Hc.
  all: rewrite ?fold_left_app; cbn [fold_left count_call]; rewrite <- ?Hc.
  all: reflexivity.
Qed.

(** A turn that leaves its task [Skipped] or [Failed] has not incremented
    the counter. *)
Lemma turn_counter_not_incremented v idx (g : G) r g' it' :
  loop_body v cfg idx g = (r, g') →
  download_items g' !! idx = Some it' →
  status it' = SKIPPED ∨ status it' = FAILED →
  downloads_since_refresh g' = downloads_since_refresh g
  ∨ downloads_since_refresh g' = 0%Z.
Proof.
  revert r g'. destruct g as [w items flag drv q lg ctr cs].
  set (g := mkGUI w items flag drv q lg ctr cs).
  apply (wp_elim _ g (λ _ g',
    download_items g' !! idx = Some it' →
    status it' = SKIPPED ∨ status it' = FAILED →
    downloads_since_refresh g' = downloads_since_refresh g
    ∨ downloads_since_refresh g' = 0%Z)). subst g.
  destruct v; unfold loop_body; wp_run.
  all: wp_norm_hyps; rewrite ?list_lookup_alter_eq; intros Hit' Hst.
  all: try (left; reflexivity); try (right; reflexivity).
  all: exfalso; match goal with H : ?l !! ?i = Some _ |- _ => rewrite H in Hit' end.
  all: inj_item Hit'; by destruct Hst.
Qed.

(** [Completed] and [Failed] are entered with an end time stamp. *)
Lemma turn_stamped v idx (g : G) r g' it it' :
  (v = richer_gui_py → oracle_sound) →
  loop_body v cfg idx g = (r, g') →
  download_items g !! idx = Some it →
  download_items g' !! idx = Some it' →
  stamped it → stamped it'.
Proof.
  intros Hsound. revert r g'. destruct g as [w items flag drv q lg ctr cs].
  set (g := mkGUI w items flag drv q lg ctr cs).
  apply (wp_elim _ g (λ _ g',
    download_items g !! idx = Some it →
    download_items g' !! idx = Some it' → stamped it → stamped it')). subst g.
  destruct v; unfold loop_body; wp_run.
  all: wp_norm_hyps; rewrite ?list_lookup_alter_eq; intros Hit Hit' Hst.
  all: try (rewrite Hit in Hit'; inj_item Hit'; unfold stamped in *; item_fields).
  all: try assumption.
  all: try (intros [?|?]; try discriminate; eauto; fail).
  all: try congruence.
  all: match goal with
       | Hc : check_file_exists _ _ = Some ?n, Hs : getsize ?n _ = None |- _ =>
           destruct (Hsound eq_refl _ _ _ Hc) as [? Hsz]; rewrite Hsz in Hs; discriminate Hs
       end.
Qed.

(** After a click that returned [True] the task is [Completed], whatever
    the checksum computation does. *)
Lemma turn_download_succeeded v idx (g : G) r g' it d u :
  loop_body v cfg idx g = (r, g') →
  download_items g !! idx = Some it →
  CallClick d u (inr true) ∈ new_calls g g' →
  ∃ it', download_items g' !! idx = Some it' ∧ status it' = COMPLETED ∧
    error it' = error it ∧
    ∀ e, ("Checksum error: " +:+ e, Error) ∈ new_log g g' →
         checksum it' = None ∧ r = Returns Continue.
Proof.
  revert r g'. destruct g as [w items flag drv q lg ctr cs].
  set (g := mkGUI w items flag drv q lg ctr cs).
  apply (wp_elim _ g (λ r g',
    download_items g !! idx = Some it →
    CallClick d u (inr true) ∈ new_calls g g' →
    ∃ it', download_items g' !! idx = Some it' ∧ status it' = COMPLETED ∧
      error it' = error it ∧
      ∀ e, ("Checksum error: " +:+ e, Error) ∈ new_log g g' →
           checksum it' = None ∧ r = Returns Continue)). subst g.
  destruct v; unfold loop_body; wp_run.
  all: intros Hit Hin; simpl_new; decompose_list_elem_of; simplify_eq.
  all: eexists; split; [solve_lookup|]; do 2 (split; [reflexivity|]).
  all: intros e' He'; decompose_list_elem_of; simplify_eq; done.
Qed.

(** After a click that returned [False] the task is [Failed] with an end
    time stamp, and the turn goes on to the next task; [repack.py] records
    the failure text, [richer_gui.py] leaves [error] alone. *)
Lemma turn_download_failed v idx (g : G) r g' it d u :
  loop_body v cfg idx g = (r, g') →
  download_items g !! idx = Some it →
  CallClick d u (inr false) ∈ new_calls g g' →
  r = Returns Continue ∧
  ∃ it', download_items g' !! idx = Some it' ∧ status it' = FAILED ∧
    is_Some (end_time it') ∧ checksum it' = checksum it ∧
    error it' = match v with
                | repack_py => Some "Download failed"
                | richer_gui_py => error it
                end.
Proof.
  revert r g'. destruct g as [w items flag drv q lg ctr cs].
  set (g := mkGUI w items flag drv q lg ctr cs).
  apply (wp_elim _ g (λ r g',
    download_items g !! idx = Some it →
    CallClick d u (inr false) ∈ new_calls g g' →
    r = Returns Continue ∧
    ∃ it', download_items g' !! idx = Some it' ∧ status it' = FAILED ∧
      is_Some (end_time it') ∧ checksum it' = checksum it ∧
      error it' = match v with
                  | repack_py => Some "Download failed"
                  | richer_gui_py => error it
                  end)). subst g.
  destruct v; unfold loop_body; wp_run.
  all: intros Hit Hin; simpl_new; decompose_list_elem_of; simplify_eq.
  all: split; [reflexivity|]; eexists; split; [solve_lookup|].
  all: repeat split; eauto.
Qed.

End Turn.

(** ** Turns along one path *)

(** Use what is known of the answers of the collaborators. *)
Ltac use_known :=
  repeat match goal with
  | H : negb true = true |- _ => discriminate H
  | H : negb false = false |- _ => discriminate H
  | H : Some _ = None |- _ => discriminate H
  | H : None = Some _ |- _ => discriminate H
  | H : Some _ = Some _ |- _ => injection H as H; try subst
  | H1 : ?a = ?b, H2 : ?a = ?c |- _ => rewrite H1 in H2; simplify_eq
  end.

Section Paths.
Context {World Driver : Type} `{!Env World Driver}.
Variable cfg : Settings.
Local Abbreviation G := (DownloaderGUI World Driver).
Local Abbreviation M := (M World Driver).

Lemma wp_exists {A} (m : M A) (g : G) (r0 : Outcome A) (P : G → Prop) :
  wp m g (λ r g', r = r0 ∧ P g') → ∃ g1, m g = (r0, g1) ∧ P g1.
Proof. unfold wp. destruct (m g) as [r g']; simpl. intros [-> ?]; eauto. Qed.

Lemma not_skipped_complete v name o :
  o = Some name → name ≠ "" → endswith_any name (partial_suffixes v) = false →
  ¬ not_skipped v o.
Proof.
  intros -> Hne Hsuf. unfold not_skipped, if_truthy.
  destruct (String.eqb_spec name ""); [done|]. by rewrite Hsuf.
Qed.


(** A name with one of the partial suffixes of the file is handled as no
    name at all. *)
Lemma partial_artifact_is_attempted v idx it name :
  endswith_any name (partial_suffixes v) = true →
  process_item v cfg idx it (Some name) = process_item v cfg idx it None.
Proof.
  intros Hs.
  destruct v; unfold process_item, Repack.process_item, RicherGui.process_item,
    if_truthy, partial_suffixes in *;
    (destruct (String.eqb name ""); [done|]); by rewrite Hs.
Qed.


(** The file exists under a name without a partial suffix. *)
Lemma turn_skip v idx (g : G) it name bytes :
  is_downloading g = true →
  download_items g !! idx = Some it →
  check_file_exists (url it) (world g) = Some name →
  name ≠ "" →
  endswith_any name (partial_suffixes v) = false →
  getsize name (world g) = Some bytes →
  ∃ g1, loop_body v cfg idx g = (Returns Continue, g1) ∧
    download_items g1 !! idx
      = Some (with_size (megabytes bytes) (with_status SKIPPED it)) ∧
    calls g1 = calls g ∧ driver g1 = driver g ∧ world g1 = world g ∧
    downloads_since_refresh g1 = downloads_since_refresh g.
Proof.
  destruct g as [w items flag drv q lg ctr cs]; wp_norm.
  intros -> Hit Hc Hne Hsuf Hsz. apply wp_exists.
  destruct v; unfold loop_body.
  all: repeat (wp_step; use_known;
         try match goal with
             | Hn : not_skipped _ _ |- _ =>
                 exfalso; revert Hn; by eapply not_skipped_complete
             end).
  all: split; [reflexivity|]; split; [solve_lookup|]; done.
Qed.

(** The counter has reached the threshold and the task is not skipped: the
    session is released and acquired once, then the click goes to the new
    session. *)
Lemma turn_recycle v idx (g : G) it d w1 d2 w2 r g' :
  is_downloading g = true →
  download_items g !! idx = Some it →
  not_skipped v (check_file_exists (url it) (world g)) →
  (session_refresh_var cfg ≤ downloads_since_refresh g)%Z →
  driver g = Some d →
  driver_quit d (world g) = (None, w1) →
  setup_driver (time_sleep 1 w1) = (inr d2, w2) →
  loop_body v cfg idx g = (r, g') →
  ∃ res,
    new_calls g g' = [CallQuit d None; CallSetup (inr d2); CallClick d2 (url it) res] ∧
    downloads_since_refresh g' = (if res is inr true then 1 else 0)%Z.
Proof.
  destruct g as [w items flag drv q lg ctr cs]; wp_norm.
  intros -> Hit Hn Hle -> Hq Hs. revert r g'.
  set (g := mkGUI w items true (Some d) q lg ctr cs).
  apply (wp_elim _ g (λ _ g', ∃ res,
    new_calls g g' = [CallQuit d None; CallSetup (inr d2); CallClick d2 (url it) res] ∧
    downloads_since_refresh g' = (if res is inr true then 1 else 0)%Z)). subst g.
  destruct v; unfold loop_body.
  all: repeat (wp_step; use_known;
         try match goal with
             | Hc : check_file_exists _ _ = Some ?n, Hs : endswith_any ?n _ = false |- _ =>
                 exfalso; revert Hn; by eapply not_skipped_complete
             | Hb : (_ <=? _)%Z = false |- _ =>
                 exfalso; apply Z.leb_gt in Hb; clear -Hb Hle; lia
             end).
  all: eexists; simpl_new; split; reflexivity.
Qed.

(** Below the threshold a turn neither releases nor acquires a session. *)
Lemma turn_no_recycle v idx (g : G) r g' :
  (downloads_since_refresh g < session_refresh_var cfg)%Z →
  loop_body v cfg idx g = (r, g') →
  ∀ c, c ∈ new_calls g g' → ∃ d u res, c = CallClick d u res.
Proof.
  destruct g as [w items flag drv q lg ctr cs]; wp_norm.
  intros Hlt. revert r g'.
  set (g := mkGUI w items flag drv q lg ctr cs).
  apply (wp_elim _ g (λ _ g',
    ∀ c, c ∈ new_calls g g' → ∃ d u res, c = CallClick d u res)). subst g.
  destruct v; unfold loop_body.
  all: repeat (wp_step;
         try match goal with
             | Hb : (_ <=? _)%Z = true |- _ =>
                 exfalso; apply Z.leb_le in Hb; clear -Hb Hlt; lia
             end).
  all: intros c Hc; simpl_new; decompose_list_elem_of; eauto.
Qed.



End Paths.

(** ** The loop *)

Section Loop.
Context {World Driver : Type} `{!Env World Driver}.
Variable cfg : Settings.
Local Abbreviation G := (DownloaderGUI World Driver).
Local Abbreviation M := (M World Driver).

Lemma new_calls_app (g g' : G) cs : calls g' = calls g ++ cs → new_calls g g' = cs.
Proof. unfold new_calls. intros ->. apply drop_app_length. Qed.

Lemma new_msgs_app (g g' : G) ms : gui_queue g' = gui_queue g ++ ms → new_msgs g g' = ms.
Proof. unfold new_msgs. intros ->. apply drop_app_length. Qed.

Lemma new_calls_same (g g' : G) : calls g' = calls g → new_calls g g' = [].
Proof. unfold new_calls. intros ->. apply drop_all. Qed.

(** Pause and Stop: neither raises nor touches the queue of tasks; Stop
    calls [quit] on the session in use, whatever that call does. *)
Lemma user_spec v a (g : G) :
  ∃ g1, user v a g = (Returns (), g1) ∧
    download_items g1 = download_items g ∧
    gui_queue g1 = gui_queue g ∧
    downloads_since_refresh g1 = downloads_since_refresh g ∧
    driver g1 = driver g ∧
    is_downloading g1 = (if a is Some _ then false else is_downloading g) ∧
    calls g1 = calls g ++
      match a, driver g with
      | Some Stop, Some d => [CallQuit d (driver_quit d (world g)).1]
      | _, _ => []
      end.
Proof.
  destruct g as [w items flag drv q lg ctr cs]. apply wp_exists.
  destruct v, a as [[]|]; unfold user; wp_run; use_known.
  all: split; [reflexivity|]; wp_norm; rewrite ?app_nil_r.
  all: repeat (split; [reflexivity|]).
  all: try reflexivity.
  all: match goal with Hq : driver_quit _ _ = _ |- _ => by rewrite Hq end.
Qed.

Lemma user_none v (g : G) : user v None g = (Returns (), g).
Proof. by destruct v. Qed.

Lemma for_loop_0 v sched idx (g : G) :
  for_loop v cfg sched 0 idx g = (Returns (), g).
Proof. by destruct v. Qed.

Lemma for_loop_S v sched n idx :
  for_loop v cfg sched (S n) idx =
  (user v (sched idx) ≫= λ _,
   loop_body v cfg idx ≫= λ c,
   match c with
   | Break => mret ()
   | Continue => for_loop v cfg sched n (S idx)
   end).
Proof. by destruct v. Qed.

(** The three ways a turn lets the loop go on. *)
Lemma for_loop_cases v sched n idx (g : G) r gf :
  for_loop v cfg sched (S n) idx g = (r, gf) →
  ∃ g1, user v (sched idx) g = (Returns (), g1) ∧
    ((loop_body v cfg idx g1 = (Returns Break, gf) ∧ r = Returns ()) ∨
     (∃ e, loop_body v cfg idx g1 = (Raises e, gf) ∧ r = Raises e) ∨
     (∃ g2, loop_body v cfg idx g1 = (Returns Continue, g2) ∧
            for_loop v cfg sched n (S idx) g2 = (r, gf))).
Proof.
  rewrite for_loop_S. destruct (user_spec v (sched idx) g) as (g1 & Hu & _).
  unfold mbind, M_bind at 1. rewrite Hu. intros Hrest. exists g1. split; [done|].
  unfold mbind, M_bind in Hrest.
  unfold mret, M_ret in Hrest.
  destruct (loop_body v cfg idx g1) as [[[]|e] g2];
    [ right; right; eauto
    | left; by injection Hrest as <- <-
    | right; left; exists e; by injection Hrest as <- <- ].
Qed.

(** A property kept by the user's actions and by every turn is kept by the
    loop. *)
Lemma for_loop_invariant v sched (P : G → Prop) :
  (∀ a g r g', P g → user v a g = (r, g') → P g') →
  (∀ idx g r g', P g → loop_body v cfg idx g = (r, g') → P g') →
  ∀ n idx g r g', P g → for_loop v cfg sched n idx g = (r, g') → P g'.
Proof.
  intros Huser Hbody n. induction n as [|n IH]; intros idx g r g' HP Hloop.
  - rewrite for_loop_0 in Hloop. by simplify_eq.
  - apply for_loop_cases in Hloop as (g1 & Hu & Hcases).
    apply Huser in Hu; [|done].
    destruct Hcases as [[Hb _]|[(e & Hb & _)|(g2 & Hb & Hrest)]]; eauto.
Qed.


Lemma user_calls v a (g g1 : G) :
  user v a g = (Returns (), g1) →
  download_items g1 = download_items g ∧ gui_queue g1 = gui_queue g ∧
  ∃ cs, calls g1 = calls g ++ cs ∧ ∀ d u res, CallClick d u res ∉ cs.
Proof.
  intros Hu. destruct (user_spec v a g) as (g1' & Hu' & Hi & Hq & _ & _ & _ & Hc).
  rewrite Hu' in Hu. injection Hu as <-. do 2 (split; [done|]).
  eexists; split; [done|]. intros d u res Hin.
  destruct a as [[]|], (driver g); decompose_list_elem_of; discriminate.
Qed.

Lemma loop_frame_refl idx (g : G) : loop_frame idx g g.
Proof.
  repeat split; try done.
  - exists []. split; [by rewrite app_nil_r|]. intros ??? Hin. by apply elem_of_nil in Hin.
  - exists []. split; [by rewrite app_nil_r|]. apply not_elem_of_nil.
Qed.

Lemma loop_frame_turn v a idx (g g1 g2 : G) :
  user v a g = (Returns (), g1) → turn_frame idx g1 g2 → loop_frame idx g g2.
Proof.
  intros (Hi & Hq & cs1 & Hc1 & Hn1)%user_calls
         (Hlen & Hne & Hurl & _ & (cs2 & Hc2 & Hcl) & (ms & Hms & Hnm) & _).
  rewrite Hi in *. repeat split.
  - done.
  - intros j Hj. apply Hne. lia.
  - intros j. destruct (decide (j = idx)) as [->|]; [done|]. by rewrite Hne.
  - exists (cs1 ++ cs2). split; [by rewrite Hc2, Hc1, app_assoc|].
    intros d u res [Hin|Hin]%elem_of_app; [by apply Hn1 in Hin|].
    exists idx. split; [done|]. eauto.
  - exists ms. split; [by rewrite Hms, Hq|done].
Qed.

Lemma loop_frame_step idx (g g2 gf : G) :
  loop_frame idx g g2 → loop_frame (S idx) g2 gf → loop_frame idx g gf.
Proof.
  intros (Hlen & Hlt & Hurl & (cs1 & Hc1 & Hcl1) & (ms1 & Hm1 & Hn1))
         (Hlen' & Hlt' & Hurl' & (cs2 & Hc2 & Hcl2) & (ms2 & Hm2 & Hn2)).
  repeat split.
  - congruence.
  - intros j Hj. rewrite Hlt' by lia. by apply Hlt.
  - intros j. by rewrite Hurl'.
  - exists (cs1 ++ cs2). split; [by rewrite Hc2, Hc1, app_assoc|].
    intros d u res [Hin|Hin]%elem_of_app; [eauto|].
    destruct (Hcl2 _ _ _ Hin) as (j & Hj & Hu). exists j. split; [lia|].
    by rewrite <- Hurl.
  - exists (ms1 ++ ms2). split; [by rewrite Hm2, Hm1, app_assoc|].
    intros [?|?]%elem_of_app; tauto.
Qed.

(** The turns from [idx] on leave the tasks before [idx] alone and click
    only for tasks from [idx] on. *)
Lemma for_loop_frame v sched n idx (g : G) r g' :
  for_loop v cfg sched n idx g = (r, g') → loop_frame idx g g'.
Proof.
  revert idx g. induction n as [|n IH]; intros idx g Hloop.
  - rewrite for_loop_0 in Hloop. injection Hloop as _ <-. apply loop_frame_refl.
  - apply for_loop_cases in Hloop as (g1 & Hu & Hcases).
    destruct Hcases as [[Hb _]|[(e & Hb & _)|(g2 & Hb & Hrest)]].
    + eapply loop_frame_turn; [done|]. by eapply turn_frame_holds.
    + eapply loop_frame_turn; [done|]. by eapply turn_frame_holds.
    + eapply loop_frame_step; [|by eapply IH].
      eapply loop_frame_turn; [done|]. by eapply turn_frame_holds.
Qed.

(** A click that raises ends the loop: the exception leaves it, the task is
    left [Downloading], and no later task is touched. *)
Lemma for_loop_click_raises v sched n idx (g : G) r gf d u e :
  for_loop v cfg sched n idx g = (r, gf) →
  CallClick d u (inl e) ∈ new_calls g gf →
  r = Raises e ∧
  ∃ i it t, idx ≤ i ∧ download_items g !! i = Some it ∧ url it = u ∧
    download_items gf !! i
      = Some (with_start_time (Some t) (with_status DOWNLOADING it)) ∧
    ∀ j, i < j → download_items gf !! j = download_items g !! j.
Proof.
  revert idx g. induction n as [|n IH]; intros idx g Hloop Hin.
  - rewrite for_loop_0 in Hloop. injection Hloop as _ <-.
    rewrite new_calls_same in Hin by done. by apply elem_of_nil in Hin.
  - apply for_loop_cases in Hloop as (g1 & Hu & Hcases).
    destruct (user_calls _ _ _ _ Hu) as (Hi & _ & cs1 & Hc1 & Hn1).
    assert (∀ g2 r2, loop_body v cfg idx g1 = (r2, g2) →
                     ∃ cs2, calls g2 = calls g ++ cs1 ++ cs2 ∧
                            new_calls g1 g2 = cs2) as Hturn.
    { intros g2 r2 (_ & _ & _ & _ & (cs2 & Hc2 & _) & _)%turn_frame_holds.
      exists cs2. split; [by rewrite Hc2, Hc1, app_assoc|]. by apply new_calls_app. }
    assert (∀ g2 r2, loop_body v cfg idx g1 = (r2, g2) →
              CallClick d u (inl e) ∈ new_calls g1 g2 →
              r2 = Raises e ∧
              ∃ i it t, idx ≤ i ∧ download_items g !! i = Some it ∧ url it = u ∧
                download_items g2 !! i
                  = Some (with_start_time (Some t) (with_status DOWNLOADING it)) ∧
                ∀ j, i < j → download_items g2 !! j = download_items g !! j) as Hhere.
    { intros g2 r2 Hb Hin2.
      destruct (turn_click_raises cfg _ _ _ _ _ _ _ _ Hb Hin2) as (-> & it & t & Hit & Hu' & Hit').
      split; [done|]. exists idx, it, t. rewrite <- Hi. repeat split; try done.
      intros j Hj. apply turn_frame_holds in Hb as (_ & Hne & _). apply Hne. lia. }
    destruct Hcases as [[Hb ->]|[(e' & Hb & ->)|(g2 & Hb & Hrest)]].
    + destruct (Hturn _ _ Hb) as (cs2 & Hc & Hn).
      rewrite (new_calls_app _ _ _ Hc) in Hin.
      apply elem_of_app in Hin as [Hin|Hin]; [by apply Hn1 in Hin|].
      rewrite <- Hn in Hin. by destruct (Hhere _ _ Hb Hin) as [? _].
    + destruct (Hturn _ _ Hb) as (cs2 & Hc & Hn).
      rewrite (new_calls_app _ _ _ Hc) in Hin.
      apply elem_of_app in Hin as [Hin|Hin]; [by apply Hn1 in Hin|].
      rewrite <- Hn in Hin. destruct (Hhere _ _ Hb Hin) as (He & Hex).
      injection He as ->. by split.
    + destruct (Hturn _ _ Hb) as (cs2 & Hc & Hn).
      pose proof (for_loop_frame _ _ _ _ _ _ _ Hrest) as (_ & _ & _ & (cs3 & Hc3 & _) & _).
      rewrite (new_calls_app g gf (cs1 ++ cs2 ++ cs3)) in Hin
        by (by rewrite Hc3, Hc, <- !app_assoc).
      apply elem_of_app in Hin as [Hin|Hin]; [by apply Hn1 in Hin|].
      apply elem_of_app in Hin as [Hin|Hin].
      { rewrite <- Hn in Hin. by destruct (Hhere _ _ Hb Hin) as [? _]. }
      rewrite <- (new_calls_app g2 gf cs3) in Hin by done.
      destruct (IH _ _ Hrest Hin) as (-> & i & it & t & Hle & Hit & Hu' & Hit' & Hlater).
      split; [done|].
      apply turn_frame_holds in Hb as (_ & Hne & _).
      exists i, it, t. rewrite <- Hi, <- Hne by lia. repeat split; try done; [lia|].
      intros j Hj. rewrite Hlater by done. apply Hne. lia.
Qed.

End Loop.

(** ** The worker *)

Section Worker.
Context {World Driver : Type} `{!Env World Driver}.
Variable cfg : Settings.
Local Abbreviation G := (DownloaderGUI World Driver).
Local Abbreviation M := (M World Driver).

(** The [except] and [finally] blocks around a piece [body] of the worker. *)
Lemma try_frame_spec v (body : M unit) (g : G) r gf :
  try_frame v body g = (r, gf) →
  ∃ rb gb fin fm,
    body g = (rb, gb) ∧
    download_items gf = download_items gb ∧
    calls gf = calls gb ++ fin ∧
    gui_queue gf = gui_queue gb ++ except_msgs v rb ++ fm ∧
    ((driver gb = None ∧ fin = [] ∧ fm = [MsgDownloadComplete] ∧ r = Returns ()) ∨
     (∃ d w, driver gb = Some d ∧ driver_quit d (world gb) = (None, w) ∧
        fin = [CallQuit d None] ∧ fm = [MsgDownloadComplete] ∧ r = Returns ()) ∨
     (∃ d e w, driver gb = Some d ∧ driver_quit d (world gb) = (Some e, w) ∧
        fin = [CallQuit d (Some e)] ∧ fm = [] ∧ r = Raises e)).
Proof.
  destruct (body g) as [rb gb] eqn:Hbody. revert r gf.
  destruct gb as [w items flag drv q lg ctr cs].
  set (gb := mkGUI w items flag drv q lg ctr cs).
  apply (wp_elim _ g (λ r gf, ∃ rb' gb' fin fm,
    (rb, gb) = (rb', gb') ∧
    download_items gf = download_items gb' ∧
    calls gf = calls gb' ++ fin ∧
    gui_queue gf = gui_queue gb' ++ except_msgs v rb' ++ fm ∧
    ((driver gb' = None ∧ fin = [] ∧ fm = [MsgDownloadComplete] ∧ r = Returns ()) ∨
     (∃ d w, driver gb' = Some d ∧ driver_quit d (world gb') = (None, w) ∧
        fin = [CallQuit d None] ∧ fm = [MsgDownloadComplete] ∧ r = Returns ()) ∨
     (∃ d e w, driver gb' = Some d ∧ driver_quit d (world gb') = (Some e, w) ∧
        fin = [CallQuit d (Some e)] ∧ fm = [] ∧ r = Raises e)))).
  subst gb. destruct v; unfold try_frame; wp_step; wp_step; wp_step.
  all: apply wp_intro; intros r1 g1 Hb; rewrite Hb in Hbody; injection Hbody as -> ->.
  all: destruct rb as [[]|e]; repeat (wp_step; use_known).
  all: eexists _, _, _, _; split; [reflexivity|]; wp_norm; cbn [except_msgs error_prefix].
  all: split; [reflexivity|]; split; [solve_app|].
  all: split; [rewrite <- ?app_assoc; cbn [app];
               first [reflexivity | symmetry; apply app_nil_r]|].
  all: first [ left; done | right; left; by eauto 10 | right; right; by eauto 10 ].
Qed.


(** The [try] block: the session is acquired, then the loop runs. *)
Lemma try_block_spec v sched (g : G) r g' :
  try_block v cfg sched g = (r, g') →
  (∃ e w, setup_driver (world g) = (inl e, w) ∧ r = Raises e ∧
     download_items g' = download_items g ∧ gui_queue g' = gui_queue g ∧
     driver g' = driver g ∧ calls g' = calls g ++ [CallSetup (inl e)]) ∨
  (∃ d w g1, setup_driver (world g) = (inr d, w) ∧
     for_loop v cfg sched (length (download_items g)) 0 g1 = (r, g') ∧
     download_items g1 = download_items g ∧ gui_queue g1 = gui_queue g ∧
     is_downloading g1 = is_downloading g ∧
     driver g1 = Some d ∧ downloads_since_refresh g1 = 0%Z ∧
     calls g1 = calls g ++ [CallSetup (inr d)]).
Proof.
  revert r g'. destruct g as [w items flag drv q lg ctr cs].
  set (g := mkGUI w items flag drv q lg ctr cs).
  apply (wp_elim _ g (λ r g',
    (∃ e w, setup_driver (world g) = (inl e, w) ∧ r = Raises e ∧
       download_items g' = download_items g ∧ gui_queue g' = gui_queue g ∧
       driver g' = driver g ∧ calls g' = calls g ++ [CallSetup (inl e)]) ∨
    (∃ d w g1, setup_driver (world g) = (inr d, w) ∧
       for_loop v cfg sched (length (download_items g)) 0 g1 = (r, g') ∧
       download_items g1 = download_items g ∧ gui_queue g1 = gui_queue g ∧
       is_downloading g1 = is_downloading g ∧
       driver g1 = Some d ∧ downloads_since_refresh g1 = 0%Z ∧
       calls g1 = calls g ++ [CallSetup (inr d)]))).
  subst g. destruct v; unfold try_block, Repack.try_block, RicherGui.try_block; wp_run.
  all: try (left; wp_norm; by eauto 10).
  all: apply wp_intro; intros r g' Hloop; right; wp_norm.
  all: eexists _, _, _; split; [eassumption|]; split; [exact Hloop|]; done.
Qed.

(** What comes before the [try]: the directory, the temporary files. *)
Lemma prepare_download_dir_spec v (g : G) r g0 :
  prepare_download_dir v cfg g = (r, g0) →
  download_items g0 = download_items g ∧ calls g0 = calls g ∧
  driver g0 = driver g ∧ is_downloading g0 = is_downloading g ∧
  downloads_since_refresh g0 = downloads_since_refresh g ∧
  log_text g0 = log_text g ∧
  ∃ ms, gui_queue g0 = gui_queue g ++ ms ∧ ∀ m, m ∈ ms → ∃ t, m = MsgLog t Info.
Proof.
  revert r g0. destruct g as [w items flag drv q lg ctr cs].
  set (g := mkGUI w items flag drv q lg ctr cs).
  apply (wp_elim _ g (λ r g0,
    download_items g0 = download_items g ∧ calls g0 = calls g ∧
    driver g0 = driver g ∧ is_downloading g0 = is_downloading g ∧
    downloads_since_refresh g0 = downloads_since_refresh g ∧
    log_text g0 = log_text g ∧
    ∃ ms, gui_queue g0 = gui_queue g ++ ms ∧ ∀ m, m ∈ ms → ∃ t, m = MsgLog t Info)).
  subst g. destruct v; unfold prepare_download_dir; wp_run.
  all: do 6 (split; [reflexivity|]); eexists; split; [solve_app|].
  all: intros m Hm; decompose_list_elem_of; eauto.
Qed.

Lemma bind_cases {A B} (m : M A) (f : A → M B) (g : G) r gf :
  (m ≫= f) g = (r, gf) →
  (∃ e, m g = (Raises e, gf) ∧ r = Raises e) ∨
  (∃ a g0, m g = (Returns a, g0) ∧ f a g0 = (r, gf)).
Proof.
  unfold mbind, M_bind. destruct (m g) as [[a|e] g0]; intros Hm.
  - right. eauto.
  - left. injection Hm as <- <-. eauto.
Qed.

(** The worker: either the preparation of the directory raises and that
    is the end of it, or the [try] statement runs. *)
Lemma download_worker_spec v sched (g : G) r gf :
  download_worker v cfg sched g = (r, gf) →
  (∃ e, prepare_download_dir v cfg g = (Raises e, gf) ∧ r = Raises e) ∨
  (∃ g0, prepare_download_dir v cfg g = (Returns (), g0) ∧
     try_frame v (try_block v cfg sched) g0 = (r, gf)).
Proof.
  intros Hw.
  destruct v; apply bind_cases in Hw as [(e & Hp & ->)|([] & g0 & Hp & Htf)]; eauto.
Qed.

End Worker.

(** * The claims of the specification *)

Section Claims.
Context {World Driver : Type} `{!Env World Driver}.
Variable cfg : Settings.
Local Abbreviation G := (DownloaderGUI World Driver).
Local Abbreviation M := (M World Driver).

(** C1 (as amended).  When [click_download_button] raises for a task, the
    exception leaves the [for] loop: the task is left in [Downloading] with
    its failure detail, end time stamp, size and digest as they were, no
    task after it is touched, and the [except] block of the worker puts one
    error message with the text of the exception on the queue. *)
Theorem C1_click_exception_ends_the_walk v sched (g : G) r gf d u e :
  download_worker v cfg sched g = (r, gf) →
  CallClick d u (inl e) ∈ new_calls g gf →
  ∃ i it t,
    download_items g !! i = Some it ∧ url it = u ∧
    download_items gf !! i
      = Some (with_start_time (Some t) (with_status DOWNLOADING it)) ∧
    (∀ j, i < j → download_items gf !! j = download_items g !! j) ∧
    MsgLog (error_prefix v +:+ e) Error ∈ new_msgs g gf.
Proof.
  intros Hw Hin.
  apply download_worker_spec in Hw as [(e0 & Hp & _)|(g0 & Hp & Htf)].
  { apply prepare_download_dir_spec in Hp as (_ & Hc0 & _).
    rewrite (new_calls_same g gf Hc0) in Hin. by apply elem_of_nil in Hin. }
  apply prepare_download_dir_spec in Hp as (Hi0 & Hc0 & _ & _ & _ & _ & ms0 & Hq0 & _).
  apply try_frame_spec in Htf as (rb & gb & fin & fm & Hbody & Hif & Hcf & Hqf & Hfin).
  assert (∀ d u res, CallClick d u res ∉ fin) as Hnofin.
  { intros d' u' res' Hin'.
    destruct Hfin as [(_ & -> & _)|[(?&?&_&_&->&_)|(?&?&?&_&_&->&_)]];
      decompose_list_elem_of; discriminate. }
  apply try_block_spec in Hbody
    as [(e0 & w & _ & _ & _ & _ & _ & Hcb)|(d0 & w & g1 & _ & Hloop & Hi1 & Hq1 & _ & _ & _ & Hc1)].
  - rewrite (new_calls_app g gf ([CallSetup (inl e0)] ++ fin)) in Hin
      by (by rewrite Hcf, Hcb, Hc0, <- app_assoc).
    apply elem_of_app in Hin as [Hin|Hin]; [|by apply Hnofin in Hin].
    decompose_list_elem_of; discriminate.
  - pose proof (for_loop_frame _ _ _ _ _ _ _ _ Hloop)
      as (_ & _ & _ & (cs & Hcs & _) & (ms & Hms & _)).
    rewrite (new_calls_app g gf ([CallSetup (inr d0)] ++ cs ++ fin)) in Hin
      by (by rewrite Hcf, Hcs, Hc1, Hc0, <- !app_assoc).
    apply elem_of_app in Hin as [Hin|Hin]; [decompose_list_elem_of; discriminate|].
    apply elem_of_app in Hin as [Hin|Hin]; [|by apply Hnofin in Hin].
    rewrite <- (new_calls_app g1 gb cs) in Hin by done.
    destruct (for_loop_click_raises _ _ _ _ _ _ _ _ _ _ _ Hloop Hin)
      as (-> & i & it & t & _ & Hit & Hu & Hit' & Hlater).
    exists i, it, t. rewrite Hif, <- Hi0, <- Hi1. repeat split; try done.
    rewrite (new_msgs_app g gf (ms0 ++ ms ++ except_msgs v (@Raises unit e) ++ fm))
      by (by rewrite Hqf, Hms, Hq1, Hq0, <- !app_assoc).
    simpl. rewrite !elem_of_app, elem_of_cons. auto.
Qed.

(** C2.  A task with a file under a name without a partial suffix is
    [Skipped] with the size of that file, in a turn that makes no call on
    the session, keeps the session and the recycle counter as they are, and
    goes on to the next task; the task stays so to the end of the loop, and
    no click is ever made for its url. *)
Theorem C2_existing_artifact_is_skipped v sched n idx (g : G) it name bytes r gf :
  sched idx = None →
  is_downloading g = true →
  download_items g !! idx = Some it →
  check_file_exists (url it) (world g) = Some name →
  name ≠ "" →
  endswith_any name (partial_suffixes v) = false →
  getsize name (world g) = Some bytes →
  for_loop v cfg sched (S n) idx g = (r, gf) →
  (∃ g1, loop_body v cfg idx g = (Returns Continue, g1) ∧
     calls g1 = calls g ∧ driver g1 = driver g ∧ world g1 = world g ∧
     downloads_since_refresh g1 = downloads_since_refresh g) ∧
  (∃ it', download_items gf !! idx = Some it' ∧
     status it' = SKIPPED ∧ size it' = megabytes bytes) ∧
  (NoDup (url <$> download_items g) →
   ∀ d res, CallClick d (url it) res ∉ new_calls g gf).
Proof.
  intros Hs Hflag Hit Hc Hne Hsuf Hsz Hloop.
  destruct (turn_skip cfg v idx g it name bytes) as (g1 & Hb & Hit1 & Hc1 & Hd1 & Hw1 & Hn1);
    try done.
  apply for_loop_cases in Hloop as (g0 & Hu & Hcases).
  rewrite Hs, user_none in Hu. injection Hu as <-.
  destruct Hcases as [[Hb' _]|[(e & Hb' & _)|(g2 & Hb' & Hrest)]];
    rewrite Hb in Hb'; try discriminate. injection Hb' as <-.
  pose proof (for_loop_frame _ _ _ _ _ _ _ _ Hrest) as (_ & Hlt & Hurl & (cs & Hcs & Hcl) & _).
  split; [by eauto 10|]. split.
  - eexists. rewrite Hlt by lia. by split.
  - intros Hnd d res Hin.
    rewrite (new_calls_app g gf cs) in Hin by (by rewrite Hcs, Hc1).
    destruct (Hcl _ _ _ Hin) as (j & Hj & Huj).
    apply turn_frame_holds in Hb as (_ & Hne1 & Hurl1 & _).
    rewrite Hne1 in Huj by lia.
    assert (j = idx); [|lia].
    eapply NoDup_lookup; [done| |]; rewrite list_lookup_fmap; [done|].
    by rewrite Hit.
Qed.


Lemma user_counter_ok v a (g : G) r g1 :
  counter_ok g → user v a g = (r, g1) → counter_ok g1.
Proof.
  intros Hok Hu. destruct (user_spec v a g) as (g1' & Hu' & _ & _ & Hn & _ & _ & Hc).
  rewrite Hu' in Hu. injection Hu as _ <-.
  unfold counter_ok, completed_since_acquire in *. rewrite Hn, Hc, fold_left_app, <- Hok.
  by destruct a as [[]|], (driver g).
Qed.

Lemma for_loop_counter_ok v sched n idx (g : G) r g' :
  counter_ok g → for_loop v cfg sched n idx g = (r, g') → counter_ok g'.
Proof.
  apply for_loop_invariant.
  - intros a g0 r0 g0' Hok Hu. by eapply user_counter_ok.
  - intros i g0 r0 g0' Hok Hb. by eapply turn_counter_ok.
Qed.

(** C3.  The counter is, all along the loop, the number of downloads that
    returned [True] since the session in use was acquired; it is not
    incremented by a turn that leaves its task [Skipped] or [Failed]; and
    when it has reached the threshold, the turn of the next task that is
    not skipped releases the session and acquires a new one, once, before
    its click, and the counter restarts from 0. *)
Theorem C3_recycle_at_threshold v :
  (∀ sched (g : G) r g' d w,
     setup_driver (world g) = (inr d, w) →
     try_block v cfg sched g = (r, g') → counter_ok g') ∧
  (∀ idx (g : G) r g' it',
     loop_body v cfg idx g = (r, g') →
     download_items g' !! idx = Some it' →
     status it' = SKIPPED ∨ status it' = FAILED →
     downloads_since_refresh g' = downloads_since_refresh g
     ∨ downloads_since_refresh g' = 0%Z) ∧
  (∀ idx (g : G) it d w1 d2 w2 r g',
     counter_ok g →
     completed_since_acquire (calls g) = session_refresh_var cfg →
     is_downloading g = true →
     download_items g !! idx = Some it →
     not_skipped v (check_file_exists (url it) (world g)) →
     driver g = Some d →
     driver_quit d (world g) = (None, w1) →
     setup_driver (time_sleep 1 w1) = (inr d2, w2) →
     loop_body v cfg idx g = (r, g') →
     ∃ res,
       new_calls g g'
         = [CallQuit d None; CallSetup (inr d2); CallClick d2 (url it) res] ∧
       downloads_since_refresh g' = (if res is inr true then 1 else 0)%Z ∧
       counter_ok g').
Proof.
  split; [|split].
  - intros sched g r g' d w Hs Hb.
    apply try_block_spec in Hb as [(e0 & w' & Hs' & _)|(d0 & w' & g1 & _ & Hloop & _ & _ & _ & _ & Hn & Hc)];
      [congruence|].
    eapply for_loop_counter_ok; [|done].
    unfold counter_ok, completed_since_acquire. by rewrite Hn, Hc, fold_left_app.
  - intros idx g r g' it'. apply turn_counter_not_incremented.
  - intros idx g it d w1 d2 w2 r g' Hok Hcount Hflag Hit Hns Hd Hq Hs Hb.
    destruct (turn_recycle cfg v idx g it d w1 d2 w2 r g') as (res & Hcalls & Hn);
      try done.
    { rewrite Hok, Hcount. lia. }
    exists res. repeat split; try done. by eapply turn_counter_ok.
Qed.




Lemma for_loop_stamped v sched n idx (g : G) r g' :
  (v = richer_gui_py → oracle_sound) →
  terminal_stamped g → for_loop v cfg sched n idx g = (r, g') → terminal_stamped g'.
Proof.
  intros Hsound. apply for_loop_invariant.
  - intros a g0 r0 g0' Hok Hu.
    destruct (user_spec v a g0) as (g1' & Hu' & Hi & _).
    rewrite Hu' in Hu. injection Hu as _ <-. unfold terminal_stamped. by rewrite Hi.
  - intros i g0 r0 g0' Hok Hb j it' Hit'.
    destruct (decide (j = i)) as [->|Hne].
    + pose proof (turn_frame_holds cfg _ _ _ _ _ Hb) as (Hlen & _).
      destruct (download_items g0 !! i) as [it|] eqn:Hit.
      * eapply turn_stamped; eauto.
      * apply lookup_ge_None in Hit. apply lookup_lt_Some in Hit'. lia.
    + apply turn_frame_holds in Hb as (_ & Hframe & _). rewrite Hframe in Hit' by done.
      eauto.
Qed.

(** C6 (as amended).  Every task that the worker brings to [Completed] or
    [Failed] has an end time stamp; the turn that skips a task leaves both
    its time stamps as they were.  (In [richer_gui.py] a name reported by
    [check_file_exists] is taken to be the name of a file.) *)
Theorem C6_end_time_of_attempted_tasks v :
  (v = richer_gui_py → oracle_sound) →
  (∀ sched (g : G) r g',
     terminal_stamped g →
     download_worker v cfg sched g = (r, g') → terminal_stamped g') ∧
  (∀ idx (g : G) it name bytes,
     is_downloading g = true →
     download_items g !! idx = Some it →
     check_file_exists (url it) (world g) = Some name →
     name ≠ "" →
     endswith_any name (partial_suffixes v) = false →
     getsize name (world g) = Some bytes →
     ∃ g1 it', loop_body v cfg idx g = (Returns Continue, g1) ∧
       download_items g1 !! idx = Some it' ∧ status it' = SKIPPED ∧
       start_time it' = start_time it ∧ end_time it' = end_time it).
Proof.
  intros Hsound. split.
  - intros sched g r g' Hok Hw. unfold terminal_stamped in *.
    apply download_worker_spec in Hw as [(e0 & Hp & _)|(g0 & Hp & Htf)];
      apply prepare_download_dir_spec in Hp as (Hi0 & _); [by rewrite Hi0|].
    apply try_frame_spec in Htf as (rb & gb & fin & fm & Hbody & Hif & _).
    rewrite Hif.
    apply try_block_spec in Hbody
      as [(e0 & w & _ & _ & Hib & _)|(d0 & w & g1 & _ & Hloop & Hi1 & _)].
    + by rewrite Hib, Hi0.
    + eapply for_loop_stamped; [done| |done].
      unfold terminal_stamped. by rewrite Hi1, Hi0.
  - intros idx g it name bytes Hflag Hit Hc Hne Hsuf Hsz.
    destruct (turn_skip cfg v idx g it name bytes) as (g1 & Hb & Hit1 & _); try done.
    by eauto 10.
Qed.

(** C9.  An error raised while the file is read for its digest is written
    to the log and the digest is [None]; a task whose download returned
    [True] is [Completed] at the end of its turn, also when the log shows
    such an error, and the loop then goes on. *)
Theorem C9_checksum_error_keeps_completed v :
  (∀ path (g : G) e,
     read_file path (world g) = inl e →
     calculate_checksum path g
       = (Returns None,
          set_log_text (log_text g ++ [("Checksum error: " +:+ e, Error)]) g)) ∧
  (∀ idx (g : G) r g' it d u,
     loop_body v cfg idx g = (r, g') →
     download_items g !! idx = Some it →
     CallClick d u (inr true) ∈ new_calls g g' →
     ∃ it', download_items g' !! idx = Some it' ∧ status it' = COMPLETED ∧
       error it' = error it ∧
       ∀ e, ("Checksum error: " +:+ e, Error) ∈ new_log g g' →
            checksum it' = None ∧ r = Returns Continue).
Proof.
  split.
  - intros path g e Hr. unfold calculate_checksum, mbind, M_bind, gets. by rewrite Hr.
  - intros idx g r g' it d u. apply turn_download_succeeded.
Qed.


End Claims.

(** ** Loading a batch *)

Lemma index_of_cons_ne u x l : x ≠ u → index_of u (x :: l) = S <$> index_of u l.
Proof. intros Hne. simpl. by destruct (decide (x = u)). Qed.

Lemma index_of_elem u l : u ∈ l → is_Some (index_of u l).
Proof.
  induction l as [|x l IH]; [by intros ?%elem_of_nil|].
  intros Hin. simpl. destruct (decide (x = u)); [by eauto|].
  apply elem_of_cons in Hin as [->|Hin]; [done|].
  destruct (IH Hin) as [p ->]. by eauto.
Qed.

(** The keys of the dict, for any keys [acc] already in it. *)
Lemma fromkeys_fold (urls acc : list string) :
  NoDup acc →
  ∃ rest,
    fold_left (λ keys u, if bool_decide (u ∈ keys) then keys else keys ++ [u]) urls acc
      = acc ++ rest ∧
    NoDup (acc ++ rest) ∧
    (∀ u, u ∈ rest ↔ u ∈ urls ∧ u ∉ acc) ∧
    (∀ i j u1 u2, rest !! i = Some u1 → rest !! j = Some u2 → i < j →
       ∃ p1 p2, index_of u1 urls = Some p1 ∧ index_of u2 urls = Some p2 ∧ p1 < p2).
Proof.
  revert acc. induction urls as [|x l IH]; intros acc Hnd.
  - exists []. rewrite app_nil_r. split; [done|]. split; [done|]. split.
    + intros u. split; [by intros ?%elem_of_nil|by intros [?%elem_of_nil _]].
    + intros i j u1 u2 H1. by rewrite lookup_nil in H1.
  - cbn [fold_left]. case_bool_decide as Hx.
    + destruct (IH acc Hnd) as (rest & -> & Hnd' & Hmem & Hord).
      exists rest. split; [done|]. split; [done|]. split; [intros u; split|].
      * intros [Hu Hacc]%Hmem. split; [by apply elem_of_cons; right|done].
      * intros [[->|Hu]%elem_of_cons Hacc]; [done|]. by apply Hmem.
      * intros i j u1 u2 H1 H2 Hij.
        destruct (Hord i j u1 u2 H1 H2 Hij) as (p1 & p2 & Hp1 & Hp2 & Hlt).
        assert (x ≠ u1).
        { intros ->. apply list_elem_of_lookup_2, Hmem in H1. tauto. }
        assert (x ≠ u2).
        { intros ->. apply list_elem_of_lookup_2, Hmem in H2. tauto. }
        exists (S p1), (S p2). rewrite !index_of_cons_ne, Hp1, Hp2 by done.
        repeat split; try done. lia.
    + destruct (IH (acc ++ [x])) as (rest & -> & Hnd' & Hmem & Hord).
      { apply NoDup_app. repeat split; [done| |apply NoDup_singleton].
        intros y Hy ->%list_elem_of_singleton. done. }
      exists (x :: rest). rewrite <- app_assoc in *. cbn [app] in *.
      split; [done|]. split; [done|]. split; [intros u; split|].
      * intros [->|Hu]%elem_of_cons.
        { split; [apply elem_of_cons; by left|done]. }
        apply Hmem in Hu as [Hu Hacc]. split; [apply elem_of_cons; by right|].
        intros ?. apply Hacc, elem_of_app. by left.
      * intros [[->|Hu]%elem_of_cons Hacc]; apply elem_of_cons; [by left|].
        destruct (decide (u = x)) as [->|Hne]; [by left|]. right. apply Hmem.
        split; [done|]. intros [?|?%list_elem_of_singleton]%elem_of_app; done.
      * intros i j u1 u2 H1 H2 Hij. destruct j as [|j]; [lia|]. simpl in H2.
        assert (u2 ∈ l ∧ x ≠ u2) as [Hu2 Hne2].
        { apply list_elem_of_lookup_2, Hmem in H2 as [? Hn]. split; [done|].
          intros ->. apply Hn, elem_of_app. right. by apply list_elem_of_singleton. }
        destruct i as [|i]; simpl in H1.
        { injection H1 as ->. destruct (index_of_elem _ _ Hu2) as [p2 Hp2].
          exists 0, (S p2). rewrite (index_of_cons_ne u2), Hp2 by done.
          simpl. destruct (decide (u1 = u1)); [|done]. repeat split; try done. lia. }
        destruct (Hord i j u1 u2 H1 H2) as (p1 & p2 & Hp1 & Hp2 & Hlt); [lia|].
        assert (x ≠ u1).
        { intros ->. apply list_elem_of_lookup_2, Hmem in H1 as [? Hn].
          apply Hn, elem_of_app. right. by apply list_elem_of_singleton. }
        exists (S p1), (S p2). rewrite !index_of_cons_ne, Hp1, Hp2 by done.
        repeat split; try done. lia.
Qed.

Section Load.
Context {World Driver : Type} `{!Env World Driver}.
Local Abbreviation G := (DownloaderGUI World Driver).

Lemma url_new_DownloadItem (l : list string) :
  url <$> (new_DownloadItem <$> l) = l.
Proof. rewrite <- list_fmap_compose. by apply list_fmap_id. Qed.

Lemma load_items v (urls : list string) (g : G) :
  urls ≠ [] →
  download_items (load v urls g).2 = new_DownloadItem <$> dict_fromkeys urls.
Proof.
  intros Hne. destruct v; unfold load, Repack.load_urls, RicherGui.process_loaded_urls.
  - by rewrite bool_decide_eq_false_2.
  - done.
Qed.

(** C8.  Loading a list of urls makes one task for each distinct url, the
    urls in the order of their first occurrence in the list, every task
    [Pending]. *)
Theorem C8_load_deduplicates v (urls : list string) (g : G) :
  urls ≠ [] →
  NoDup (url <$> download_items (load v urls g).2) ∧
  (∀ u, u ∈ url <$> download_items (load v urls g).2 ↔ u ∈ urls) ∧
  (∀ i j u1 u2,
     (url <$> download_items (load v urls g).2) !! i = Some u1 →
     (url <$> download_items (load v urls g).2) !! j = Some u2 →
     i < j →
     ∃ p1 p2, index_of u1 urls = Some p1 ∧ index_of u2 urls = Some p2 ∧ p1 < p2) ∧
  Forall (λ it, status it = PENDING) (download_items (load v urls g).2).
Proof.
  intros Hne. rewrite load_items by done. rewrite url_new_DownloadItem.
  destruct (fromkeys_fold urls [] (NoDup_nil_2)) as (rest & Hfold & Hnd & Hmem & Hord).
  unfold dict_fromkeys. rewrite Hfold. simpl in *.
  split; [done|]. split; [intros u; split|split; [done|]].
  - intros Hu. by apply Hmem.
  - intros Hu. apply Hmem. split; [done|]. apply not_elem_of_nil.
  - apply Forall_fmap, Forall_forall. done.
Qed.

End Load.

(** * Concrete runs on the simulated site *)


(** * More of the worker *)

Section Checksum.
Context {World Driver : Type} `{!Env World Driver}.
Local Abbreviation G := (DownloaderGUI World Driver).

Lemma read_chunks_concat fuel n (bs : list Byte.byte) :
  0 < n → length bs ≤ fuel → concat (read_chunks fuel n bs) = bs.
Proof.
  intros Hn. revert bs. induction fuel as [|fuel IH]; intros bs Hlen.
  - destruct bs; [done|simpl in Hlen; lia].
  - destruct bs as [|b bs]; [done|].
    cbn [read_chunks concat]. rewrite IH.
    + apply take_drop.
    + rewrite length_drop. simpl in *. lia.
Qed.

(** X1.  [calculate_checksum] on a file that can be read returns the digest
    of its whole content, whatever its length, and changes nothing. *)
Theorem checksum_covers_whole_file (file_path : string) (g : G) content :
  read_file file_path (world g) = inr content →
  calculate_checksum file_path g = (Returns (Some (sha256_hexdigest content)), g).
Proof.
  intros Hr. unfold calculate_checksum, mbind, M_bind, gets. rewrite Hr.
  rewrite read_chunks_concat by lia. done.
Qed.

End Checksum.

(** ** The statistics *)

Lemma count_status_cons s it items :
  count_status s (it :: items)
  = (if decide (status it = s) then 1 else 0) + count_status s items.
Proof.
  unfold count_status. rewrite filter_cons. by destruct (decide (status it = s)).
Qed.

Lemma count_status_le s items : count_status s items ≤ length items.
Proof.
  induction items as [|it items IH]; [done|].
  rewrite count_status_cons. destruct (decide _); simpl; lia.
Qed.

(** No task has the status: the count is zero. *)
Lemma count_status_0 s items :
  (∀ it, it ∈ items → status it ≠ s) → count_status s items = 0.
Proof.
  induction items as [|it items IH]; intros Hno; [done|].
  rewrite count_status_cons, IH.
  - destruct (decide _) as [Heq|]; [|done]. by destruct (Hno it (list_elem_of_here _ _)).
  - intros it' Hin. apply Hno. by apply list_elem_of_further.
Qed.

(** X2.  The five counters of [update_statistics] add up to the total, and
    the success rate divides a count that is at most its divisor, which is
    never zero. *)
Theorem statistics_partition (items : list DownloadItem) :
  total (statistics items)
  = completed (statistics items) + failed (statistics items)
    + skipped (statistics items) + pending (statistics items)
    + downloading (statistics items)
  ∧ completed (statistics items) ≤ or_1 (total (statistics items))
  ∧ 0 < or_1 (total (statistics items)).
Proof.
  cbn [statistics total completed failed skipped pending downloading].
  split; [|split].
  - induction items as [|it items IH]; [done|].
    rewrite !count_status_cons. cbn [length]. rewrite IH.
    destruct (status it); repeat destruct (decide _); try done; lia.
  - pose proof (count_status_le COMPLETED items). unfold or_1.
    destruct (length items); lia.
  - unfold or_1. destruct (length items); lia.
Qed.

(** ** More on one turn of the loop *)

Ltac read_threshold :=
  repeat match goal with
  | H : (_ <=? _)%Z = true |- _ => apply Z.leb_le in H
  | H : (_ <=? _)%Z = false |- _ => apply Z.leb_gt in H
  end.

Section MoreTurn.
Context {World Driver : Type} `{!Env World Driver}.
Variable cfg : Settings.
Local Abbreviation G := (DownloaderGUI World Driver).

(** A turn that lets the loop go on has settled its task; a turn breaks out
    of the loop only when the flag is clear. *)
Lemma turn_settles v idx (g : G) r g' :
  loop_body v cfg idx g = (r, g') →
  match r with
  | Returns Continue => ∃ it', download_items g' !! idx = Some it' ∧ settled it'
  | Returns Break => is_downloading g = false
  | Raises _ => True
  end.
Proof.
  revert r g'. destruct g as [w items flag drv q lg ctr cs].
  set (g := mkGUI w items flag drv q lg ctr cs).
  apply (wp_elim _ g (λ r g',
    match r with
    | Returns Continue => ∃ it', download_items g' !! idx = Some it' ∧ settled it'
    | Returns Break => is_downloading g = false
    | Raises _ => True
    end)). subst g.
  destruct v; unfold loop_body; wp_run.
  all: try exact I.
  all: try (by destruct flag).
  all: eexists; (split; [solve_lookup|]); unfold settled; item_fields; auto.
Qed.

(** A turn writes neither the url, nor the name, nor the progress of a
    task. *)
Lemma turn_identity v idx (g : G) r g' :
  loop_body v cfg idx g = (r, g') →
  identity <$> download_items g' = identity <$> download_items g.
Proof.
  revert r g'. destruct g as [w items flag drv q lg ctr cs].
  set (g := mkGUI w items flag drv q lg ctr cs).
  apply (wp_elim _ g (λ r g',
    identity <$> download_items g' = identity <$> download_items g)). subst g.
  destruct v; unfold loop_body; wp_run.
  all: wp_norm; try reflexivity.
  all: apply list_eq; intros j; rewrite !list_lookup_fmap.
  all: destruct (decide (j = idx)) as [->|];
         [ rewrite ?list_lookup_alter_eq;
           by match goal with |- context [?l !! ?i] => destruct (l !! i) end
         | by rewrite ?list_lookup_alter_ne ].
Qed.

(** The counter after a turn is the counter before, moved along the calls
    of the turn, and it stays within the bound at each of these calls. *)
Lemma turn_session_bound v idx (g : G) r g' :
  loop_body v cfg idx g = (r, g') →
  (0 ≤ downloads_since_refresh g ≤ session_bound cfg)%Z →
  downloads_since_refresh g'
    = fold_left count_call (new_calls g g') (downloads_since_refresh g)
  ∧ ∀ k, (0 ≤ fold_left count_call (take k (new_calls g g')) (downloads_since_refresh g)
          ≤ session_bound cfg)%Z.
Proof.
  revert r g'. destruct g as [w items flag drv q lg ctr cs].
  set (g := mkGUI w items flag drv q lg ctr cs).
  apply (wp_elim _ g (λ r g',
    (0 ≤ downloads_since_refresh g ≤ session_bound cfg)%Z →
    downloads_since_refresh g'
      = fold_left count_call (new_calls g g') (downloads_since_refresh g)
    ∧ ∀ k, (0 ≤ fold_left count_call (take k (new_calls g g')) (downloads_since_refresh g)
            ≤ session_bound cfg)%Z)). subst g.
  destruct v; unfold loop_body; wp_run.
  all: intros Hb; simpl_new; read_threshold; unfold session_bound in *.
  all: split; [reflexivity|].
  all: intros [|[|[|k]]]; cbn [take fold_left count_call]; rewrite ?take_nil;
       cbn [fold_left]; lia.
Qed.

End MoreTurn.

(** ** More on the loop and the worker *)

Section MoreLoop.
Context {World Driver : Type} `{!Env World Driver}.
Variable cfg : Settings.
Local Abbreviation G := (DownloaderGUI World Driver).
Local Abbreviation M := (M World Driver).

Lemma user_items v a (g : G) r g1 :
  user v a g = (r, g1) → download_items g1 = download_items g.
Proof.
  intros Hu. destruct (user_spec v a g) as (g1' & Hu' & Hi & _).
  rewrite Hu' in Hu. by injection Hu as _ <-.
Qed.

Lemma for_loop_identity v sched n idx (g : G) r g' :
  for_loop v cfg sched n idx g = (r, g') →
  identity <$> download_items g' = identity <$> download_items g.
Proof.
  apply (for_loop_invariant cfg v sched
    (λ g', identity <$> download_items g' = identity <$> download_items g)); [| |done].
  - intros a g1 r1 g2 HP Hu. by rewrite (user_items _ _ _ _ _ Hu).
  - intros i g1 r1 g2 HP Hb. by rewrite (turn_identity cfg _ _ _ _ _ Hb).
Qed.

(** The worker with what surrounds the loop taken apart. *)
Lemma download_worker_cases v sched (g : G) r gf :
  download_worker v cfg sched g = (r, gf) →
  (∃ e ms, prepare_download_dir v cfg g = (Raises e, gf) ∧ r = Raises e ∧
     download_items gf = download_items g ∧ calls gf = calls g ∧
     gui_queue gf = gui_queue g ++ ms ∧ ∀ m, m ∈ ms → ∃ t, m = MsgLog t Info) ∨
  ∃ g0 rb gb ms fin fm,
    prepare_download_dir v cfg g = (Returns (), g0) ∧
    is_downloading g0 = is_downloading g ∧
    try_block v cfg sched g0 = (rb, gb) ∧
    download_items g0 = download_items g ∧
    download_items gf = download_items gb ∧
    calls g0 = calls g ∧
    calls gf = calls gb ++ fin ∧
    (fin = [] ∨ ∃ d res, fin = [CallQuit d res]) ∧
    gui_queue g0 = gui_queue g ++ ms ∧
    gui_queue gf = gui_queue gb ++ except_msgs v rb ++ fm ∧
    (MsgDownloadComplete ∉ ms) ∧
    ((r = Returns () ∧ fm = [MsgDownloadComplete]) ∨ (∃ e, r = Raises e ∧ fm = [])).
Proof.
  intros [(e & Hp & ->)|(g0 & Hp & Hframe)]%download_worker_spec;
    pose proof (prepare_download_dir_spec cfg _ _ _ _ Hp)
      as (Hi0 & Hc0 & _ & Hf0 & _ & _ & ms & Hq0 & Hinfo).
  { left. by exists e, ms. }
  right. apply try_frame_spec in Hframe
    as (rb & gb & fin & fm & Hbody & Hif & Hcf & Hqf & Hfin).
  exists g0, rb, gb, ms, fin, fm. repeat (split; [done|]).
  split; [|split; [done|split; [done|split]]].
  - destruct Hfin as [(_ & -> & _)|[(d & w & _ & _ & -> & _)|(d & e & w & _ & _ & -> & _)]];
      eauto.
  - intros Hin. by destruct (Hinfo _ Hin).
  - destruct Hfin as [(_ & _ & -> & ->)|[(d & w & _ & _ & _ & -> & ->)|(d & e & w & _ & _ & _ & -> & ->)]];
      eauto.
Qed.

(** X4 (below) for the loop, then for the worker. *)
Lemma try_block_identity v sched (g : G) r g' :
  try_block v cfg sched g = (r, g') →
  identity <$> download_items g' = identity <$> download_items g.
Proof.
  intros [(e & w & _ & _ & Hi & _)|(d & w & g1 & _ & Hloop & Hi & _)]%try_block_spec.
  - by rewrite Hi.
  - rewrite <- Hi. by eapply for_loop_identity.
Qed.

(** With nobody pressing Pause or Stop, the turns that end normally leave
    their tasks settled. *)
Lemma for_loop_settles v sched n idx (g : G) gf :
  (∀ i, sched i = None) → is_downloading g = true →
  for_loop v cfg sched n idx g = (Returns (), gf) →
  ∀ j it, idx ≤ j < idx + n → download_items gf !! j = Some it → settled it.
Proof.
  intros Hnever. revert idx g. induction n as [|n IH]; intros idx g Hflag Hloop j it Hj Hit.
  { lia. }
  apply for_loop_cases in Hloop as (g1 & Hu & Hcases).
  rewrite Hnever, user_none in Hu. injection Hu as <-.
  destruct Hcases as [[Hb _]|[(e & _ & ?)|(g2 & Hb & Hrest)]]; [|done|].
  - apply turn_settles in Hb. congruence.
  - pose proof (turn_frame_holds cfg _ _ _ _ _ Hb) as (_ & _ & _ & Hflag2 & _).
    destruct (decide (j = idx)) as [->|].
    + apply turn_settles in Hb as (it' & Hit' & Hs).
      apply for_loop_frame in Hrest as (_ & Hlt & _).
      rewrite Hlt, Hit' in Hit by lia. by injection Hit as <-.
    + eapply (IH (S idx) g2); [congruence|done| |done]. lia.
Qed.

(** The calls of a user action or of a turn, added to calls that keep the
    bound. *)
Lemma served_within_app base (g g' : G) new :
  served_within cfg base g →
  calls g' = calls g ++ new →
  downloads_since_refresh g'
    = fold_left count_call new (downloads_since_refresh g) →
  (∀ k, (0 ≤ fold_left count_call (take k new) (downloads_since_refresh g)
         ≤ session_bound cfg)%Z) →
  served_within cfg base g'.
Proof.
  intros (cs & Hc & Hd & Hk) Hc' Hd' Hnew. exists (cs ++ new).
  split; [by rewrite Hc', Hc, app_assoc|].
  unfold completed_since_acquire in *.
  split; [by rewrite fold_left_app, <- Hd|].
  intros k. rewrite take_app, fold_left_app.
  destruct (decide (k < length cs)) as [Hlt|Hge].
  - replace (k - length cs) with 0 by lia. apply Hk.
  - rewrite (take_ge cs) by lia. rewrite <- Hd. apply Hnew.
Qed.

Lemma served_within_counter base (g : G) :
  served_within cfg base g →
  (0 ≤ downloads_since_refresh g ≤ session_bound cfg)%Z.
Proof.
  intros (cs & _ & -> & Hk). specialize (Hk (length cs)). by rewrite take_ge in Hk.
Qed.

Lemma user_served_within base v a (g : G) r g' :
  served_within cfg base g → user v a g = (r, g') → served_within cfg base g'.
Proof.
  intros HP Hu.
  destruct (user_spec v a g) as (g2' & Hu' & _ & _ & Hd & _ & _ & Hc).
  rewrite Hu' in Hu. injection Hu as _ <-.
  pose proof (served_within_counter _ _ HP) as Hb.
  eapply served_within_app; [done|exact Hc| |].
  - rewrite Hd. by destruct a as [[]|], (driver g).
  - intros [|[|k]]; destruct a as [[]|], (driver g);
      cbn [take fold_left count_call]; rewrite ?take_nil; cbn [fold_left]; lia.
Qed.

Lemma turn_served_within base v idx (g : G) r g' :
  served_within cfg base g → loop_body v cfg idx g = (r, g') →
  served_within cfg base g'.
Proof.
  intros HP Hb.
  pose proof (served_within_counter _ _ HP) as Hctr.
  destruct (turn_session_bound cfg _ _ _ _ _ Hb Hctr) as (Hd & Hk).
  apply turn_frame_holds in Hb as (_ & _ & _ & _ & (cs2 & Hc2 & _) & _).
  rewrite (new_calls_app _ _ _ Hc2) in Hd, Hk.
  by eapply served_within_app.
Qed.

Lemma for_loop_served_within base v sched n idx (g : G) r g' :
  served_within cfg base g →
  for_loop v cfg sched n idx g = (r, g') →
  served_within cfg base g'.
Proof.
  intros Hg. apply (for_loop_invariant cfg v sched (served_within cfg base)); [| |done].
  - intros a g1 r1 g2 HP Hu. by eapply user_served_within.
  - intros i g1 r1 g2 HP Hb. by eapply turn_served_within.
Qed.

End MoreLoop.

(** * More properties of the worker *)

Section MoreWorker.
Context {World Driver : Type} `{!Env World Driver}.
Variable cfg : Settings.
Local Abbreviation G := (DownloaderGUI World Driver).
Local Abbreviation M := (M World Driver).

(** X3.  When the download directory is prepared without an exception,
    nobody presses Pause or Stop and the run logs no error of its [except]
    block, every task ends [Skipped], [Completed] or [Failed]: the
    statistics show no task pending and none downloading. *)
Theorem clean_run_settles_every_task v sched (g : G) r gf :
  (∀ i, sched i = None) →
  is_downloading g = true →
  (prepare_download_dir v cfg g).1 = Returns () →
  download_worker v cfg sched g = (r, gf) →
  (∀ e, MsgLog (error_prefix v +:+ e) Error ∉ new_msgs g gf) →
  (∀ it, it ∈ download_items gf → settled it) ∧
  pending (statistics (download_items gf)) = 0 ∧
  downloading (statistics (download_items gf)) = 0.
Proof.
  intros Hnever Hflag Hprep Hrun Hquiet.
  apply download_worker_cases in Hrun
    as [(e & ms & Hp & _)|(g0 & rb & gb & ms & fin & fm & _ & Hf0 & Hblock & Hi0 & Hif & _ & _ & _ & Hq0 & Hqf & _)].
  { by rewrite Hp in Hprep. }
  assert (∃ ms', gui_queue gb = gui_queue g0 ++ ms' ∧
            (rb = Returns () → ∀ it, it ∈ download_items gb → settled it))
    as (ms' & Hqb & Hsettled).
  { apply try_block_spec in Hblock
      as [(e & w & _ & -> & _ & Hq & _)|(d & w & g1 & _ & Hloop & Hi1 & Hq1 & Hf1 & _)].
    - exists []. by rewrite app_nil_r.
    - pose proof (for_loop_frame cfg _ _ _ _ _ _ _ Hloop) as (Hlen & _ & _ & _ & (ms' & Hq & _)).
      exists ms'. split; [by rewrite Hq, Hq1|]. intros -> it Hin.
      apply list_elem_of_lookup in Hin as [j Hj].
      assert (is_downloading g1 = true) as Hflag1 by (by rewrite Hf1, Hf0).
      apply (for_loop_settles cfg _ _ _ _ _ _ Hnever Hflag1 Hloop j); [|done].
      apply lookup_lt_Some in Hj. rewrite Hlen, Hi1 in Hj. lia. }
  assert (rb = Returns ()) as ->.
  { destruct rb as [[]|e]; [done|]. destruct (Hquiet e).
    rewrite (new_msgs_app g gf (ms ++ ms' ++ [MsgLog (error_prefix v +:+ e) Error] ++ fm)).
    - set_solver.
    - rewrite Hqf, Hqb, Hq0. cbn [except_msgs]. by rewrite <- !app_assoc. }
  rewrite Hif. assert (∀ it, it ∈ download_items gb → settled it) as Hall by auto.
  split; [done|].
  cbn [statistics pending downloading].
  split; apply count_status_0; intros it Hin Hst;
    destruct (Hall it Hin) as [?|[?|?]]; congruence.
Qed.

Lemma download_worker_identity v sched (g : G) :
  identity <$> download_items (download_worker v cfg sched g).2
  = identity <$> download_items g.
Proof.
  destruct (download_worker v cfg sched g) as [r gf] eqn:Hrun. cbn [snd].
  apply download_worker_cases in Hrun
    as [(e & ms & _ & _ & Hi & _)|(g0 & rb & gb & ms & fin & fm & _ & _ & Hblock & Hi0 & Hif & _)].
  { by rewrite Hi. }
  rewrite Hif, <- Hi0. by eapply try_block_identity.
Qed.

(** X4.  The worker neither adds, nor removes, nor reorders tasks, and it
    never writes the url, the name or the progress of a task. *)
Theorem worker_keeps_identity v sched (g : G) :
  identity <$> download_items (download_worker v cfg sched g).2
  = identity <$> download_items g.
Proof. apply download_worker_identity. Qed.

(** X5.  Whatever the collaborators and the user do, no session serves more
    downloads that return [True] than the threshold (one, for a threshold
    below one): at every point of the run, the count of such downloads
    since the session in use was acquired stays within the bound. *)
Theorem session_serves_at_most_threshold v sched (g : G) k :
  (completed_since_acquire (take k (new_calls g (download_worker v cfg sched g).2))
   ≤ session_bound cfg)%Z.
Proof.
  destruct (download_worker v cfg sched g) as [r gf] eqn:Hrun. cbn [snd].
  apply download_worker_cases in Hrun
    as [(e & ms & _ & _ & _ & Hc & _)|(g0 & rb & gb & ms & fin & fm & _ & _ & Hblock & _ & _ & Hc0 & Hcf & Hfin & _)].
  { rewrite (new_calls_same g gf Hc), take_nil. cbn. unfold session_bound. lia. }
  assert (∃ cs, calls gb = calls g ++ cs ∧
            ∀ k, (0 ≤ completed_since_acquire (take k cs) ≤ session_bound cfg)%Z)
    as (cs & Hcb & Hk).
  { apply try_block_spec in Hblock
      as [(e & w & _ & _ & _ & _ & _ & Hc)|(d & w & g1 & _ & Hloop & _ & _ & _ & _ & Hd1 & Hc1)].
    - exists [CallSetup (inl e)]. rewrite Hc, Hc0. split; [done|].
      intros [|[|k']]; cbn; unfold session_bound; lia.
    - assert (served_within cfg (calls g) g1) as Hg1.
      { exists [CallSetup (inr d)]. rewrite Hc1, Hc0, Hd1. do 2 (split; [done|]).
        intros [|[|k']]; cbn; unfold session_bound; lia. }
      destruct (for_loop_served_within cfg _ _ _ _ _ _ _ _ Hg1 Hloop) as (cs & ? & _ & ?).
      by exists cs. }
  rewrite (new_calls_app g gf (cs ++ fin)) by (by rewrite Hcf, Hcb, app_assoc).
  unfold completed_since_acquire in *. rewrite take_app, fold_left_app.
  destruct Hfin as [->|(d & res & ->)].
  - rewrite take_nil. apply Hk.
  - destruct (k - length cs) as [|[|m]]; cbn [take fold_left count_call]; apply Hk.
Qed.

End MoreWorker.

(** * Reasoning about the GUI thread *)

Section TkRules.
Context {World Driver : Type} `{!Env World Driver} `{!Desktop World Driver}.
Local Abbreviation Window := (Window World Driver).
Local Abbreviation W := (W World Driver).
Local Abbreviation M := (M World Driver).

Lemma wpw_elim {A} (m : W A) (w : Window) Q :
  Tk.wpw m w Q → ∀ r w', m w = (r, w') → Q r w'.
Proof. unfold Tk.wpw. intros HQ r w' E. by rewrite E in HQ. Qed.

Lemma wpw_intro {A} (m : W A) (w : Window) (Q : Outcome A → Window → Prop) :
  (∀ r w', m w = (r, w') → Q r w') → Tk.wpw m w Q.
Proof. unfold Tk.wpw. intros HQ. apply HQ. by destruct (m w). Qed.

Lemma wpw_bind {A B} (m : W A) (f : A → W B) (w : Window) Q :
  Tk.wpw m w (λ r w1, match r with
                      | Returns a => Tk.wpw (f a) w1 Q
                      | Raises e => Q (Raises e) w1
                      end) →
  Tk.wpw (m ≫= f) w Q.
Proof. unfold Tk.wpw, mbind, W_bind. destruct (m w) as [[a|e] w1]; done. Qed.

Lemma wpw_ret {A} (a : A) (w : Window) Q : Q (Returns a) w → Tk.wpw (mret a) w Q.
Proof. done. Qed.

Lemma wpw_raise {A} e (w : Window) (Q : Outcome A → Window → Prop) :
  Q (Raises e) w → Tk.wpw (Tk.raise e) w Q.
Proof. done. Qed.

Lemma wpw_gets {A} (f : Window → A) (w : Window) Q :
  Q (Returns (f w)) w → Tk.wpw (Tk.gets f) w Q.
Proof. done. Qed.

Lemma wpw_modify f (w : Window) Q : Q (Returns ()) (f w) → Tk.wpw (Tk.modify f) w Q.
Proof. done. Qed.

Lemma wpw_on_self {A} (m : M A) (w : Window) Q :
  wp m (self w) (λ r g, Q r (set_self g w)) → Tk.wpw (Tk.on_self m) w Q.
Proof. unfold wp, Tk.wpw, Tk.on_self. by destruct (m (self w)). Qed.

Lemma wpw_log t l (w : Window) Q :
  Q (Returns ()) (set_self (set_log_text (log_text (self w) ++ [(t, l)]) (self w)) w) →
  Tk.wpw (Tk.log t l) w Q.
Proof. done. Qed.

Lemma wpw_assign f (w : Window) Q :
  Q (Returns ()) (set_self (f (self w)) w) → Tk.wpw (Tk.assign f) w Q.
Proof. done. Qed.

Lemma wpw_try_except {A} (m : W A) h (w : Window) Q :
  Tk.wpw m w (λ r w1, match r with
                      | Returns a => Q (Returns a) w1
                      | Raises e => Tk.wpw (h e) w1 Q
                      end) →
  Tk.wpw (Tk.try_except m h) w Q.
Proof. unfold Tk.wpw, Tk.try_except. destruct (m w) as [[a|e] w1]; done. Qed.

Lemma wpw_attempt {A} (m : W A) (w : Window) Q :
  Tk.wpw m w (λ r w1, match r with
                      | Returns a => Q (Returns (inr a)) w1
                      | Raises e => Q (Returns (inl e)) w1
                      end) →
  Tk.wpw (Tk.attempt m) w Q.
Proof. unfold Tk.wpw, Tk.attempt. destruct (m w) as [[a|e] w1]; done. Qed.

Lemma wpw_answer {A} (f : World → Exception + A) (w : Window) Q :
  (∀ a, f (world (self w)) = inr a → Q (Returns a) w) →
  (∀ e, f (world (self w)) = inl e → Q (Raises e) w) →
  Tk.wpw (Tk.answer f) w Q.
Proof.
  unfold Tk.wpw, Tk.answer. destruct (f _) as [e|a] eqn:?; simpl; auto.
Qed.

Lemma wpw_local_setup (w : Window) Q :
  (∀ d wd, setup_driver (world (self w)) = (inr d, wd) →
     Q (Returns d) (set_self (set_calls (calls (self w) ++ [CallSetup (inr d)])
                                (set_world wd (self w))) w)) →
  (∀ e wd, setup_driver (world (self w)) = (inl e, wd) →
     Q (Raises e) (set_self (set_calls (calls (self w) ++ [CallSetup (inl e)])
                               (set_world wd (self w))) w)) →
  Tk.wpw Tk.local_setup_driver w Q.
Proof.
  unfold Tk.wpw, Tk.local_setup_driver, Tk.on_self, call_setup_driver.
  destruct (setup_driver _) as [[e|d] wd] eqn:?; simpl; auto.
Qed.

Lemma wpw_local_quit d (w : Window) Q :
  (∀ wd, driver_quit d (world (self w)) = (None, wd) →
     Q (Returns ()) (set_self (set_calls (calls (self w) ++ [CallQuit d None])
                                 (set_world wd (self w))) w)) →
  (∀ e wd, driver_quit d (world (self w)) = (Some e, wd) →
     Q (Raises e) (set_self (set_calls (calls (self w) ++ [CallQuit d (Some e)])
                               (set_world wd (self w))) w)) →
  Tk.wpw (Tk.local_driver_quit d) w Q.
Proof.
  unfold Tk.wpw, Tk.local_driver_quit, Tk.on_self.
  destruct (driver_quit _ _) as [[e|] wd] eqn:?; simpl; auto.
Qed.

Lemma wpw_scrape_links d u (w : Window) Q :
  (∀ scraped wd, scrape_links d u (world (self w)) = (inr scraped, wd) →
     Q (Returns scraped) (set_self (set_world wd (self w)) w)) →
  (∀ e wd, scrape_links d u (world (self w)) = (inl e, wd) →
     Q (Raises e) (set_self (set_world wd (self w)) w)) →
  Tk.wpw (Tk.call_scrape_links d u) w Q.
Proof.
  unfold Tk.wpw, Tk.call_scrape_links, Tk.on_self.
  destruct (scrape_links _ _ _) as [[e|scraped] wd] eqn:?; simpl; auto.
Qed.

Lemma wpw_os_remove dir file (w : Window) Q :
  (∀ wd, os_remove dir file (world (self w)) = (None, wd) →
     Q (Returns ()) (set_removals (removals w ++ [(file, None)])
                       (set_self (set_world wd (self w)) w))) →
  (∀ e wd, os_remove dir file (world (self w)) = (Some e, wd) →
     Q (Raises e) (set_removals (removals w ++ [(file, Some e)])
                     (set_self (set_world wd (self w)) w))) →
  Tk.wpw (Tk.call_os_remove dir file) w Q.
Proof.
  unfold Tk.wpw, Tk.call_os_remove.
  destruct (os_remove _ _ _) as [[e|] wd] eqn:?; simpl; auto.
Qed.

End TkRules.

(** One step through a statement of the GUI thread; [wpw_norm] puts the
    window back in the form [mkWindow ...]. *)
Ltac wpw_norm :=
  cbv beta iota delta [
    set_self set_inbox set_output_var set_tk_vars set_status_label
    set_progress_bar set_queue_tree set_stats_text set_start_btn set_pause_btn
    set_stop_btn set_boxes set_threads set_removals
    self inbox txt_file_var url_entry output_var tk_vars status_label
    progress_bar queue_tree stats_text start_btn pause_btn stop_btn boxes
    threads removals
    set_world set_download_items set_is_downloading set_driver set_gui_queue
    set_log_text set_downloads_since_refresh set_calls
    world download_items is_downloading driver gui_queue log_text
    downloads_since_refresh calls].

Ltac wpw_norm_hyps :=
  cbv beta iota delta [
    set_self set_inbox set_output_var set_tk_vars set_status_label
    set_progress_bar set_queue_tree set_stats_text set_start_btn set_pause_btn
    set_stop_btn set_boxes set_threads set_removals
    self inbox txt_file_var url_entry output_var tk_vars status_label
    progress_bar queue_tree stats_text start_btn pause_btn stop_btn boxes
    threads removals
    set_world set_download_items set_is_downloading set_driver set_gui_queue
    set_log_text set_downloads_since_refresh set_calls
    world download_items is_downloading driver gui_queue log_text
    downloads_since_refresh calls] in *.

Ltac intro_normw :=
  let H := fresh "Hx" in
  intros H;
  cbv beta iota delta [
    self inbox txt_file_var url_entry output_var tk_vars status_label
    progress_bar queue_tree stats_text start_btn pause_btn stop_btn boxes
    threads removals
    world download_items is_downloading driver gui_queue log_text
    downloads_since_refresh calls] in H.

Ltac wpw_unfold_block :=
  lazymatch goal with
  | |- Tk.wpw (Tk.put _) _ _ => unfold Tk.put
  | |- Tk.wpw (Tk.show _) _ _ => unfold Tk.show
  | |- Tk.wpw (Tk.start_thread _) _ _ => unfold Tk.start_thread
  | |- Tk.wpw (Tk.update_status _) _ _ => unfold Tk.update_status
  | |- Tk.wpw (Tk.update_statistics _) _ _ => unfold Tk.update_statistics
  | |- Tk.wpw (Tk.update_queue_display _) _ _ => unfold Tk.update_queue_display
  | |- Tk.wpw (Tk.process_loaded_urls _ _) _ _ => unfold Tk.process_loaded_urls
  | |- Tk.wpw Tk.load_from_text_file _ _ => unfold Tk.load_from_text_file
  | |- Tk.wpw Tk.make_scrape_dir _ _ => unfold Tk.make_scrape_dir
  | |- Tk.wpw (Tk.scrape _ _) _ _ => unfold Tk.scrape
  | |- Tk.wpw (Tk.scrape_worker _) _ _ => unfold Tk.scrape_worker
  | |- Tk.wpw (Tk.load_urls _) _ _ => unfold Tk.load_urls
  | |- Tk.wpw Tk.clean_crdownload_files _ _ => unfold Tk.clean_crdownload_files
  | |- Tk.wpw (Tk.start_downloads _) _ _ => unfold Tk.start_downloads
  | |- Tk.wpw (Tk.pause_downloads _) _ _ => unfold Tk.pause_downloads
  | |- Tk.wpw Tk.quit_quietly _ _ => unfold Tk.quit_quietly
  | |- Tk.wpw (Tk.stop_downloads _) _ _ => unfold Tk.stop_downloads
  | |- Tk.wpw (Tk.on_download_complete _) _ _ => unfold Tk.on_download_complete
  | |- Tk.wpw (Tk.dispatch _ _) _ _ => unfold Tk.dispatch
  | |- Tk.wpw (Tk.StringVar_set _) _ _ => unfold Tk.StringVar_set
  | |- Tk.wpw (Tk.BooleanVar_set _) _ _ => unfold Tk.BooleanVar_set
  | |- Tk.wpw (Tk.IntVar_set _) _ _ => unfold Tk.IntVar_set
  | |- Tk.wpw Tk.load_settings _ _ => unfold Tk.load_settings
  | |- Tk.wpw (Tk.save_settings _) _ _ => unfold Tk.save_settings
  | |- Tk.wpw (Tk.on_closing _ _) _ _ => unfold Tk.on_closing
  | |- Tk.wpw (Tk.check_queue _) _ _ => unfold Tk.check_queue
  | |- Tk.wpw (Tk.drain _ _) _ _ => cbn [Tk.drain length app]
  end.

Ltac wpw_step :=
  lazymatch goal with
  | |- Tk.wpw (mbind _ _) _ _ => apply wpw_bind
  | |- Tk.wpw (mret _) _ _ => apply wpw_ret
  | |- Tk.wpw (Tk.raise _) _ _ => apply wpw_raise
  | |- Tk.wpw (Tk.gets _) _ _ => apply wpw_gets
  | |- Tk.wpw (Tk.modify _) _ _ => apply wpw_modify
  | |- Tk.wpw (Tk.log _ _) _ _ => apply wpw_log
  | |- Tk.wpw (Tk.assign _) _ _ => apply wpw_assign
  | |- Tk.wpw (Tk.try_except _ _) _ _ => apply wpw_try_except
  | |- Tk.wpw (Tk.attempt _) _ _ => apply wpw_attempt
  | |- Tk.wpw (Tk.answer _) _ _ => apply wpw_answer; intros ?; intro_normw
  | |- Tk.wpw Tk.local_setup_driver _ _ => apply wpw_local_setup; intros ? ?; intro_normw
  | |- Tk.wpw (Tk.local_driver_quit _) _ _ =>
      apply wpw_local_quit; [intros ?|intros ? ?]; intro_normw
  | |- Tk.wpw (Tk.call_scrape_links _ _) _ _ =>
      apply wpw_scrape_links; intros ? ?; intro_normw
  | |- Tk.wpw (Tk.call_os_remove _ _) _ _ =>
      apply wpw_os_remove; [intros ?|intros ? ?]; intro_normw
  | |- Tk.wpw (Tk.on_self _) _ _ => apply wpw_on_self
  | |- Tk.wpw (match ?x with _ => _ end) _ _ => destruct x eqn:?
  | |- Tk.wpw (if ?x then _ else _) _ _ => destruct x eqn:?
  | |- wp _ _ _ => wp_step
  | |- _ => wpw_unfold_block
  end; wpw_norm.

Ltac wpw_run := repeat wpw_step.

(** ** The messages and the flag of the worker *)

Section WorkerMessages.
Context {World Driver : Type} `{!Env World Driver}.
Variable cfg : Settings.
Local Abbreviation G := (DownloaderGUI World Driver).
Local Abbreviation M := (M World Driver).

(** The worker puts [download_complete] once, as its last message, when it
    ends normally, and not at all when it ends with an exception. *)
Lemma download_worker_msgs v sched (g : G) r gf :
  download_worker v cfg sched g = (r, gf) →
  ∃ ms, (MsgDownloadComplete ∉ ms) ∧
    new_msgs g gf = ms ++ (if r is Returns _ then [MsgDownloadComplete] else []).
Proof.
  intros [(e & ms & _ & -> & _ & _ & Hq & Hinfo)|(g0 & rb & gb & ms & fin & fm & _ & _ & Hblock & _ & _ & _ & _ & _ & Hq0 & Hqf & Hms & Hfm)]
    %download_worker_cases.
  { exists ms. split.
    - intros Hin. by destruct (Hinfo _ Hin).
    - rewrite app_nil_r. by apply new_msgs_app. }
  assert (∃ ms', gui_queue gb = gui_queue g0 ++ ms' ∧ MsgDownloadComplete ∉ ms')
    as (ms' & Hqb & Hms').
  { apply try_block_spec in Hblock
      as [(e & w & _ & _ & _ & Hq & _)|(d & w & g1 & _ & Hloop & _ & Hq1 & _)].
    - exists []. rewrite app_nil_r. split; [done|]. apply not_elem_of_nil.
    - apply for_loop_frame in Hloop as (_ & _ & _ & _ & (ms' & Hq & Hn)).
      exists ms'. by rewrite Hq, Hq1. }
  exists (ms ++ ms' ++ except_msgs v rb). split.
  - rewrite !not_elem_of_app. split; [done|]. split; [done|].
    destruct rb; cbn [except_msgs]; [apply not_elem_of_nil|].
    by intros ?%list_elem_of_singleton.
  - apply new_msgs_app. rewrite Hqf, Hqb, Hq0, <- !app_assoc.
    by destruct Hfm as [[-> ->]|(e & -> & ->)].
Qed.

Lemma for_loop_flag v sched n idx (g : G) r g' :
  (∀ i, sched i = None) →
  for_loop v cfg sched n idx g = (r, g') → is_downloading g' = is_downloading g.
Proof.
  intros Hnever. revert idx g. induction n as [|n IH]; intros idx g Hloop.
  { rewrite for_loop_0 in Hloop. by injection Hloop as _ <-. }
  apply for_loop_cases in Hloop as (g1 & Hu & Hcases).
  rewrite Hnever, user_none in Hu. injection Hu as <-.
  destruct Hcases as [[Hb _]|[(e & Hb & _)|(g2 & Hb & Hrest)]].
  - by apply turn_frame_holds in Hb as (_ & _ & _ & ? & _).
  - by apply turn_frame_holds in Hb as (_ & _ & _ & ? & _).
  - apply turn_frame_holds in Hb as (_ & _ & _ & <- & _). by eapply IH.
Qed.

(** With nobody pressing Pause or Stop the flag is as the worker found
    it. *)
Lemma download_worker_flag v sched (g : G) r gf :
  (∀ i, sched i = None) →
  download_worker v cfg sched g = (r, gf) → is_downloading gf = is_downloading g.
Proof.
  intros Hnever. revert r gf. destruct g as [w items flag drv q lg ctr cs].
  set (g := mkGUI w items flag drv q lg ctr cs).
  apply (wp_elim _ g (λ r gf, is_downloading gf = is_downloading g)). subst g.
  assert (∀ (g : G) (Q : Outcome unit → G → Prop),
            (∀ r g', is_downloading g' = is_downloading g → Q r g') →
            wp (for_loop v cfg sched (length (download_items g)) 0) g Q) as Hloop.
  { intros g Q HQ. apply wp_intro. intros r g' Hrun. apply HQ. by eapply for_loop_flag. }
  destruct v; unfold download_worker, Repack.download_worker, RicherGui.download_worker,
    Repack.try_block, RicherGui.try_block.
  all: repeat (lazymatch goal with
               | |- wp (Repack.for_loop _ _ _ _) ?g _ =>
                   apply (Hloop g); intros [[]|?] [w' items' flag' drv' q' lg' ctr' cs'];
                   intro_norm; subst
               | |- wp (RicherGui.for_loop _ _ _ _) ?g _ =>
                   apply (Hloop g); intros [[]|?] [w' items' flag' drv' q' lg' ctr' cs'];
                   intro_norm; subst
               | |- _ => wp_step
               end).
  all: reflexivity.
Qed.

End WorkerMessages.

(** ** [check_queue] *)

Section CheckQueue.
Context {World Driver : Type} `{!Env World Driver} `{!Desktop World Driver}.
Local Abbreviation Window := (Window World Driver).
Local Abbreviation W := (W World Driver).

Lemma wpw_exists {A} (m : W A) (w : Window) (r0 : Outcome A) (P : Window → Prop) :
  Tk.wpw m w (λ r w', r = r0 ∧ P w') → ∃ w1, m w = (r0, w1) ∧ P w1.
Proof. unfold Tk.wpw. destruct (m w) as [r w']; simpl. intros [-> ?]; eauto. Qed.

(** No branch of [check_queue] raises or touches the queue; only the branch
    for [download_complete] touches the flag and the three buttons, and it
    leaves the GUI idle. *)
Lemma dispatch_spec v e (w : Window) :
  ∃ w', Tk.dispatch v e w = (Returns (), w') ∧ inbox w' = inbox w ∧
    if decide (e = Of MsgDownloadComplete) then Tk.idle w'
    else is_downloading (self w') = is_downloading (self w) ∧
         start_btn w' = start_btn w ∧ pause_btn w' = pause_btn w ∧
         stop_btn w' = stop_btn w.
Proof.
  destruct w as [[wd items flag drv q lg ctr cs] ib tf ue ov tv sl pb qt st b1 b2 b3 bx th rm].
  apply wpw_exists.
  destruct e as [[]|], v; wpw_run; (split; [reflexivity|]); (split; [reflexivity|]).
  all: destruct (decide _) as [Heq|Hne]; try discriminate Heq; try (by destruct Hne).
  all: by repeat split.
Qed.

Lemma drain_nil v n (w : Window) : inbox w = [] → Tk.drain v n w = (Returns (), w).
Proof. intros Hq. destruct n; [done|]. cbn. unfold mbind, W_bind, Tk.gets. by rewrite Hq. Qed.

Lemma drain_cons v n e q (w : Window) :
  inbox w = e :: q →
  Tk.drain v (S n) w = (Tk.dispatch v e ≫= λ _, Tk.drain v n) (set_inbox q w).
Proof. intros Hq. cbn [Tk.drain]. unfold mbind at 1, W_bind at 1, Tk.gets. by rewrite Hq. Qed.

(** The queue ends with [download_complete]: it is emptied and the GUI is
    left idle. *)
Lemma drain_idle v es : ∀ n (w : Window),
  inbox w = es ++ [Of MsgDownloadComplete] → length es < n →
  ∃ w', Tk.drain v n w = (Returns (), w') ∧ Tk.idle w' ∧ inbox w' = [].
Proof.
  induction es as [|e es IH]; intros [|n] w Hq Hn; try (simpl in Hn; lia).
  - rewrite (drain_cons _ _ _ _ _ Hq).
    destruct (dispatch_spec v (Of MsgDownloadComplete) (set_inbox [] w)) as (w1 & Hd & Hi & Hidle).
    unfold mbind, W_bind. rewrite Hd. exists w1.
    rewrite drain_nil by done. rewrite decide_True in Hidle by done. done.
  - rewrite <- app_comm_cons in Hq. rewrite (drain_cons _ _ _ _ _ Hq).
    destruct (dispatch_spec v e (set_inbox (es ++ [Of MsgDownloadComplete]) w))
      as (w1 & Hd & Hi & _).
    unfold mbind, W_bind. rewrite Hd. apply IH; [done|simpl in Hn; lia].
Qed.

(** The queue holds no [download_complete]: it is emptied, and the flag and
    the buttons stay as they are. *)
Lemma drain_busy v : ∀ n (w : Window),
  Of MsgDownloadComplete ∉ inbox w → length (inbox w) ≤ n →
  ∃ w', Tk.drain v n w = (Returns (), w') ∧ inbox w' = [] ∧
    is_downloading (self w') = is_downloading (self w) ∧
    start_btn w' = start_btn w ∧ pause_btn w' = pause_btn w ∧
    stop_btn w' = stop_btn w.
Proof.
  intros n w. remember (inbox w) as es eqn:Hq. symmetry in Hq.
  revert n w Hq. induction es as [|e es IH]; intros n w Hq Hno Hn.
  - exists w. by rewrite drain_nil.
  - destruct n as [|n]; [simpl in Hn; lia|].
    rewrite (drain_cons _ _ _ _ _ Hq).
    destruct (dispatch_spec v e (set_inbox es w)) as (w1 & Hd & Hi & Hrest).
    rewrite decide_False in Hrest by (intros ->; apply Hno; left).
    destruct Hrest as (Hf & Hb1 & Hb2 & Hb3).
    unfold mbind, W_bind. rewrite Hd.
    destruct (IH n w1) as (w' & Hdr & ? & Hf' & Hb1' & Hb2' & Hb3');
      [done|by apply not_elem_of_cons in Hno as [_ ?]|simpl in Hn; lia|].
    exists w'. split; [done|]. split; [done|].
    by rewrite Hf', Hb1', Hb2', Hb3', Hf, Hb1, Hb2, Hb3.
Qed.

End CheckQueue.

(** * Properties of the GUI thread *)

(** What is known of a test, read as a proposition. *)
Ltac read_tests :=
  repeat match goal with
  | H : bool_decide _ = true |- _ => apply bool_decide_eq_true in H
  | H : bool_decide _ = false |- _ => apply bool_decide_eq_false in H
  | H : String.eqb _ _ = true |- _ => apply String.eqb_eq in H
  | H : String.eqb _ _ = false |- _ => apply String.eqb_neq in H
  | H : negb _ = true |- _ => apply negb_true_iff in H
  | H : negb _ = false |- _ => apply negb_false_iff in H
  | H : _ && _ = true |- _ => apply andb_true_iff in H as [? ?]
  | H : _ || _ = false |- _ => apply orb_false_iff in H as [? ?]
  end.

Section Batch.
Context {World Driver : Type} `{!Env World Driver} `{!Desktop World Driver}.
Local Abbreviation Window := (Window World Driver).
Local Abbreviation W := (W World Driver).

Lemma check_queue_busy v (w : Window) :
  Of MsgDownloadComplete ∉ inbox w →
  ∃ w', Tk.check_queue v w = (Returns (), w') ∧ inbox w' = [] ∧
    is_downloading (self w') = is_downloading (self w) ∧
    start_btn w' = start_btn w ∧ pause_btn w' = pause_btn w ∧
    stop_btn w' = stop_btn w.
Proof.
  intros Hq. unfold Tk.check_queue, mbind, W_bind, Tk.gets. by apply drain_busy.
Qed.

(** The worker thread seen from the window. *)
Lemma run_download_thread_spec v sched (w : Window) r w' :
  Tk.run_download_thread v sched w = (r, w') →
  download_worker v (tk_vars w) sched (self w) = (r, self w') ∧
  start_btn w' = start_btn w ∧ pause_btn w' = pause_btn w ∧ stop_btn w' = stop_btn w ∧
  ∃ ms, (MsgDownloadComplete ∉ ms) ∧
    inbox w' = inbox w ++ (Of <$> ms)
                 ++ (if r is Returns _ then [Of MsgDownloadComplete] else []).
Proof.
  unfold Tk.run_download_thread.
  destruct (download_worker v (tk_vars w) sched (self w)) as [r0 g] eqn:Hrun.
  pose proof (download_worker_msgs _ _ _ _ _ _ Hrun) as (ms & Hms & Hnew).
  intros [= <- <-]. do 4 (split; [by destruct w|]).
  exists ms. split; [done|].
  replace (inbox (set_inbox (inbox w ++ (Of <$> new_msgs (self w) g)) (set_self g w)))
    with (inbox w ++ (Of <$> new_msgs (self w) g)) by (by destruct w).
  rewrite Hnew, fmap_app. by destruct r0.
Qed.

Lemma start_downloads_spec v (w : Window) :
  download_items (self w) ≠ [] → output_var w ≠ "" →
  ∃ w1, Tk.start_downloads v w = (Returns (), w1) ∧ Tk.busy w1 ∧
    threads w1 = threads w ++ [download_thread] ∧
    inbox w1 = inbox w ∧ tk_vars w1 = tk_vars w ∧
    download_items (self w1) = download_items (self w).
Proof.
  destruct w as [[wd items flag drv q lg ctr cs] ib tf ue ov tv sl pb qt st b1 b2 b3 bx th rm].
  wpw_norm. intros Hitems Hout. apply wpw_exists.
  destruct v; wpw_run; read_tests; try done.
Qed.

(** X8.  Whatever else the queue holds, once [check_queue] has handled a
    queue that ends with [download_complete] the queue is empty and the GUI
    is idle: flag clear, Start enabled, Pause and Stop disabled, progress
    bar at 100. *)
Theorem check_queue_ends_idle v es (w : Window) :
  inbox w = es ++ [Of MsgDownloadComplete] →
  ∃ w', Tk.check_queue v w = (Returns (), w') ∧ Tk.idle w' ∧ inbox w' = [].
Proof.
  intros Hq. unfold Tk.check_queue, mbind, W_bind, Tk.gets.
  apply (drain_idle v es); [done|]. rewrite Hq, length_app. simpl. lia.
Qed.

(** X9.  With tasks in the queue and an output directory, Start makes the
    GUI busy and starts the worker; whenever the worker thread then ends
    normally, whatever the user pressed meanwhile, handling its messages
    brings the GUI back to idle. *)
Theorem batch_returns_to_idle v sched (w : Window) :
  download_items (self w) ≠ [] → output_var w ≠ "" →
  ∃ w1, Tk.start_downloads v w = (Returns (), w1) ∧ Tk.busy w1 ∧
    threads w1 = threads w ++ [download_thread] ∧
    ∀ w2, Tk.run_download_thread v sched w1 = (Returns (), w2) →
      ∃ w3, Tk.check_queue v w2 = (Returns (), w3) ∧ Tk.idle w3 ∧ inbox w3 = [].
Proof.
  intros Hitems Hout.
  destruct (start_downloads_spec v w Hitems Hout) as (w1 & Hstart & Hbusy & Hth & _).
  exists w1. do 3 (split; [done|]). intros w2 Hrun.
  apply run_download_thread_spec in Hrun as (_ & _ & _ & _ & ms & _ & Hq).
  unfold Tk.check_queue, mbind, W_bind, Tk.gets.
  apply (drain_idle v (inbox w1 ++ (Of <$> ms))); [by rewrite Hq, app_assoc|].
  rewrite Hq, !length_app. simpl. lia.
Qed.

(** X10.  When the worker thread ends with an exception (the download
    directory could not be prepared, or the release of the session in the
    [finally] block raised) and nobody pressed Pause or Stop, no
    [download_complete] ever arrives: after [check_queue] the GUI is still
    busy, with Start disabled. *)
Theorem failed_teardown_leaves_gui_busy v sched (w : Window) e w2 :
  (∀ i, sched i = None) →
  Of MsgDownloadComplete ∉ inbox w →
  Tk.busy w →
  Tk.run_download_thread v sched w = (Raises e, w2) →
  ∃ w3, Tk.check_queue v w2 = (Returns (), w3) ∧ Tk.busy w3 ∧ inbox w3 = [].
Proof.
  intros Hnever Hno (Hf & Hb1 & Hb2 & Hb3) Hrun.
  apply run_download_thread_spec in Hrun as (Hw & Hb1' & Hb2' & Hb3' & ms & Hms & Hq).
  apply (download_worker_flag _ _ _ _ _ _ Hnever) in Hw.
  destruct (check_queue_busy v w2) as (w3 & Hc & Hq3 & Hf3 & H1 & H2 & H3).
  { rewrite Hq, app_nil_r. intros [?|Hin]%elem_of_app; [done|].
    apply list_elem_of_fmap in Hin as (m & [= <-] & ?). done. }
  exists w3. split; [done|]. split; [|done].
  unfold Tk.busy. by rewrite Hf3, H1, H2, H3, Hw, Hb1', Hb2', Hb3'.
Qed.

End Batch.

(** ** [clean_crdownload_files] *)

Section Clean.
Context {World Driver : Type} `{!Env World Driver} `{!Desktop World Driver}.
Local Abbreviation Window := (Window World Driver).
Local Abbreviation W := (W World Driver).

(** The loop asks [os.remove] for the temporary files of the listing, in
    order, and stops at the first that cannot be removed; it changes the
    world and nothing else. *)
Lemma remove_listed_spec dir files : ∀ removed (w : Window) r w',
  Tk.remove_listed dir files removed w = (r, w') →
  w' = set_removals (removals w') (set_self (set_world (world (self w')) (self w)) w) ∧
  ∃ new, removals w' = removals w ++ new ∧
    match r with
    | Returns removed' =>
        removed' = removed ++ temporary_files files ∧
        new = (λ f, (f, None)) <$> temporary_files files
    | Raises e =>
        ∃ pre f post, temporary_files files = pre ++ f :: post ∧
          new = ((λ f, (f, None)) <$> pre) ++ [(f, Some e)]
    end.
Proof.
  induction files as [|file files IH]; intros removed w r w' Hrun.
  - injection Hrun as <- <-. split; [by destruct w as [[]]|].
    exists []. by rewrite !app_nil_r.
  - cbn [Tk.remove_listed] in Hrun. unfold temporary_files. rewrite filter_cons.
    destruct (endswith_any file _) eqn:Htmp.
    + rewrite decide_True by done.
      unfold mbind, W_bind, Tk.call_os_remove in Hrun.
      destruct (os_remove dir file (world (self w))) as [[e|] wd] eqn:Hrm.
      * injection Hrun as <- <-. split; [by destruct w as [[]]|].
        exists [(file, Some e)]. split; [by destruct w|]. by exists [], file, (temporary_files files).
      * apply IH in Hrun as (Hframe & new & Hnew & Hr).
        split; [rewrite Hframe at 1; by destruct w as [[]]|].
        exists ((file, None) :: new).
        split; [rewrite Hnew; destruct w; wpw_norm; by rewrite <- app_assoc|].
        destruct r as [removed'|e].
        -- destruct Hr as [-> ->]. by rewrite <- app_assoc.
        -- destruct Hr as (pre & f & post & Hpre & ->).
           exists (file :: pre), f, post. fold (temporary_files files). by rewrite Hpre.
    + rewrite decide_False by done. by apply IH in Hrun.
Qed.

(** X6.  With an output directory that exists and can be listed,
    [clean_crdownload_files] raises nothing and asks [os.remove] only for
    the names of the listing that end in [.crdownload], [.part] or [.tmp],
    in the order of the listing.  Either all of them are removed and an
    info box reports them (at most five by name), or the first failure
    ends the loop: the files before it are gone, those after it are not
    tried, and an error is logged and shown. *)
Theorem clean_removes_temporary_files_until_failure (w : Window) files :
  output_var w ≠ "" →
  path_exists (output_var w) (world (self w)) = true →
  listdir (output_var w) (world (self w)) = inr files →
  ∃ w' new,
    Tk.clean_crdownload_files w = (Returns (), w') ∧
    removals w' = removals w ++ new ∧
    ((new = (λ f, (f, None)) <$> temporary_files files ∧
      boxes w' = boxes w ++
        [if bool_decide (temporary_files files = [])
         then showinfo "Clean" "No temporary files found."
         else showinfo "Success"
                ("Removed " +:+ pretty (length (temporary_files files))
                   +:+ " temporary files:" +:+ nl
                   +:+ String.concat nl (take 5 (temporary_files files)))])
     ∨ (∃ pre f post e,
          temporary_files files = pre ++ f :: post ∧
          new = ((λ f, (f, None)) <$> pre) ++ [(f, Some e)] ∧
          boxes w' = boxes w ++ [showerror "Error" ("Failed to clean files: " +:+ e)] ∧
          log_text (self w')
            = log_text (self w) ++ [("Error cleaning files: " +:+ e, Error)])).
Proof.
  intros Hout Hthere Hlist.
  unfold Tk.clean_crdownload_files, mbind at 1 2, W_bind at 1 2, Tk.gets.
  apply String.eqb_neq in Hout. rewrite Hout, Hthere. cbn [negb orb].
  unfold Tk.try_except, mbind at 1, W_bind at 1, Tk.answer. rewrite Hlist.
  unfold mbind at 1, W_bind at 1.
  destruct (Tk.remove_listed (output_var w) files [] w) as [[removed|e] w1] eqn:Hrun;
    apply remove_listed_spec in Hrun as (Hframe & new & Hnew & Hr).
  all: destruct w as [[wd items flag drv q lg ctr cs] ib tf ue ov tv sl pb qt st b1 b2 b3 bx th rm].
  all: destruct w1 as [[wd1 items1 flag1 drv1 q1 lg1 ctr1 cs1]
                         ib1 tf1 ue1 ov1 tv1 sl1 pb1 qt1 st1 b11 b21 b31 bx1 th1 rm1].
  all: wpw_norm_hyps; subst; injection Hframe; intros; simplify_eq.
  - destruct Hr as [-> ->]. rewrite app_nil_l.
    exists (((if bool_decide (temporary_files files ≠ [])
              then Tk.log ("Cleaned " +:+ pretty (length (temporary_files files))
                             +:+ " temporary files") Success;;
                   Tk.show (showinfo "Success"
                     ("Removed " +:+ pretty (length (temporary_files files))
                        +:+ " temporary files:" +:+ nl
                        +:+ String.concat nl (take 5 (temporary_files files))))
              else Tk.show (showinfo "Clean" "No temporary files found."))
              : W unit)
             (mkWindow (mkGUI wd1 items flag drv q lg ctr cs) ib tf ue ov tv sl pb qt st
                b1 b2 b3 bx th (rm ++ ((λ f, (f, None)) <$> temporary_files files)))).2,
           ((λ f, (f, None)) <$> temporary_files files).
    destruct (decide (temporary_files files = [])) as [Hnil|Hne].
    + rewrite (bool_decide_eq_false_2 (_ ≠ _)) by (by intros []).
      rewrite (bool_decide_eq_true_2 (_ = _)) by done.
      split; [reflexivity|]. split; [reflexivity|]. left. split; reflexivity.
    + rewrite (bool_decide_eq_true_2 (_ ≠ _)) by done.
      rewrite (bool_decide_eq_false_2 (_ = _)) by done.
      split; [reflexivity|]. split; [reflexivity|]. left. split; reflexivity.
  - destruct Hr as (pre & f & post & Hpre & ->).
    eexists _, (((λ f, (f, None)) <$> pre) ++ [(f, Some e)]).
    split; [reflexivity|]. split; [reflexivity|].
    right. by exists pre, f, post, e.
Qed.

(** X7.  Without an output directory, with one that does not exist, or
    with one that cannot be listed, [clean_crdownload_files] raises nothing
    and removes nothing: it shows one box and leaves the world as it is. *)
Theorem clean_without_listing_removes_nothing (w : Window) :
  output_var w = "" ∨ path_exists (output_var w) (world (self w)) = false
  ∨ (∃ e, listdir (output_var w) (world (self w)) = inl e) →
  ∃ w' box, Tk.clean_crdownload_files w = (Returns (), w') ∧
    removals w' = removals w ∧ world (self w') = world (self w) ∧
    boxes w' = boxes w ++ [box].
Proof.
  intros Hcase.
  unfold Tk.clean_crdownload_files, mbind at 1 2, W_bind at 1 2, Tk.gets.
  destruct (String.eqb (output_var w) "" || negb (path_exists _ _)) eqn:Htest.
  - eexists _, _. split; [reflexivity|]. by destruct w.
  - apply orb_false_iff in Htest as [Hne Hex]. apply String.eqb_neq in Hne.
    apply negb_false_iff in Hex. destruct Hcase as [?|[?|[e He]]]; [done|congruence|].
    unfold Tk.try_except, mbind at 1, W_bind at 1, Tk.answer. rewrite He.
    eexists _, _. split; [reflexivity|]. by destruct w as [[]].
Qed.

End Clean.

(** ** [load_settings], [save_settings] *)

Section SettingsFile.
Context {World Driver : Type} `{!Env World Driver} `{!Desktop World Driver}.
Local Abbreviation Window := (Window World Driver).
Local Abbreviation W := (W World Driver).

Lemma wpw_eq {A} (m : W A) (w : Window) r0 w0 :
  Tk.wpw m w (λ r w', r = r0 ∧ w' = w0) → m w = (r0, w0).
Proof. unfold Tk.wpw. destruct (m w) as [r w']; simpl. by intros [-> ->]. Qed.

(** The three settings [load_settings] takes from a dict, each with its
    default. *)
Lemma load_settings_spec (w : Window) settings s b n :
  path_exists Tk.settings_file (world (self w)) = true →
  settings_load (world (self w)) = inr (JDict settings) →
  default (JString "") (settings !! "output_dir") = JString s →
  default (JBool true) (settings !! "headless") = JBool b →
  default (JInt 10) (settings !! "session_refresh") = JInt n →
  Tk.load_settings w
  = (Returns (),
     set_tk_vars (mkSettings (clean_cr_var (tk_vars w)) b (checksum_var (tk_vars w)) n)
       (set_output_var s w)).
Proof.
  destruct w as [[wd items flag drv q lg ctr cs] ib tf ue ov tv sl pb qt st b1 b2 b3 bx th rm].
  wpw_norm. intros Hthere Hload Hs Hb Hn. apply wpw_eq.
  unfold Tk.load_settings. repeat (wpw_step; use_known).
  all: by simplify_eq.
Qed.


(** X12.  Round trip: when the file written by [save_settings] reads back
    as the dict that was dumped, a later [load_settings], in whatever
    window, restores the output directory, the headless switch and the
    refresh threshold that were saved, and keeps its own checksum and
    clean-up switches. *)
Theorem settings_round_trip v (w w0 : Window) wd :
  (∀ j wd0 wd1, settings_dump j wd0 = (None, wd1) →
     path_exists Tk.settings_file wd1 = true ∧ settings_load wd1 = inr (JDict j)) →
  settings_dump (Tk.saved_settings v w) (world (self w)) = (None, wd) →
  world (self w0) = wd →
  Tk.save_settings v w = (Returns (), set_self (set_world wd (self w)) w) ∧
  Tk.load_settings w0
  = (Returns (),
     set_tk_vars (mkSettings (clean_cr_var (tk_vars w0)) (headless_var (tk_vars w))
                    (checksum_var (tk_vars w0)) (session_refresh_var (tk_vars w)))
       (set_output_var (output_var w) w0)).
Proof.
  intros Hfs Hdump Hw0. split.
  - unfold Tk.save_settings, Tk.try_except, mbind, W_bind, Tk.gets, Tk.on_self.
    by rewrite Hdump.
  - destruct (Hfs _ _ _ Hdump) as [Hthere Hload]. subst wd.
    apply (load_settings_spec w0 (Tk.saved_settings v w)); [done|done|..];
      by destruct v.
Qed.

(** X13.  A settings file that is missing, cannot be read or parsed, or
    holds something else than a dict changes no setting and raises
    nothing. *)
Theorem load_settings_ignores_unusable_file (w : Window) :
  path_exists Tk.settings_file (world (self w)) = false
  ∨ (∃ e, settings_load (world (self w)) = inl e)
  ∨ settings_load (world (self w)) = inr JNotDict →
  Tk.load_settings w = (Returns (), w).
Proof.
  destruct w as [[wd items flag drv q lg ctr cs] ib tf ue ov tv sl pb qt st b1 b2 b3 bx th rm].
  wpw_norm. intros Hcase. apply wpw_eq.
  unfold Tk.load_settings. repeat (wpw_step; use_known); try done.
  all: destruct Hcase as [?|[[e' ?]|?]]; congruence.
Qed.

(** X14.  The settings are applied one after the other inside one [try]:
    when Tk rejects the value of [headless], the output directory has been
    taken from the file already, and the headless switch and the refresh
    threshold stay as they were. *)
Theorem load_settings_stops_at_rejected_value (w : Window) settings s j e :
  path_exists Tk.settings_file (world (self w)) = true →
  settings_load (world (self w)) = inr (JDict settings) →
  default (JString "") (settings !! "output_dir") = JString s →
  settings !! "headless" = Some j →
  (∀ b, j ≠ JBool b) →
  tk_boolean j = inl e →
  Tk.load_settings w = (Returns (), set_output_var s w).
Proof.
  destruct w as [[wd items flag drv q lg ctr cs] ib tf ue ov tv sl pb qt st b1 b2 b3 bx th rm].
  wpw_norm. intros Hthere Hload Hs Hj Hnb He. apply wpw_eq.
  unfold Tk.load_settings. repeat (wpw_step; use_known).
  all: try match goal with
           | Hk : ?m !! "headless" = Some _,
             H : default _ (?m !! "headless") = _ |- _ =>
               rewrite Hk in H; cbn in H; subst
           end.
  all: try (by destruct (Hnb _ eq_refl)).
  all: simplify_eq; try done; congruence.
Qed.

End SettingsFile.

(** ** [load_urls] *)

(** Read [text_file_urls] along the test just made. *)
Ltac read_text_file :=
  repeat match goal with
  | Hb : negb (?tf =? "")%string && path_exists ?tf ?w = _,
    H : context [negb (?tf =? "")%string && path_exists ?tf ?w] |- _ =>
      rewrite Hb in H
  | H : inr _ = inr _ |- _ => injection H as H; try subst
  | H : inl _ = inr _ |- _ => discriminate H
  | H : inr _ = inl _ |- _ => discriminate H
  end.

Section LoadUrls.
Context {World Driver : Type} `{!Env World Driver} `{!Desktop World Driver}.
Local Abbreviation Window := (Window World Driver).
Local Abbreviation W := (W World Driver).

(** X15.  [repack.py]: once [scrape_links] has returned, the scraped urls
    are loaded behind those of the text file, duplicates dropped, whether
    the [driver.quit()] that follows raises or not; the scraping session is
    acquired and released once. *)
Theorem repack_loads_text_then_scraped_urls (w : Window) urls wm d wd scraped wd' res wd'' :
  Tk.text_file_urls w = inr urls →
  strip (url_entry w) ≠ "" →
  mkdir (world (self w)) = (None, wm) →
  setup_driver wm = (inr d, wd) →
  scrape_links d (strip (url_entry w)) wd = (inr scraped, wd') →
  driver_quit d wd' = (res, wd'') →
  urls ++ scraped ≠ [] →
  ∃ w', Tk.load_urls repack_py w = (Returns (), w') ∧
    download_items (self w') = new_DownloadItem <$> dict_fromkeys (urls ++ scraped) ∧
    queue_tree w' = rows repack_py (download_items (self w')) ∧
    new_calls (self w) (self w') = [CallSetup (inr d); CallQuit d res].
Proof.
  destruct w as [[w0 items flag drv q lg ctr cs] ib tf ue ov tv sl pb qt st b1 b2 b3 bx th rm].
  unfold Tk.text_file_urls. wpw_norm.
  intros Hread Hmain Hmk Hsetup Hscrape Hquit Hsome.
  apply wpw_exists. unfold Tk.load_urls.
  repeat (wpw_step; use_known; read_tests; read_text_file).
  all: try done.
  all: split; [reflexivity|]; simpl_new; by repeat split.
Qed.

(** X16.  [repack.py]: when [scrape_links] raises, the urls of the text
    file are loaded all the same and the error is logged; the session
    acquired for the scraping is not released. *)
Theorem repack_failed_scrape_keeps_text_file_urls (w : Window) urls wm d wd e wd' :
  Tk.text_file_urls w = inr urls →
  urls ≠ [] →
  strip (url_entry w) ≠ "" →
  mkdir (world (self w)) = (None, wm) →
  setup_driver wm = (inr d, wd) →
  scrape_links d (strip (url_entry w)) wd = (inl e, wd') →
  ∃ w', Tk.load_urls repack_py w = (Returns (), w') ∧
    download_items (self w') = new_DownloadItem <$> dict_fromkeys urls ∧
    new_calls (self w) (self w') = [CallSetup (inr d)] ∧
    ("Error scraping: " +:+ e, Error) ∈ new_log (self w) (self w').
Proof.
  destruct w as [[w0 items flag drv q lg ctr cs] ib tf ue ov tv sl pb qt st b1 b2 b3 bx th rm].
  unfold Tk.text_file_urls. wpw_norm.
  intros Hread Hsome Hmain Hmk Hsetup Hscrape.
  apply wpw_exists. unfold Tk.load_urls.
  repeat (wpw_step; use_known; read_tests; read_text_file).
  all: try done.
  all: split; [reflexivity|]; simpl_new; repeat split; set_solver.
Qed.

(** X17.  Nothing to load.  [repack.py] with neither urls in the text file
    nor a main url shows a warning and keeps the queue as it is;
    [richer_gui.py] handling a scraping result without urls empties the
    queue and its view. *)
Theorem empty_input_keeps_or_clears_the_queue (w : Window) :
  (Tk.text_file_urls w = inr [] → strip (url_entry w) = "" →
   ∃ w', Tk.load_urls repack_py w = (Returns (), w') ∧
     download_items (self w') = download_items (self w) ∧
     queue_tree w' = queue_tree w ∧
     boxes w' = boxes w ++
       [showwarning "No URLs"
          "No URLs found. Please provide a text file or main page URL."]) ∧
  (∃ w', Tk.dispatch richer_gui_py (MsgScrapeResult []) w = (Returns (), w') ∧
     download_items (self w') = [] ∧ queue_tree w' = [] ∧
     total (statistics (download_items (self w'))) = 0).
Proof.
  destruct w as [[w0 items flag drv q lg ctr cs] ib tf ue ov tv sl pb qt st b1 b2 b3 bx th rm].
  unfold Tk.text_file_urls. wpw_norm. split.
  - intros Hread Hmain. apply wpw_exists. unfold Tk.load_urls.
    repeat (wpw_step; use_known; read_tests; read_text_file).
    all: try done.
  - apply wpw_exists. wpw_run. done.
Qed.

(** X18.  [richer_gui.py]: with a main url, [load_urls] only starts the
    scraping thread; when that thread succeeds and [check_queue] handles
    its result, the queue holds the scraped urls, duplicates dropped, and
    nothing else: the urls read from the text file are not loaded. *)
Theorem richer_main_url_discards_text_file_urls (w : Window) urls wm d wd scraped wd' wd'' :
  inbox w = [] →
  Tk.text_file_urls w = inr urls →
  strip (url_entry w) ≠ "" →
  mkdir (world (self w)) = (None, wm) →
  setup_driver wm = (inr d, wd) →
  scrape_links d (strip (url_entry w)) wd = (inr scraped, wd') →
  driver_quit d wd' = (None, wd'') →
  ∃ w1 w3,
    Tk.load_urls richer_gui_py w = (Returns (), w1) ∧
    download_items (self w1) = download_items (self w) ∧
    threads w1 = threads w ++ [scrape_thread (strip (url_entry w))] ∧
    (Tk.scrape_worker (strip (url_entry w));; Tk.check_queue richer_gui_py) w1
      = (Returns (), w3) ∧
    download_items (self w3) = new_DownloadItem <$> dict_fromkeys scraped ∧
    queue_tree w3 = rows richer_gui_py (download_items (self w3)) ∧
    inbox w3 = [].
Proof.
  destruct w as [[w0 items flag drv q lg ctr cs] ib tf ue ov tv sl pb qt st b1 b2 b3 bx th rm].
  unfold Tk.text_file_urls. wpw_norm.
  intros -> Hread Hmain Hmk Hsetup Hscrape Hquit.
  assert (∃ w1, Tk.load_urls richer_gui_py
            (mkWindow (mkGUI w0 items flag drv q lg ctr cs) [] tf ue ov tv sl pb qt st
               b1 b2 b3 bx th rm) = (Returns (), w1) ∧
            world (self w1) = w0 ∧ inbox w1 = [] ∧
            download_items (self w1) = items ∧
            threads w1 = th ++ [scrape_thread (strip ue)]) as (w1 & Hload & Hw & Hib & Hit & Hth).
  { apply wpw_exists. unfold Tk.load_urls.
    repeat (wpw_step; use_known; read_tests; read_text_file).
    all: try done. }
  exists w1. rewrite Hload.
  destruct w1 as [[w0' items' flag' drv' q' lg' ctr' cs'] ib' tf' ue' ov' tv' sl' pb' qt' st'
                    b1' b2' b3' bx' th' rm'].
  wpw_norm_hyps. subst.
  cut (∃ w3, (Tk.scrape_worker (strip ue);; Tk.check_queue richer_gui_py)
               (mkWindow (mkGUI w0 items flag' drv' q' lg' ctr' cs') [] tf' ue' ov' tv' sl'
                  pb' qt' st' b1' b2' b3' bx' (th ++ [scrape_thread (strip ue)]) rm')
             = (Returns (), w3) ∧
             download_items (self w3) = new_DownloadItem <$> dict_fromkeys scraped ∧
             queue_tree w3 = rows richer_gui_py (download_items (self w3)) ∧
             inbox w3 = []).
  { intros (w3 & ? & ? & ? & ?). exists w3. by repeat split. }
  apply wpw_exists.
  repeat (wpw_step; use_known).
  all: by repeat split.
Qed.

(** X19.  [richer_gui.py]: when the scraping thread fails, at the making
    of the directory, at the acquisition of the session, at the scraping,
    or at [driver.quit()] after the links were scraped, no result is
    queued: after [check_queue] the queue of tasks is as before and the
    status bar says that the scraping failed. *)
Theorem richer_failed_scrape_keeps_the_queue (w : Window) main_url :
  inbox w = [] →
  ((∃ e wm, mkdir (world (self w)) = (Some e, wm))
   ∨ (∃ wm e wd, mkdir (world (self w)) = (None, wm) ∧
        setup_driver wm = (inl e, wd))
   ∨ (∃ wm d wd e wd', mkdir (world (self w)) = (None, wm) ∧
        setup_driver wm = (inr d, wd) ∧
        scrape_links d main_url wd = (inl e, wd'))
   ∨ (∃ wm d wd scraped wd' e wd'',
        mkdir (world (self w)) = (None, wm) ∧
        setup_driver wm = (inr d, wd) ∧
        scrape_links d main_url wd = (inr scraped, wd') ∧
        driver_quit d wd' = (Some e, wd''))) →
  ∃ w3,
    (Tk.scrape_worker main_url;; Tk.check_queue richer_gui_py) w = (Returns (), w3) ∧
    download_items (self w3) = download_items (self w) ∧
    queue_tree w3 = queue_tree w ∧
    status_label w3 = "Scraping failed" ∧
    inbox w3 = [].
Proof.
  destruct w as [[w0 items flag drv q lg ctr cs] ib tf ue ov tv sl pb qt st b1 b2 b3 bx th rm].
  wpw_norm. intros -> Hcase. apply wpw_exists.
  destruct Hcase as [(e & wm & Hmk)
                    |[(wm & e & wd & Hmk & Hsetup)
                     |[(wm & d & wd & e & wd' & Hmk & Hsetup & Hscrape)
                      |(wm & d & wd & scraped & wd' & e & wd'' & Hmk & Hsetup & Hscrape
                        & Hquit)]]].
  all: repeat (wpw_step; use_known).
  all: by repeat split.
Qed.

End LoadUrls.

(** ** The queue view, Stop and closing the window *)

Section View.
Context {World Driver : Type} `{!Env World Driver}.
Local Abbreviation G := (DownloaderGUI World Driver).




(** X21.  The view of a freshly loaded batch after a run of the worker,
    whatever happened in the run: one row for each task, in the order of
    the queue and numbered from 1, under the name the task was loaded
    with, tagged with the status the task has now; the progress column
    shows no value. *)
Theorem queue_view_after_run v cfg sched (g : G) urls i u :
  download_items g = new_DownloadItem <$> urls →
  urls !! i = Some u →
  ∃ it', download_items (download_worker v cfg sched g).2 !! i = Some it' ∧
    length (rows v (download_items (download_worker v cfg sched g).2)) = length urls ∧
    rows v (download_items (download_worker v cfg sched g).2) !! i
    = Some (mkRow (pretty (S i))
              (filename (new_DownloadItem u),
               status_icon v (status it') +:+ " " +:+
                 (if v is repack_py then status_value (status it')
                  else status_upper (status it')),
               "-", size_str v it')
              (status_value (status it'))).
Proof.
  intros Hitems Hu.
  pose proof (download_worker_identity cfg v sched g) as Hid.
  set (gf := (download_worker v cfg sched g).2) in *.
  assert (length (download_items gf) = length urls) as Hlen.
  { rewrite <- (length_fmap identity), Hid, Hitems, !length_fmap. done. }
  assert (identity <$> download_items gf !! i = Some (identity (new_DownloadItem u))) as Hi.
  { rewrite <- list_lookup_fmap, Hid, Hitems, !list_lookup_fmap, Hu. done. }
  destruct (download_items gf !! i) as [it'|] eqn:Hit; [|done].
  cbn [fmap option_fmap option_map] in Hi. unfold identity in Hi.
  injection Hi as Hurl Hname Hprog.
  exists it'. split; [done|]. split.
  - unfold rows. by rewrite length_imap.
  - unfold rows. rewrite list_lookup_imap, Hit. cbn [fmap option_fmap option_map].
    unfold row, progress_str. by rewrite Hname, Hprog.
Qed.

End View.

Section Stop.
Context {World Driver : Type} `{!Env World Driver} `{!Desktop World Driver}.
Local Abbreviation Window := (Window World Driver).
Local Abbreviation W := (W World Driver).

(** Stop on the GUI thread acts on [self] as the Stop the worker sees. *)
Lemma stop_downloads_self v (w : Window) :
  ∃ w', Tk.stop_downloads v w = (Returns (), w') ∧
    self w' = (stop_downloads v (self w)).2 ∧
    start_btn w' = NORMAL ∧ pause_btn w' = DISABLED ∧ stop_btn w' = DISABLED ∧
    boxes w' = boxes w ∧ inbox w' = inbox w ∧ threads w' = threads w.
Proof.
  destruct w as [[w0 items flag drv q lg ctr cs] ib tf ue ov tv sl pb qt st b1 b2 b3 bx th rm].
  apply wpw_exists. destruct v; repeat (wpw_step; use_known).
  all: split; [reflexivity|]; wpw_norm.
  all: unfold stop_downloads, Repack.stop_downloads, RicherGui.stop_downloads, log,
         mbind, M_bind, modify, gets, try_except, call_driver_quit; wp_norm.
  all: try match goal with Hq : driver_quit _ _ = _ |- _ => rewrite Hq end; wp_norm.
  all: done.
Qed.

(** X22.  Stop raises nothing, whatever [driver.quit()] does: the flag is
    clear, Start is enabled and Pause and Stop are disabled; [quit] is
    asked once of the session in use, and [self.driver] keeps the handle.
    The tasks are not touched. *)
Theorem stop_downloads_never_raises v (w : Window) :
  ∃ w', Tk.stop_downloads v w = (Returns (), w') ∧
    is_downloading (self w') = false ∧
    start_btn w' = NORMAL ∧ pause_btn w' = DISABLED ∧ stop_btn w' = DISABLED ∧
    driver (self w') = driver (self w) ∧
    download_items (self w') = download_items (self w) ∧
    new_calls (self w) (self w')
    = match driver (self w) with
      | Some d => [CallQuit d (driver_quit d (world (self w))).1]
      | None => []
      end.
Proof.
  destruct (stop_downloads_self v w) as (w' & Hstop & Hself & Hb1 & Hb2 & Hb3 & _).
  exists w'. split; [done|]. rewrite Hself.
  destruct (user_spec v (Some Stop) (self w)) as (g1 & Hu & Hi & _ & _ & Hd & Hf & Hc).
  assert ((stop_downloads v (self w)).2 = g1) as ->.
  { destruct v; unfold user, stop_downloads in *; cbn [Repack.user RicherGui.user] in Hu;
      by rewrite Hu. }
  repeat (split; [done|]). by apply new_calls_app.
Qed.

(** X23.  Closing the window raises nothing, whatever the settings file
    and [driver.quit()] do.  The settings are saved first in every case;
    the window is destroyed unless a batch is running and the user
    declines, and a batch that is running is stopped before that. *)
Theorem on_closing_saves_then_stops v ok (w : Window) :
  ∃ w1 w',
    Tk.save_settings v w = (Returns (), w1) ∧
    Tk.on_closing v ok w
      = (Returns (negb (is_downloading (self w)) || ok), w') ∧
    (if is_downloading (self w) && ok
     then Tk.stop_downloads v w1 = (Returns (), w')
     else w' = w1).
Proof.
  destruct (Tk.save_settings v w) as [r1 w1] eqn:Hsave.
  assert (r1 = Returns () ∧ is_downloading (self w1) = is_downloading (self w)) as [-> Hflag].
  { revert Hsave. unfold Tk.save_settings, Tk.try_except, mbind, W_bind, Tk.gets, Tk.on_self.
    destruct (settings_dump _ _) as [[e|] wd]; intros [= <- <-]; by destruct w as [[]]. }
  destruct (stop_downloads_self v w1) as (w2 & Hstop & _).
  unfold Tk.on_closing, mbind, W_bind. rewrite Hsave. unfold Tk.gets. rewrite Hflag.
  destruct (is_downloading (self w)), ok; cbn [negb orb andb].
  - rewrite Hstop. by exists w1, w2.
  - by exists w1, w1.
  - by exists w1, w1.
  - by exists w1, w1.
Qed.

End Stop.

(** ** No session is given up early *)

Section Recycling.
Context {World Driver : Type} `{!Env World Driver}.
Variable cfg : Settings.
Local Abbreviation G := (DownloaderGUI World Driver).

(** A turn acquires a session only with the counter at the threshold. *)
Lemma turn_recycles_in_time v idx (g : G) r g' k res :
  loop_body v cfg idx g = (r, g') →
  new_calls g g' !! k = Some (CallSetup res) →
  (session_refresh_var cfg
   ≤ fold_left count_call (take k (new_calls g g')) (downloads_since_refresh g))%Z.
Proof.
  revert r g'. destruct g as [w items flag drv q lg ctr cs].
  set (g := mkGUI w items flag drv q lg ctr cs).
  apply (wp_elim _ g (λ r g',
    new_calls g g' !! k = Some (CallSetup res) →
    (session_refresh_var cfg
     ≤ fold_left count_call (take k (new_calls g g')) (downloads_since_refresh g))%Z)).
  subst g.
  destruct v; unfold loop_body; wp_run.
  all: simpl_new; read_threshold.
  all: destruct k as [|[|[|k]]]; cbn [lookup list_lookup take fold_left count_call];
         intros Hk; try discriminate Hk; try lia.
Qed.

Lemma recycled_in_time_app base (g g' : G) new :
  recycled_in_time cfg base g →
  calls g' = calls g ++ new →
  downloads_since_refresh g'
    = fold_left count_call new (downloads_since_refresh g) →
  (∀ k res, new !! k = Some (CallSetup res) →
     (session_refresh_var cfg
      ≤ fold_left count_call (take k new) (downloads_since_refresh g))%Z) →
  recycled_in_time cfg base g'.
Proof.
  intros (cs & Hc & Hd & Hk) Hc' Hd' Hnew. exists (cs ++ new).
  split; [by rewrite Hc', Hc, app_assoc|].
  unfold completed_since_acquire in *.
  split; [by rewrite fold_left_app, <- Hd|].
  intros k res Hpos Hlook. rewrite take_app, fold_left_app.
  destruct (decide (k < length cs)) as [Hlt|Hge].
  - rewrite lookup_app_l in Hlook by done.
    replace (k - length cs) with 0 by lia. by apply (Hk k res).
  - rewrite lookup_app_r in Hlook by lia.
    rewrite (take_ge cs) by lia. rewrite <- Hd. by apply (Hnew _ res).
Qed.

Lemma for_loop_recycled_in_time base v sched n idx (g : G) r g' :
  served_within cfg base g → recycled_in_time cfg base g →
  for_loop v cfg sched n idx g = (r, g') →
  recycled_in_time cfg base g'.
Proof.
  intros Hs Hg Hloop.
  apply (for_loop_invariant cfg v sched
           (λ g, served_within cfg base g ∧ recycled_in_time cfg base g))
    in Hloop as [_ ?]; [done| | |done].
  - intros a g1 r1 g2 [HS HP] Hu. split; [by eapply user_served_within|].
    destruct (user_spec v a g1) as (g2' & Hu' & _ & _ & Hd & _ & _ & Hc).
    rewrite Hu' in Hu. injection Hu as _ <-.
    eapply recycled_in_time_app; [done|exact Hc| |].
    + rewrite Hd. by destruct a as [[]|], (driver g1).
    + intros [|[|k]] res; destruct a as [[]|], (driver g1); cbn; intros; simplify_eq.
  - intros i g1 r1 g2 [HS HP] Hb. split; [by eapply turn_served_within|].
    pose proof (served_within_counter _ _ _ HS) as Hctr.
    destruct (turn_session_bound cfg _ _ _ _ _ Hb Hctr) as (Hd & _).
    pose proof (turn_frame_holds cfg _ _ _ _ _ Hb) as (_ & _ & _ & _ & (cs2 & Hc2 & _) & _).
    eapply recycled_in_time_app; [done|exact Hc2| |].
    + by rewrite <- (new_calls_app _ _ _ Hc2).
    + intros k res Hk. rewrite <- (new_calls_app _ _ _ Hc2) in *.
      by eapply turn_recycles_in_time.
Qed.

(** X24.  No session is given up early: wherever the run acquires a session
    after its first one, the session before has served as many downloads
    that returned [True] as the threshold asks. *)
Theorem session_is_recycled_only_at_threshold v sched (g : G) k res :
  0 < k →
  new_calls g (download_worker v cfg sched g).2 !! k = Some (CallSetup res) →
  (session_refresh_var cfg
   ≤ completed_since_acquire (take k (new_calls g (download_worker v cfg sched g).2)))%Z.
Proof.
  destruct (download_worker v cfg sched g) as [r gf] eqn:Hrun. cbn [snd].
  apply download_worker_cases in Hrun
    as [(e & ms & _ & _ & _ & Hc & _)|(g0 & rb & gb & ms & fin & fm & _ & _ & Hblock & _ & _ & Hc0 & Hcf & Hfin & _)].
  { rewrite (new_calls_same g gf Hc). intros _ Hl. by rewrite lookup_nil in Hl. }
  assert (∃ cs, calls gb = calls g ++ cs ∧
            ∀ k res, 0 < k → cs !! k = Some (CallSetup res) →
              (session_refresh_var cfg ≤ completed_since_acquire (take k cs))%Z)
    as (cs & Hcb & Hk).
  { apply try_block_spec in Hblock
      as [(e & w & _ & _ & _ & _ & _ & Hc)|(d & w & g1 & _ & Hloop & _ & _ & _ & _ & Hd1 & Hc1)].
    - exists [CallSetup (inl e)]. rewrite Hc, Hc0. split; [done|].
      intros [|[|k']] res' Hpos Hl; cbn in Hl; [lia|done|done].
    - assert (served_within cfg (calls g) g1) as Hs1.
      { exists [CallSetup (inr d)]. rewrite Hc1, Hc0, Hd1. do 2 (split; [done|]).
        intros [|[|k']]; cbn; unfold session_bound; lia. }
      assert (recycled_in_time cfg (calls g) g1) as Hg1.
      { exists [CallSetup (inr d)]. rewrite Hc1, Hc0, Hd1. do 2 (split; [done|]).
        intros [|[|k']] res' Hpos Hl; cbn in Hl; [lia|done|done]. }
      destruct (for_loop_recycled_in_time _ _ _ _ _ _ _ _ Hs1 Hg1 Hloop) as (cs & ? & _ & ?).
      by exists cs. }
  rewrite (new_calls_app g gf (cs ++ fin)) by (by rewrite Hcf, Hcb, app_assoc).
  intros Hpos Hlook.
  unfold completed_since_acquire in *. rewrite take_app, fold_left_app.
  destruct (decide (k < length cs)) as [Hlt|Hge].
  - rewrite lookup_app_l in Hlook by done.
    replace (k - length cs) with 0 by lia. by apply (Hk k res).
  - rewrite lookup_app_r in Hlook by lia.
    destruct Hfin as [->|(d & res' & ->)];
      destruct (k - length cs) as [|[|m]]; cbn in Hlook; done.
Qed.

End Recycling.

Import Sim.

(** The two end-to-end scenarios of the specification.  [a] and [c] exist,
    [b] does not, threshold 2: one click, for [b], and no recycling. *)
Example scenario_skip_download_skip v :
  statuses (run v never [("a.zip", 5%N); ("c.zip", 7%N)] ["a"; "b"; "c"])
    = [SKIPPED; COMPLETED; SKIPPED] ∧
  calls (run v never [("a.zip", 5%N); ("c.zip", 7%N)] ["a"; "b"; "c"])
    = [CallSetup (inr 0); CallClick 0 "b" (inr true); CallQuit 0 None].
Proof. by destruct v; vm_compute. Qed.

(** The download of the first task fails, the second succeeds; one release,
    at the end. *)
Example scenario_failed_then_completed v :
  statuses (run v never [] ["bad"; "ok"]) = [FAILED; COMPLETED] ∧
  calls (run v never [] ["bad"; "ok"])
    = [CallSetup (inr 0); CallClick 0 "bad" (inr false);
       CallClick 0 "ok" (inr true); CallQuit 0 None] ∧
  last (gui_queue (run v never [] ["bad"; "ok"])) = Some MsgDownloadComplete.
Proof. by destruct v; vm_compute. Qed.

(** C1, counterexample.  The click for the first task raises; the task is
    left [Downloading], not [Failed], with no failure detail, and the second
    task is never looked at: the loop has ended.  Both files do the same. *)
Lemma C1_counterexample :
  calls (run repack_py never [] ["boom"; "b"])
    = [CallSetup (inr 0); CallClick 0 "boom" (inl "TimeoutException"); CallQuit 0 None] ∧
  statuses (run repack_py never [] ["boom"; "b"]) = [DOWNLOADING; PENDING] ∧
  error <$> download_items (run repack_py never [] ["boom"; "b"]) = [None; None] ∧
  statuses (run richer_gui_py never [] ["boom"; "b"]) = [DOWNLOADING; PENDING].
Proof. by vm_compute. Qed.

(** C1, witness: the same run. *)
Lemma C1_witness :
  ∃ i it t,
    download_items (start [] ["boom"; "b"]) !! i = Some it ∧ url it = "boom" ∧
    download_items (run repack_py never [] ["boom"; "b"]) !! i
      = Some (with_start_time (Some t) (with_status DOWNLOADING it)) ∧
    (∀ j, i < j →
       download_items (run repack_py never [] ["boom"; "b"]) !! j
       = download_items (start [] ["boom"; "b"]) !! j) ∧
    MsgLog (error_prefix repack_py +:+ "TimeoutException") Error
      ∈ new_msgs (start [] ["boom"; "b"]) (run repack_py never [] ["boom"; "b"]).
Proof.
  apply (C1_click_exception_ends_the_walk cfg repack_py never
           (start [] ["boom"; "b"]) (Returns ()) _ 0 "boom" "TimeoutException").
  - by vm_compute.
  - vm_compute. apply list_elem_of_further, list_elem_of_here.
Defined.

(** C2, witness: [a] finds the file [a.zip] and is skipped. *)
Lemma C2_witness :
  ∃ it', download_items
           (for_loop repack_py cfg never 2 0 (acquired [("a.zip", 5%N)] ["a"; "b"])).2
           !! 0 = Some it' ∧
    status it' = SKIPPED ∧ size it' = megabytes 5.
Proof.
  refine (proj1 (proj2 (C2_existing_artifact_is_skipped cfg repack_py never 1 0
    (acquired [("a.zip", 5%N)] ["a"; "b"]) (new_DownloadItem "a") "a.zip" 5%N
    (for_loop repack_py cfg never 2 0 (acquired [("a.zip", 5%N)] ["a"; "b"])).1
    (for_loop repack_py cfg never 2 0 (acquired [("a.zip", 5%N)] ["a"; "b"])).2
    _ _ _ _ _ _ _ _))); by vm_compute.
Defined.

(** C3, witness: with threshold 2, after [a] and [b] the turn of [c]
    releases session 0 and acquires session 1 before its click. *)
Lemma C3_witness :
  ∃ res,
    new_calls (for_loop repack_py cfg never 2 0 (acquired [] ["a"; "b"; "c"])).2
              (loop_body repack_py cfg 2
                 (for_loop repack_py cfg never 2 0 (acquired [] ["a"; "b"; "c"])).2).2
      = [CallQuit 0 None; CallSetup (inr 1); CallClick 1 "c" res] ∧
    downloads_since_refresh
      (loop_body repack_py cfg 2
         (for_loop repack_py cfg never 2 0 (acquired [] ["a"; "b"; "c"])).2).2
      = (if res is inr true then 1 else 0)%Z ∧
    counter_ok
      (loop_body repack_py cfg 2
         (for_loop repack_py cfg never 2 0 (acquired [] ["a"; "b"; "c"])).2).2.
Proof.
  refine (proj2 (proj2 (C3_recycle_at_threshold cfg repack_py)) 2
    (for_loop repack_py cfg never 2 0 (acquired [] ["a"; "b"; "c"])).2
    (new_DownloadItem "c") 0
    (mkWorld [("a", 2097152%N); ("b", 2097152%N)] 1 4) 1
    (mkWorld [("a", 2097152%N); ("b", 2097152%N)] 2 5)
    (loop_body repack_py cfg 2
       (for_loop repack_py cfg never 2 0 (acquired [] ["a"; "b"; "c"])).2).1
    _ _ _ _ _ _ _ _ _ _); by vm_compute.
Defined.


(** The download directory cannot be made, in both files: the worker
    leaves everything as it was. *)
Example scenario_directory_cannot_be_made v :
  download_worker v cfg never (start [(".", 0%N)] ["a"])
  = (Raises "FileExistsError", start [(".", 0%N)] ["a"]).
Proof. by destruct v; vm_compute. Qed.



(** C5.  [richer_gui.py] at a download that returns [False]: the task is
    [Failed] and the next one is processed, but no failure detail is
    recorded; [repack.py] records ["Download failed"]. *)
Lemma C5_richer_gui_records_no_failure_detail :
  statuses (run richer_gui_py never [] ["bad"; "ok"]) = [FAILED; COMPLETED] ∧
  error <$> download_items (run richer_gui_py never [] ["bad"; "ok"]) = [None; None] ∧
  statuses (run repack_py never [] ["bad"; "ok"]) = [FAILED; COMPLETED] ∧
  error <$> download_items (run repack_py never [] ["bad"; "ok"])
    = [Some "Download failed"; None].
Proof. by vm_compute. Qed.

(** C6, counterexample.  A skipped task is in a terminal state and has no
    end time stamp. *)
Lemma C6_counterexample :
  statuses (run repack_py never [("a.zip", 5%N)] ["a"]) = [SKIPPED] ∧
  end_time <$> download_items (run repack_py never [("a.zip", 5%N)] ["a"]) = [None] ∧
  statuses (run richer_gui_py never [("a.zip", 5%N)] ["a"]) = [SKIPPED] ∧
  end_time <$> download_items (run richer_gui_py never [("a.zip", 5%N)] ["a"]) = [None].
Proof. by vm_compute. Qed.

Lemma sim_fresh_batch_stamped files urls : terminal_stamped (start files urls).
Proof.
  intros i it Hit. unfold start in Hit. cbn [download_items] in Hit.
  apply list_lookup_fmap_Some in Hit as (u & -> & _). by intros [?|?].
Defined.

(** C6, witness: a run with a failed and a completed download. *)
Lemma C6_witness : terminal_stamped (run repack_py never [] ["bad"; "ok"]).
Proof.
  refine (proj1 (C6_end_time_of_attempted_tasks cfg repack_py _) never
    (start [] ["bad"; "ok"]) (Returns ()) _ (sim_fresh_batch_stamped _ _) _).
  - intros [=].
  - by vm_compute.
Defined.

(** C7.  [richer_gui.py] at a file with the suffix [.tmp]: its skip test
    lists [.crdownload] and [.part] only, so the task is [Skipped] and no
    click is made, although the clean-up of the same file removes [.tmp]
    files as temporary; [repack.py] downloads the file again. *)
Lemma C7_richer_gui_skips_on_tmp_file :
  endswith_any "c.tmp" Repack.partial_suffixes = true ∧
  endswith_any "c.tmp" RicherGui.partial_suffixes = false ∧
  statuses (run richer_gui_py never [("c.tmp", 7%N)] ["c"]) = [SKIPPED] ∧
  calls (run richer_gui_py never [("c.tmp", 7%N)] ["c"])
    = [CallSetup (inr 0); CallQuit 0 None] ∧
  statuses (run repack_py never [("c.tmp", 7%N)] ["c"]) = [COMPLETED] ∧
  calls (run repack_py never [("c.tmp", 7%N)] ["c"])
    = [CallSetup (inr 0); CallClick 0 "c" (inr true); CallQuit 0 None].
Proof. by vm_compute. Qed.

(** C8, witness. *)
Lemma C8_witness :
  url <$> download_items (load repack_py ["a"; "b"; "a"; "c"; "b"] (start [] [])).2
    = ["a"; "b"; "c"] ∧
  NoDup (url <$> download_items (load repack_py ["a"; "b"; "a"; "c"; "b"] (start [] [])).2).
Proof.
  split; [by vm_compute|].
  refine (proj1 (C8_load_deduplicates repack_py ["a"; "b"; "a"; "c"; "b"] (start [] []) _)).
  done.
Defined.

(** C9, witness: the file of [locked] cannot be read. *)
Lemma C9_witness :
  ∃ it', download_items (loop_body repack_py cfg 0 (acquired [] ["locked"])).2 !! 0
           = Some it' ∧
    status it' = COMPLETED ∧ error it' = error (new_DownloadItem "locked") ∧
    ∀ e, ("Checksum error: " +:+ e, Error)
           ∈ new_log (acquired [] ["locked"])
                     (loop_body repack_py cfg 0 (acquired [] ["locked"])).2 →
         checksum it' = None ∧
         (loop_body repack_py cfg 0 (acquired [] ["locked"])).1 = Returns Continue.
Proof.
  refine (proj2 (C9_checksum_error_keeps_completed cfg repack_py) 0
    (acquired [] ["locked"]) _ _ (new_DownloadItem "locked") 0 "locked" _ _ _).
  - by vm_compute.
  - by vm_compute.
  - vm_compute. apply list_elem_of_here.
Defined.


(** The same download in a run of the worker: the task ends [Completed]
    with size 0 and no digest. *)
Example scenario_missing_artifact v :
  statuses (run v never [] ["ghost"]) = [COMPLETED] ∧
  (size <$> download_items (run v never [] ["ghost"])) = [0%Q] ∧
  (checksum <$> download_items (run v never [] ["ghost"])) = [None].
Proof. by destruct v; vm_compute. Qed.

(** * Concrete runs for the further properties *)

(** X1, witness: a file of 5000 bytes, read in two chunks. *)
Lemma checksum_covers_whole_file_witness :
  calculate_checksum "a.zip" (self (Lab.window (Lab.folder ["a.zip"]) [] ""))
  = (Returns (Some (sha256_hexdigest (Env := Lab.env) (replicate 5000 Byte.x00))),
     self (Lab.window (Lab.folder ["a.zip"]) [] "")).
Proof.
  apply (checksum_covers_whole_file "a.zip"
           (self (Lab.window (Lab.folder ["a.zip"]) [] ""))
           (replicate 5000 Byte.x00)).
  reflexivity.
Defined.

(** X3, witness: [a] is skipped, [bad] fails, [c] is downloaded. *)
Lemma clean_run_settles_every_task_witness :
  (∀ it, it ∈ download_items (run repack_py never [("a.zip", 5%N)] ["a"; "bad"; "c"]) →
         settled it) ∧
  pending (statistics
    (download_items (run repack_py never [("a.zip", 5%N)] ["a"; "bad"; "c"]))) = 0 ∧
  downloading (statistics
    (download_items (run repack_py never [("a.zip", 5%N)] ["a"; "bad"; "c"]))) = 0.
Proof.
  apply (clean_run_settles_every_task cfg repack_py never
           (start [("a.zip", 5%N)] ["a"; "bad"; "c"]) (Returns ())).
  - reflexivity.
  - reflexivity.
  - reflexivity.
  - by vm_compute.
  - intros e.
    let l := eval vm_compute in
      (new_msgs (start [("a.zip", 5%N)] ["a"; "bad"; "c"])
                (run repack_py never [("a.zip", 5%N)] ["a"; "bad"; "c"])) in
    change (MsgLog (error_prefix repack_py +:+ e) Error ∉ l).
    intros Hin. decompose_list_elem_of; discriminate.
Defined.

(** X6, witness: [c.tmp] cannot be removed; [b.part] is gone, [d.crdownload]
    is not tried. *)
Lemma clean_removes_temporary_files_until_failure_witness :
  ∃ w' new,
    Tk.clean_crdownload_files
      (Lab.window (Lab.with_locked ["c.tmp"]
                     (Lab.folder ["a.zip"; "b.part"; "c.tmp"; "d.crdownload"])) [] "")
    = (Returns (), w') ∧
    removals w' = [] ++ new ∧
    ((new = (λ f, (f, None))
              <$> temporary_files ["a.zip"; "b.part"; "c.tmp"; "d.crdownload"] ∧
      boxes w' = [] ++
        [if bool_decide (temporary_files ["a.zip"; "b.part"; "c.tmp"; "d.crdownload"] = [])
         then showinfo "Clean" "No temporary files found."
         else showinfo "Success"
                ("Removed "
                   +:+ pretty (length (temporary_files
                                         ["a.zip"; "b.part"; "c.tmp"; "d.crdownload"]))
                   +:+ " temporary files:" +:+ nl
                   +:+ String.concat nl
                         (take 5 (temporary_files
                                    ["a.zip"; "b.part"; "c.tmp"; "d.crdownload"])))])
     ∨ (∃ pre f post e,
          temporary_files ["a.zip"; "b.part"; "c.tmp"; "d.crdownload"] = pre ++ f :: post ∧
          new = ((λ f, (f, None)) <$> pre) ++ [(f, Some e)] ∧
          boxes w' = [] ++ [showerror "Error" ("Failed to clean files: " +:+ e)] ∧
          log_text (self w') = [] ++ [("Error cleaning files: " +:+ e, Error)])).
Proof.
  apply (clean_removes_temporary_files_until_failure
           (Lab.window (Lab.with_locked ["c.tmp"]
                          (Lab.folder ["a.zip"; "b.part"; "c.tmp"; "d.crdownload"])) [] "")
           ["a.zip"; "b.part"; "c.tmp"; "d.crdownload"]); by vm_compute.
Defined.

(** The run of the witness above, computed. *)
Example clean_stops_at_locked_file :
  removals (Tk.clean_crdownload_files
              (Lab.window (Lab.with_locked ["c.tmp"]
                 (Lab.folder ["a.zip"; "b.part"; "c.tmp"; "d.crdownload"])) [] "")).2
  = [("b.part", None); ("c.tmp", Some "PermissionError")] ∧
  Lab.dir (world (self (Tk.clean_crdownload_files
              (Lab.window (Lab.with_locked ["c.tmp"]
                 (Lab.folder ["a.zip"; "b.part"; "c.tmp"; "d.crdownload"])) [] "")).2))
  = ["a.zip"; "c.tmp"; "d.crdownload"].
Proof. by vm_compute. Qed.

(** X7, witness: the output directory does not exist. *)
Lemma clean_without_listing_removes_nothing_witness :
  ∃ w' box,
    Tk.clean_crdownload_files
      (set_output_var "missing" (Lab.window (Lab.folder ["b.part"]) [] ""))
    = (Returns (), w') ∧
    removals w' = [] ∧ world (self w') = Lab.folder ["b.part"] ∧ boxes w' = [] ++ [box].
Proof.
  apply (clean_without_listing_removes_nothing
           (set_output_var "missing" (Lab.window (Lab.folder ["b.part"]) [] ""))).
  right. left. reflexivity.
Defined.

(** X8, witness. *)
Lemma check_queue_ends_idle_witness :
  ∃ w', Tk.check_queue repack_py
          (set_inbox [Of (MsgProgress 50); Of MsgUpdateQueue; Of MsgDownloadComplete]
             (Lab.window (Lab.folder []) ["a"] ""))
        = (Returns (), w') ∧ Tk.idle w' ∧ inbox w' = [].
Proof.
  apply (check_queue_ends_idle repack_py [Of (MsgProgress 50); Of MsgUpdateQueue]
           (set_inbox [Of (MsgProgress 50); Of MsgUpdateQueue; Of MsgDownloadComplete]
              (Lab.window (Lab.folder []) ["a"] ""))).
  reflexivity.
Defined.

(** X9, witness: a batch of two tasks. *)
Lemma batch_returns_to_idle_witness :
  ∃ w1, Tk.start_downloads repack_py (Lab.window (Lab.folder []) ["a"; "b"] "")
        = (Returns (), w1) ∧ Tk.busy w1 ∧
    threads w1 = [] ++ [download_thread] ∧
    ∀ w2, Tk.run_download_thread repack_py Lab.never w1 = (Returns (), w2) →
      ∃ w3, Tk.check_queue repack_py w2 = (Returns (), w3) ∧ Tk.idle w3 ∧ inbox w3 = [].
Proof.
  apply (batch_returns_to_idle repack_py Lab.never
           (Lab.window (Lab.folder []) ["a"; "b"] "")); by vm_compute.
Defined.

(** The batch of the witness above, computed: both tasks completed, the
    GUI idle. *)
Example batch_of_two :
  let w1 := (Tk.start_downloads repack_py (Lab.window (Lab.folder []) ["a"; "b"] "")).2 in
  let w2 := (Tk.run_download_thread repack_py Lab.never w1).2 in
  let w3 := (Tk.check_queue repack_py w2).2 in
  (Tk.run_download_thread repack_py Lab.never w1).1 = Returns () ∧
  status <$> download_items (self w3) = [COMPLETED; COMPLETED] ∧
  is_downloading (self w3) = false ∧ start_btn w3 = NORMAL ∧
  completed (statistics (download_items (self w3))) = 2.
Proof. by vm_compute. Qed.

(** X10, witness: [driver.quit()] raises. *)
Lemma failed_teardown_leaves_gui_busy_witness :
  ∃ w3,
    Tk.check_queue repack_py
      (Tk.run_download_thread repack_py Lab.never
         (Tk.start_downloads repack_py
            (Lab.window (Lab.with_quit_raises true (Lab.folder [])) ["a"] "")).2).2
    = (Returns (), w3) ∧ Tk.busy w3 ∧ inbox w3 = [].
Proof.
  apply (failed_teardown_leaves_gui_busy repack_py Lab.never
           (Tk.start_downloads repack_py
              (Lab.window (Lab.with_quit_raises true (Lab.folder [])) ["a"] "")).2
           "WebDriverException").
  - reflexivity.
  - vm_compute. apply not_elem_of_nil.
  - by vm_compute.
  - by vm_compute.
Defined.


(** The simulated settings file reads back what was dumped. *)
Lemma lab_settings_file (j : gmap string Json) (wd0 wd1 : Lab.World) :
  settings_dump j wd0 = (None, wd1) →
  path_exists Tk.settings_file wd1 = true ∧ settings_load wd1 = inr (JDict j).
Proof. intros [= <-]. by vm_compute. Defined.

(** X12, witness: [repack.py] saves with checksums off and a threshold of 7;
    a fresh window loads the threshold and keeps its own checksum switch. *)
Lemma settings_round_trip_witness :
  Tk.save_settings repack_py
    (set_tk_vars (mkSettings false true false 7) (Lab.window (Lab.folder []) [] ""))
  = (Returns (),
     set_self
       (set_world
          (Lab.with_settings
             (Some (JDict (Tk.saved_settings repack_py
                (set_tk_vars (mkSettings false true false 7)
                   (Lab.window (Lab.folder []) [] "")))))
             (Lab.folder []))
          (self (set_tk_vars (mkSettings false true false 7)
                   (Lab.window (Lab.folder []) [] ""))))
       (set_tk_vars (mkSettings false true false 7) (Lab.window (Lab.folder []) [] ""))) ∧
  Tk.load_settings
    (Lab.window
       (Lab.with_settings
          (Some (JDict (Tk.saved_settings repack_py
             (set_tk_vars (mkSettings false true false 7)
                (Lab.window (Lab.folder []) [] "")))))
          (Lab.folder [])) [] "")
  = (Returns (),
     set_tk_vars (mkSettings true true true 7)
       (set_output_var "out"
          (Lab.window
             (Lab.with_settings
                (Some (JDict (Tk.saved_settings repack_py
                   (set_tk_vars (mkSettings false true false 7)
                      (Lab.window (Lab.folder []) [] "")))))
                (Lab.folder [])) [] ""))).
Proof.
  apply (settings_round_trip repack_py
           (set_tk_vars (mkSettings false true false 7) (Lab.window (Lab.folder []) [] ""))
           (Lab.window
              (Lab.with_settings
                 (Some (JDict (Tk.saved_settings repack_py
                    (set_tk_vars (mkSettings false true false 7)
                       (Lab.window (Lab.folder []) [] "")))))
                 (Lab.folder [])) [] "")
           (Lab.with_settings
              (Some (JDict (Tk.saved_settings repack_py
                 (set_tk_vars (mkSettings false true false 7)
                    (Lab.window (Lab.folder []) [] "")))))
              (Lab.folder []))).
  - apply lab_settings_file.
  - reflexivity.
  - reflexivity.
Defined.

(** X13, witness: no settings file. *)
Lemma load_settings_ignores_unusable_file_witness :
  Tk.load_settings (Lab.window (Lab.folder []) [] "")
  = (Returns (), Lab.window (Lab.folder []) [] "").
Proof.
  apply (load_settings_ignores_unusable_file (Lab.window (Lab.folder []) [] "")).
  left. reflexivity.
Defined.

(** X14, witness: [headless] holds a list. *)
Lemma load_settings_stops_at_rejected_value_witness :
  Tk.load_settings
    (Lab.window
       (Lab.with_settings
          (Some (JDict (list_to_map [("output_dir", JString "d"); ("headless", JOther);
                                     ("session_refresh", JInt 7)])))
          (Lab.folder [])) [] "")
  = (Returns (),
     set_output_var "d"
       (Lab.window
          (Lab.with_settings
             (Some (JDict (list_to_map [("output_dir", JString "d"); ("headless", JOther);
                                        ("session_refresh", JInt 7)])))
             (Lab.folder [])) [] "")).
Proof.
  apply (load_settings_stops_at_rejected_value
           (Lab.window
              (Lab.with_settings
                 (Some (JDict (list_to_map [("output_dir", JString "d"); ("headless", JOther);
                                            ("session_refresh", JInt 7)])))
                 (Lab.folder [])) [] "")
           (list_to_map [("output_dir", JString "d"); ("headless", JOther);
                         ("session_refresh", JInt 7)])
           "d" JOther "TclError"); by vm_compute.
Defined.

(** X15, witness: [a] and [b] in the text file, [b] and [c] on the page. *)
Lemma repack_loads_text_then_scraped_urls_witness :
  ∃ w',
    Tk.load_urls repack_py
      (Lab.window (Lab.with_page (inr ["b"; "c"])
                     (Lab.with_text_file ["a"; "b"] (Lab.folder []))) [] "main")
    = (Returns (), w') ∧
    download_items (self w')
    = new_DownloadItem (World := Lab.World) <$> dict_fromkeys (["a"; "b"] ++ ["b"; "c"]) ∧
    queue_tree w' = rows (World := Lab.World) repack_py (download_items (self w')) ∧
    new_calls
      (self (Lab.window (Lab.with_page (inr ["b"; "c"])
                           (Lab.with_text_file ["a"; "b"] (Lab.folder []))) [] "main"))
      (self w')
    = [CallSetup (inr 0); CallQuit 0 None].
Proof.
  eapply (repack_loads_text_then_scraped_urls
           (Lab.window (Lab.with_page (inr ["b"; "c"])
                          (Lab.with_text_file ["a"; "b"] (Lab.folder []))) [] "main")
           ["a"; "b"] _ 0 _ ["b"; "c"] _ None _); first [reflexivity|by vm_compute].
Defined.

(** The run of the witness above, computed: three tasks, in this order. *)
Example repack_loads_three_urls :
  url <$> download_items (self (Tk.load_urls repack_py
      (Lab.window (Lab.with_page (inr ["b"; "c"])
                     (Lab.with_text_file ["a"; "b"] (Lab.folder []))) [] "main")).2)
  = ["a"; "b"; "c"].
Proof. by vm_compute. Qed.

(** X16, witness: the page cannot be scraped. *)
Lemma repack_failed_scrape_keeps_text_file_urls_witness :
  ∃ w',
    Tk.load_urls repack_py
      (Lab.window (Lab.with_page (inl "TimeoutException")
                     (Lab.with_text_file ["a"; "b"] (Lab.folder []))) [] "main")
    = (Returns (), w') ∧
    download_items (self w') = new_DownloadItem (World := Lab.World) <$> dict_fromkeys ["a"; "b"] ∧
    new_calls
      (self (Lab.window (Lab.with_page (inl "TimeoutException")
                           (Lab.with_text_file ["a"; "b"] (Lab.folder []))) [] "main"))
      (self w')
    = [CallSetup (inr 0)] ∧
    ("Error scraping: " +:+ "TimeoutException", Error)
      ∈ new_log
          (self (Lab.window (Lab.with_page (inl "TimeoutException")
                               (Lab.with_text_file ["a"; "b"] (Lab.folder []))) [] "main"))
          (self w').
Proof.
  eapply (repack_failed_scrape_keeps_text_file_urls
           (Lab.window (Lab.with_page (inl "TimeoutException")
                          (Lab.with_text_file ["a"; "b"] (Lab.folder []))) [] "main")
           ["a"; "b"] _ 0 _ "TimeoutException" _); first [reflexivity|by vm_compute].
Defined.

(** X18, witness: the same text file and page under [richer_gui.py]. *)
Lemma richer_main_url_discards_text_file_urls_witness :
  ∃ w1 w3,
    Tk.load_urls richer_gui_py
      (Lab.window (Lab.with_page (inr ["b"; "c"])
                     (Lab.with_text_file ["a"; "b"] (Lab.folder []))) [] "main")
    = (Returns (), w1) ∧
    download_items (self w1) = [] ∧
    threads w1 = [] ++ [scrape_thread "main"] ∧
    (Tk.scrape_worker "main";; Tk.check_queue richer_gui_py) w1 = (Returns (), w3) ∧
    download_items (self w3) = new_DownloadItem (World := Lab.World) <$> dict_fromkeys ["b"; "c"] ∧
    queue_tree w3 = rows (World := Lab.World) richer_gui_py (download_items (self w3)) ∧
    inbox w3 = [].
Proof.
  refine (richer_main_url_discards_text_file_urls
            (Lab.window (Lab.with_page (inr ["b"; "c"])
                           (Lab.with_text_file ["a"; "b"] (Lab.folder []))) [] "main")
            ["a"; "b"] _ 0 _ ["b"; "c"] _ _ _ _ _ _ _ _ _); first [reflexivity|by vm_compute].
Defined.

(** X19, witness: the links are scraped and [driver.quit()] raises. *)
Lemma richer_failed_scrape_keeps_the_queue_witness :
  ∃ w3,
    (Tk.scrape_worker "main";; Tk.check_queue richer_gui_py)
      (Lab.window (Lab.with_quit_raises true
                     (Lab.with_page (inr ["b"; "c"]) (Lab.folder []))) ["a"] "main")
    = (Returns (), w3) ∧
    download_items (self w3) = new_DownloadItem (World := Lab.World) <$> ["a"] ∧
    queue_tree w3 = [] ∧
    status_label w3 = "Scraping failed" ∧
    inbox w3 = [].
Proof.
  apply (richer_failed_scrape_keeps_the_queue
           (Lab.window (Lab.with_quit_raises true
                          (Lab.with_page (inr ["b"; "c"]) (Lab.folder []))) ["a"] "main")
           "main"); [reflexivity|].
  right. right. right.
  eexists _, 0, _, ["b"; "c"], _, "WebDriverException", _. by vm_compute.
Defined.

(** X21, witness: the row of the second of two tasks. *)
Lemma queue_view_after_run_witness :
  ∃ it', download_items (download_worker repack_py cfg never (start [] ["a"; "b"])).2 !! 1
         = Some it' ∧
    length (rows repack_py
              (download_items (download_worker repack_py cfg never (start [] ["a"; "b"])).2))
    = length ["a"; "b"] ∧
    rows repack_py
      (download_items (download_worker repack_py cfg never (start [] ["a"; "b"])).2) !! 1
    = Some (mkRow (pretty 2)
              (filename (new_DownloadItem "b"),
               status_icon repack_py (status it') +:+ " " +:+ status_value (status it'),
               "-", size_str repack_py it')
              (status_value (status it'))).
Proof.
  apply (queue_view_after_run repack_py cfg never (start [] ["a"; "b"]) ["a"; "b"] 1 "b");
    reflexivity.
Defined.

(** The run of the witness of X18, computed: [a] is not loaded. *)
Example richer_loads_scraped_urls_only :
  url <$> download_items (self
    ((Tk.load_urls richer_gui_py;; Tk.scrape_worker "main";; Tk.check_queue richer_gui_py)
       (Lab.window (Lab.with_page (inr ["b"; "c"])
                      (Lab.with_text_file ["a"; "b"] (Lab.folder []))) [] "main")).2)
  = ["b"; "c"].
Proof. by vm_compute. Qed.

(** X24, witness: with threshold 2 the second session is acquired after
    [a] and [b] were downloaded on the first. *)
Lemma session_is_recycled_only_at_threshold_witness :
  (session_refresh_var cfg
   ≤ completed_since_acquire
       (take 4 (new_calls (start [] ["a"; "b"; "c"])
                  (download_worker repack_py cfg never (start [] ["a"; "b"; "c"])).2)))%Z.
Proof.
  apply (session_is_recycled_only_at_threshold cfg repack_py never
           (start [] ["a"; "b"; "c"]) 4 (inr 1)).
  - lia.
  - by vm_compute.
Defined.

(** X17, witness: the text file holds no url and the url field is empty. *)
Lemma empty_input_keeps_or_clears_the_queue_witness :
  ∃ w', Tk.load_urls repack_py (Lab.window (Lab.folder []) ["a"] "") = (Returns (), w') ∧
    download_items (self w')
    = download_items (self (Lab.window (Lab.folder []) ["a"] "")) ∧
    queue_tree w' = queue_tree (Lab.window (Lab.folder []) ["a"] "") ∧
    boxes w' = boxes (Lab.window (Lab.folder []) ["a"] "") ++
      [showwarning "No URLs"
         "No URLs found. Please provide a text file or main page URL."].
Proof.
  apply (proj1 (empty_input_keeps_or_clears_the_queue
                  (Lab.window (Lab.folder []) ["a"] ""))); reflexivity.
Defined.

